(** * Credential lifecycle and GitLab integration layer

    A shallow embedding of the backend's Python modules
    [encryption.py], [gitlab_validator.py], [gitlab_tools.py],
    [gitlab_agent.py] and the GitLab configuration endpoints of
    [llm_service.py], followed by the properties the specification
    states about them.

    Conventions of the embedding.
    - A Python [str] is a [string] holding the UTF-8 bytes of the text;
      [bytes] is [list byte].  [str.encode()] is therefore the byte view
      and [bytes.decode()] checks that the bytes are well-formed UTF-8.
      A character is a code point together with its bytes ([chars]).
      [str.strip()] and the class [\s] use Python's table of whitespace;
      the class [\d] and [int()] use the interpreter's table of decimal
      digits, a field of [World].  [str.lower()] changes the letters
      [A]-[Z] only: the code looks in the lowered text for ASCII words.
    - Code that may raise lives in the monad [M]: a computation takes the
      system state and returns [Ok v] or [Raise e] with the new state.
      [try_except] is Python's [try ... except Exception].
    - Everything outside the repository (the process environment, the
      random generator, the clock, pydantic's URL check, the HTTP
      transport and the server behind it) is a field of [World]; the
      [cryptography] package is the record [FernetLib]. *)

From Stdlib Require Import String Ascii List NArith ZArith Bool Lia PeanoNat.
From Stdlib.Strings Require Import Byte.
From Stdlib Require Import DecimalString.
Import ListNotations.

Local Open Scope Z_scope.
Local Open Scope string_scope.

Definition bytes := list byte.

(* ================================================================= *)
(** ** Python built-ins used by the code *)

Definition str_truthy (s : string) : bool := negb (s =? "").

Definition opt_truthy (o : option string) : bool :=
  match o with
  | Some s => str_truthy s
  | None => false
  end.

(** [x or d] for an optional string [x]. *)
Definition py_or (o : option string) (d : string) : string :=
  match o with
  | Some s => if str_truthy s then s else d
  | None => d
  end.

Fixpoint rstrip_by (p : ascii -> bool) (s : string) : string :=
  match s with
  | EmptyString => EmptyString
  | String c r =>
      let r' := rstrip_by p r in
      if (r' =? "") && p c then EmptyString else String c r'
  end.

(** [s.rstrip('/')] *)
Definition rstrip_slash (s : string) : string :=
  rstrip_by (Ascii.eqb "/") s.

Definition lower_ascii (c : ascii) : ascii :=
  let n := nat_of_ascii c in
  if ((65 <=? n) && (n <=? 90))%nat then ascii_of_nat (n + 32) else c.

(** [s.lower()] *)
Fixpoint lower (s : string) : string :=
  match s with
  | EmptyString => EmptyString
  | String c r => String (lower_ascii c) (lower r)
  end.

Definition nl_char : ascii := ascii_of_nat 10.

(** The one-character string [chr(10)]. *)
Definition nl : string := String nl_char "".

(** [s.startswith(p)] *)
Definition startswith (s p : string) : bool := prefix p s.

(** [sub in s] *)
Fixpoint contains (sub s : string) : bool :=
  prefix sub s ||
  match s with
  | EmptyString => false
  | String _ r => contains sub r
  end.

Fixpoint drop (n : nat) (s : string) : string :=
  match n, s with
  | O, _ => s
  | S n', String _ r => drop n' r
  | S _, EmptyString => EmptyString
  end.

(** [sep.join(parts)] *)
Fixpoint join (sep : string) (parts : list string) : string :=
  match parts with
  | [] => ""
  | [p] => p
  | p :: rest => p ++ sep ++ join sep rest
  end.

(** [s.split(c)] for a one-character separator. *)
Fixpoint split (c : ascii) (s : string) : list string :=
  match s with
  | EmptyString => [""]
  | String a r =>
      if Ascii.eqb a c then "" :: split c r
      else match split c r with
           | [] => [String a ""]
           | h :: t => String a h :: t
           end
  end.

(** [s.split(c)[0]] *)
Definition split_head (c : ascii) (s : string) : string :=
  hd "" (split c s).

(** [str(n)] for an integer. *)
Definition str_of_Z (z : Z) : string := NilZero.string_of_int (Z.to_int z).

(** [enumerate(l, n)] *)
Fixpoint enumerate {A} (n : nat) (l : list A) : list (nat * A) :=
  match l with
  | [] => []
  | x :: r => (n, x) :: enumerate (S n) r
  end.

(** [s.encode()] *)
Definition encode (s : string) : bytes := list_byte_of_string s.

Definition in_range (lo hi : N) (b : byte) : bool :=
  let n := Byte.to_N b in (N.leb lo n && N.leb n hi)%N.

Definition cont (b : byte) : bool := in_range 128 191 b.

(** Well-formed UTF-8 (the table of RFC 3629, which excludes overlong
    forms, surrogates and code points above U+10FFFF). *)
Fixpoint utf8_valid (l : bytes) : bool :=
  match l with
  | [] => true
  | b1 :: r1 =>
      if in_range 0 127 b1 then utf8_valid r1
      else match r1 with
      | [] => false
      | b2 :: r2 =>
          if in_range 194 223 b1 then cont b2 && utf8_valid r2
          else match r2 with
          | [] => false
          | b3 :: r3 =>
              if in_range 224 239 b1 then
                (if in_range 224 224 b1 then in_range 160 191 b2
                 else if in_range 237 237 b1 then in_range 128 159 b2
                 else cont b2)
                && cont b3 && utf8_valid r3
              else match r3 with
              | [] => false
              | b4 :: r4 =>
                  in_range 240 244 b1
                  && (if in_range 240 240 b1 then in_range 144 191 b2
                      else if in_range 244 244 b1 then in_range 128 143 b2
                      else cont b2)
                  && cont b3 && cont b4 && utf8_valid r4
              end
          end
      end
  end.

(* ================================================================= *)
(** ** Characters *)

(** A character of a text: its code point and the bytes that encode it. *)
Record char : Type := { code : N; utf8 : string }.

(** The number of bytes of the first character of [s]: the shortest
    prefix that is well-formed UTF-8, and one byte where there is none. *)
Definition char_length (s : string) : nat :=
  let valid k :=
    (String.length (substring 0 k s) =? k)%nat &&
    utf8_valid (encode (substring 0 k s)) in
  if valid 1%nat then 1%nat
  else if valid 2%nat then 2%nat
  else if valid 3%nat then 3%nat
  else if valid 4%nat then 4%nat
  else 1%nat.

(** The code point that the bytes of one character encode.  A byte that
    belongs to no character is read as Python's [surrogateescape] reads
    it. *)
Definition code_point (bs : string) : N :=
  match map N_of_ascii (list_ascii_of_string bs) with
  | [a] => if (a <? 128)%N then a else (56320 + a)%N
  | [a; b] => ((a - 192) * 64 + (b - 128))%N
  | [a; b; c] => (((a - 224) * 64 + (b - 128)) * 64 + (c - 128))%N
  | [a; b; c; d] =>
      ((((a - 240) * 64 + (b - 128)) * 64 + (c - 128)) * 64 + (d - 128))%N
  | _ => 0%N
  end.

(** The characters of [s] from its first byte on, once [skip] bytes of a
    character already read have gone by. *)
Fixpoint chars_from (skip : nat) (s : string) : list char :=
  match s with
  | EmptyString => []
  | String _ r =>
      match skip with
      | S k => chars_from k r
      | O =>
          let n := char_length s in
          let bs := substring 0 n s in
          {| code := code_point bs; utf8 := bs |} :: chars_from (n - 1) r
      end
  end.

(** The characters of a text. *)
Definition chars (s : string) : list char := chars_from 0 s.

(** The text made of the characters. *)
Definition str_of_chars (cs : list char) : string :=
  String.concat "" (map utf8 cs).

(** [c.isspace()], which is also the class [\s]: the characters of
    bidirectional type WS, B or S and of category Zs. *)
Definition py_isspace (c : char) : bool :=
  let n := code c in
  (((9 <=? n) && (n <=? 13)) || ((28 <=? n) && (n <=? 32)) ||
   (n =? 133) || (n =? 160) || (n =? 5760) ||
   ((8192 <=? n) && (n <=? 8202)) || (n =? 8232) || (n =? 8233) ||
   (n =? 8239) || (n =? 8287) || (n =? 12288))%N.

Fixpoint lstrip_chars (p : char -> bool) (cs : list char) : list char :=
  match cs with
  | [] => []
  | c :: r => if p c then lstrip_chars p r else cs
  end.

Definition rstrip_chars (p : char -> bool) (cs : list char) : list char :=
  rev (lstrip_chars p (rev cs)).

(** [s.strip()] *)
Definition strip (s : string) : string :=
  str_of_chars (rstrip_chars py_isspace (lstrip_chars py_isspace (chars s))).

(** The text can be encoded as ASCII. *)
Definition is_ascii (s : string) : bool :=
  forallb (fun c => (nat_of_ascii c <? 128)%nat) (list_ascii_of_string s).

(* ================================================================= *)
(** ** Exceptions *)

Inductive exn : Type :=
| ValidationError (msg : string)                      (* pydantic *)
| TimeoutException (msg : string)                     (* httpx *)
| NetworkError (msg : string)                         (* httpx *)
| HTTPStatusError (msg : string) (status_code : Z) (text : string) (* httpx *)
| InvalidToken                                        (* cryptography.fernet *)
| ValueError (msg : string)
| UnicodeDecodeError (msg : string)
| HTTPException (status_code : Z) (detail : string)   (* fastapi *)
| OtherException (msg : string).      (* any other subclass of Exception *)

(** [str(e)] *)
Definition str_exn (e : exn) : string :=
  match e with
  | ValidationError m | TimeoutException m | NetworkError m
  | ValueError m | UnicodeDecodeError m | OtherException m => m
  | HTTPStatusError m _ _ => m
  | InvalidToken => ""
  | HTTPException c d => str_of_Z c ++ ": " ++ d
  end.

Inductive result (A : Type) : Type :=
| Ok (a : A)
| Raise (e : exn).
Arguments Ok {A} a.
Arguments Raise {A} e.

(* ================================================================= *)
(** ** The pattern [(?:!|mr|merge\s+request)\s*(\d+)] and [int()] *)

Section Pattern.

(** [unicodedata.decimal]: the value of a decimal digit. *)
Variable decimal : N -> option nat.

Definition is_decimal (c : char) : bool :=
  match decimal (code c) with
  | Some _ => true
  | None => false
  end.

Definition digit_value (c : char) : Z :=
  match decimal (code c) with
  | Some d => Z.of_nat d
  | None => 0
  end.

(** The longest run of decimal digits at the front: what [\d+] takes. *)
Fixpoint take_digits (cs : list char) : list char :=
  match cs with
  | [] => []
  | c :: r => if is_decimal c then c :: take_digits r else []
  end.

(** [(\d+)] at the front of [cs]: group 1. *)
Definition digits_here (cs : list char) : option (list char) :=
  match take_digits cs with
  | [] => None
  | digits => Some digits
  end.

(** [\s*(\d+)] at the front of [cs]: group 1.  [\s*] takes all the
    whitespace there is and gives it back character by character as long
    as no digit follows. *)
Fixpoint spaces_digits (cs : list char) : option (list char) :=
  match cs with
  | [] => None
  | c :: r =>
      if py_isspace c then
        match spaces_digits r with
        | Some digits => Some digits
        | None => digits_here cs
        end
      else digits_here cs
  end.

(** The alternation at the start of [s]; the characters after it.  The
    three branches exclude one another, and [request] cannot start at a
    whitespace character, so no backtracking is lost. *)
Definition match_keyword (s : string) : option (list char) :=
  if prefix "!" s then Some (chars (drop 1 s))
  else if prefix "mr" s then Some (chars (drop 2 s))
  else if prefix "merge" s then
    let cs := chars (drop 5 s) in
    let cs' := lstrip_chars py_isspace cs in
    if (length cs' <? length cs)%nat && prefix "request" (str_of_chars cs')
    then Some (skipn 7 cs')
    else None
  else None.

(** A match starting at the first character of [s]; group 1. *)
Definition match_here (s : string) : option (list char) :=
  match match_keyword s with
  | Some cs => spaces_digits cs
  | None => None
  end.

(** [re.search(pattern, s)]: the leftmost match; group 1. *)
Fixpoint re_search_mr_number (s : string) : option (list char) :=
  match match_here s with
  | Some digits => Some digits
  | None =>
      match s with
      | EmptyString => None
      | String _ r => re_search_mr_number r
      end
  end.

(** [sys.get_int_max_str_digits()]; 0 lifts the limit. *)
Variable max_str_digits : nat.

(** [int(s)] for the text of a group [(\d+)].  (Signs, blanks and
    underscores, which [int()] reads too, do not occur there.)  Above 640
    digits the interpreter checks the length against its limit. *)
Definition int_of_digits (digits : list char) : result Z :=
  if forallb is_decimal digits && negb (length digits =? 0)%nat then
    if (640 <? length digits)%nat && (0 <? max_str_digits)%nat &&
       (max_str_digits <? length digits)%nat
    then Raise (ValueError
                  "Exceeds the limit for integer string conversion")
    else Ok (fold_left (fun acc c => 10 * acc + digit_value c) digits 0)
  else Raise (ValueError "invalid literal for int() with base 10").

End Pattern.

(* ================================================================= *)
(** ** Identifiers

    The primary keys are columns of type [UUID]: a row's [id] is the
    128-bit number of its UUID.  [str(config.id)] writes it in the
    canonical form; a text that the code compares with the column is read
    by the database as a UUID first. *)

Definition hex_digit (n : N) : ascii :=
  match n with
  | 0%N => "0" | 1%N => "1" | 2%N => "2" | 3%N => "3"
  | 4%N => "4" | 5%N => "5" | 6%N => "6" | 7%N => "7"
  | 8%N => "8" | 9%N => "9" | 10%N => "a" | 11%N => "b"
  | 12%N => "c" | 13%N => "d" | 14%N => "e" | _ => "f"
  end%char.

(** The bytes [i], [i+1], ... ([n] of them) of the sixteen bytes of [u],
    in hexadecimal, with a hyphen after the bytes 3, 5, 7 and 9. *)
Fixpoint hex_bytes (i n : nat) (u : N) : string :=
  match n with
  | O => ""
  | S n' =>
      let b := ((u / 256 ^ N.of_nat (15 - i)) mod 256)%N in
      String (hex_digit (b / 16)) (String (hex_digit (b mod 16))
        ((if (i =? 3) || (i =? 5) || (i =? 7) || (i =? 9) then "-" else "")%nat
         ++ hex_bytes (S i) n' u))
  end.

(** [str(u)] for a UUID [u] *)
Definition str_uuid (u : N) : string := hex_bytes 0 16 u.

Definition is_xdigit (c : ascii) : bool :=
  let n := nat_of_ascii c in
  (((48 <=? n) && (n <=? 57)) || ((65 <=? n) && (n <=? 70)) ||
   ((97 <=? n) && (n <=? 102)))%nat.

Definition xdigit_value (c : ascii) : N :=
  let n := N_of_ascii c in
  (if n <=? 57 then n - 48 else if n <=? 70 then n - 55 else n - 87)%N.

(** The loop of PostgreSQL's [string_to_uuid]: [n] more bytes from byte
    [i] on, two hexadecimal digits each, a hyphen allowed after every
    second byte but the last; the number read and the text left over. *)
Fixpoint uuid_bytes (i n : nat) (acc : N) (src : string)
  : option (N * string) :=
  match n with
  | O => Some (acc, src)
  | S n' =>
      match src with
      | String a (String b r) =>
          if is_xdigit a && is_xdigit b then
            let r := if prefix "-" r && Nat.odd i && (i <? 15)%nat
                     then drop 1 r else r in
            uuid_bytes (S i) n'
              (256 * acc + 16 * xdigit_value a + xdigit_value b)%N r
          else None
      | _ => None
      end
  end.

(** The input function of the type [uuid]: the 128-bit number, or [None]
    where the database reports an invalid input syntax.  Braces around
    the text are allowed. *)
Definition uuid_in (source : string) : option N :=
  let braces := prefix "{" source in
  let src := if braces then drop 1 source else source in
  match uuid_bytes 0 16 0 src with
  | Some (u, rest) =>
      if rest =? (if braces then "}" else "") then Some u else None
  | None => None
  end.

(* ================================================================= *)
(** ** models.py and schemas.py *)

Module GitLabConfig.
Record t : Type := mk {
  id : N;
  user_id : string;
  config_name : option string;
  gitlab_url : string;
  access_token_encrypted : bytes;
  project_id : option string;
  is_active : bool;
  created_at : Z;
  updated_at : Z
}.

(** Attribute assignments on a row object. *)
Definition set_config_name (v : option string) (c : t) : t :=
  mk (id c) (user_id c) v (gitlab_url c) (access_token_encrypted c)
     (project_id c) (is_active c) (created_at c) (updated_at c).
Definition set_gitlab_url (v : string) (c : t) : t :=
  mk (id c) (user_id c) (config_name c) v (access_token_encrypted c)
     (project_id c) (is_active c) (created_at c) (updated_at c).
Definition set_access_token_encrypted (v : bytes) (c : t) : t :=
  mk (id c) (user_id c) (config_name c) (gitlab_url c) v
     (project_id c) (is_active c) (created_at c) (updated_at c).
Definition set_project_id (v : option string) (c : t) : t :=
  mk (id c) (user_id c) (config_name c) (gitlab_url c)
     (access_token_encrypted c) v (is_active c) (created_at c) (updated_at c).
Definition set_is_active (v : bool) (c : t) : t :=
  mk (id c) (user_id c) (config_name c) (gitlab_url c)
     (access_token_encrypted c) (project_id c) v (created_at c) (updated_at c).
Definition set_updated_at (v : Z) (c : t) : t :=
  mk (id c) (user_id c) (config_name c) (gitlab_url c)
     (access_token_encrypted c) (project_id c) (is_active c) (created_at c) v.
End GitLabConfig.

Module GitLabAgent.
Record t : Type := mk {
  user_id : string;
  gitlab_configs : list GitLabConfig.t;
  selected_config : option GitLabConfig.t
}.

Definition set_selected_config (v : option GitLabConfig.t) (a : t) : t :=
  mk (user_id a) (gitlab_configs a) v.
End GitLabAgent.

Module GitLabConfigCreate.
Record t : Type := mk {
  config_name : option string;
  gitlab_url : string;
  access_token : string;
  project_id : option string
}.
End GitLabConfigCreate.

Module GitLabConfigUpdate.
Record t : Type := mk {
  config_name : option string;
  gitlab_url : option string;
  access_token : option string;
  project_id : option string;
  is_active : option bool
}.
End GitLabConfigUpdate.

Module GitLabConfigResponse.
Record t : Type := mk {
  id : N;
  config_name : option string;
  gitlab_url : string;
  project_id : option string;
  is_active : bool;
  validation_message : option string;
  validation_error_code : option string;
  gitlab_username : option string;
  created_at : Z;
  updated_at : Z
}.
End GitLabConfigResponse.

Module GitLabValidationResult.
Record t : Type := mk {
  is_valid : bool;
  error_message : option string;
  error_code : option string;
  gitlab_username : option string
}.
End GitLabValidationResult.

(* ================================================================= *)
(** ** The GitLab REST API as the code reads it *)

(** A JSON value where the code expects an optional string. *)
Inductive pyval : Type :=
| PyNone
| PyStr (s : string)
| PyOther.          (* a number, a list, ...: not a valid [Optional[str]] *)

(** One merge request of the list and detail endpoints. *)
Record MergeRequest : Type := {
  iid : Z;
  title : string;
  author_name : string;
  author_username : string;
  state : string;
  source_branch : string;
  target_branch : string;
  labels : list string;
  upvotes : Z;
  downvotes : Z;
  mr_created_at : string;
  mr_updated_at : string;
  web_url : string;
  description : option (option string)  (* absent / null / a string *)
}.

Record Change : Type := {
  new_path : string;
  diff : option string
}.

(** What [response.json()] returns, as far as the code that reads it can
    tell.  The first four are what the three endpoints answer; an object
    is described by the members its reader asks for. *)
Inductive Body : Type :=
| JUser (username : option pyval)
    (* an object with a member or more; its [username] member if any *)
| JMergeRequests (l : list MergeRequest)     (* a list, maybe empty *)
| JMergeRequest (mr : MergeRequest)
| JChanges (changes : option (list Change))
    (* an object with a member or more; its [changes] member if any *)
| JEmpty            (* the object with no member *)
| JFalse            (* [null], [false], zero or the empty string *)
| JOther.           (* any other value, none of which Python counts as
                       false: a number, a string, [true], a list of
                       something else than merge requests *)

(** [bool(data)] *)
Definition body_truthy (data : Body) : bool :=
  match data with
  | JMergeRequests [] | JEmpty | JFalse => false
  | _ => true
  end.

Record Response : Type := {
  status_code : Z;
  text : string;
  json : option Body      (* [None]: the body is not JSON *)
}.

Record Request : Type := {
  req_url : string;
  req_private_token : string;
  req_params : list (string * string)
}.

(** What becomes of a call of [client.get]. *)
Inductive HttpOutcome : Type :=
| Responds (r : Response)  (* the server answers *)
| Fails (e : exn)          (* the transport raises: no connection, a
                              timeout, ... *)
| Refused (msg : string).  (* [client.get] raises before anything is
                              handed to the transport: it cannot parse the
                              URL ([httpx.InvalidURL]) *)

(* ================================================================= *)
(** ** External collaborators *)

Record World : Type := {
  (** [os.getenv("ENCRYPTION_KEY")] *)
  getenv_ENCRYPTION_KEY : option string;
  (** the n-th value the process draws from the random generator *)
  os_urandom : nat -> bytes;
  (** the n-th [uuid.uuid4()]: its low 128 bits are the UUID *)
  uuid4 : nat -> N;
  (** [datetime.utcnow()] and the database's [now()] *)
  utcnow : Z;
  (** does pydantic's [HttpUrl] accept the text *)
  HttpUrl_accepts : string -> bool;
  (** [unicodedata.decimal]: the value of the code point as a decimal
      digit, in the interpreter's version of Unicode *)
  unicode_decimal : N -> option nat;
  (** [sys.get_int_max_str_digits()]: 4300 unless configured; 0 lifts
      the limit *)
  int_max_str_digits : nat;
  (** the outcome of a GET, given the requests made before it *)
  client_get : list Request -> Request -> HttpOutcome
}.

(** The [cryptography] package. *)
Record FernetLib : Type := {
  (** [Fernet(key)] accepts the key (url-safe base64 of 32 bytes) *)
  Fernet_accepts : bytes -> bool;
  Fernet_generate_key : bytes -> bytes;
  (** key, fresh randomness (IV and timestamp), data *)
  Fernet_encrypt : bytes -> bytes -> bytes -> bytes;
  (** [None]: [InvalidToken] *)
  Fernet_decrypt : bytes -> bytes -> option bytes;
  (** length, salt, iterations, password *)
  PBKDF2HMAC_SHA256 : nat -> bytes -> N -> bytes -> bytes;
  urlsafe_b64encode : bytes -> bytes
}.

(** What the package documents about itself. *)
Record FernetLaws (L : FernetLib) : Prop := {
  generated_key_accepted :
    forall r, Fernet_accepts L (Fernet_generate_key L r) = true;
  derived_length :
    forall n salt it pw, length (PBKDF2HMAC_SHA256 L n salt it pw) = n;
  b64_of_32_accepted :
    forall b, length b = 32%nat -> Fernet_accepts L (urlsafe_b64encode L b) = true;
  decrypt_encrypt :
    forall k iv m, Fernet_accepts L k = true ->
      Fernet_decrypt L k (Fernet_encrypt L k iv m) = Some m
}.

(* ================================================================= *)
(** ** System state and the monad of the code *)

Record Sys : Type := {
  (** committed rows of [gitlab_configs] *)
  db : list GitLabConfig.t;
  (** every request handed to the HTTP transport so far, oldest first *)
  net_log : list Request;
  (** [gitlab_tools._current_gitlab_config] *)
  _current_gitlab_config : option GitLabConfig.t;
  (** how many random values were drawn *)
  drawn : nat
}.

Definition M (A : Type) : Type := Sys -> result A * Sys.

Definition ret {A} (a : A) : M A := fun s => (Ok a, s).

Definition bind {A B} (m : M A) (k : A -> M B) : M B :=
  fun s =>
    match m s with
    | (Ok a, s') => k a s'
    | (Raise e, s') => (Raise e, s')
    end.

Definition raise {A} (e : exn) : M A := fun s => (Raise e, s).

(** [try: body  except Exception as e: handler(e)] *)
Definition try_except {A} (body : M A) (handler : exn -> M A) : M A :=
  fun s =>
    match body s with
    | (Ok a, s') => (Ok a, s')
    | (Raise e, s') => handler e s'
    end.

Notation "x <- m ;; k" := (bind m (fun x => k))
  (at level 61, m at next level, right associativity).


Definition sys0 : Sys :=
  {| db := []; net_log := []; _current_gitlab_config := None; drawn := 0 |}.

(* ================================================================= *)
(** ** The program *)

Section Program.

Context (L : FernetLib) (W : World).

Definition urandom : M bytes :=
  fun s =>
    (Ok (os_urandom W (drawn s)),
     {| db := db s; net_log := net_log s;
        _current_gitlab_config := _current_gitlab_config s;
        drawn := S (drawn s) |}).

(** [b.decode()] *)
Definition decode (b : bytes) : M string :=
  if utf8_valid b then ret (string_of_list_byte b)
  else raise (UnicodeDecodeError "'utf-8' codec can't decode bytes").

(* ----------------------------------------------------------------- *)
(** *** encryption.py *)

(** The constructor [Fernet(key)]; the object is identified with its key. *)
Definition Fernet (key : bytes) : M bytes :=
  if Fernet_accepts L key then ret key
  else raise (ValueError "Fernet key must be 32 url-safe base64-encoded bytes.").

Definition get_encryption_key : M bytes :=
  let key_str := getenv_ENCRYPTION_KEY W in
  if negb (opt_truthy key_str) then
    r <- urandom ;;
    let key := Fernet_generate_key L r in
    ret key
  else
    let key_str := py_or key_str "" in
    try_except
      (let test_key := encode key_str in
       _ <- Fernet test_key ;;
       ret test_key)
      (fun _ =>
         let salt := encode "code-review-salt" in
         let key := urlsafe_b64encode L
                      (PBKDF2HMAC_SHA256 L 32 salt 100000%N (encode key_str)) in
         ret key).

Definition encrypt_token (token : string) : M bytes :=
  key <- get_encryption_key ;;
  fernet <- Fernet key ;;
  iv <- urandom ;;
  let encrypted := Fernet_encrypt L fernet iv (encode token) in
  ret encrypted.

Definition decrypt_token (encrypted_token : bytes) : M string :=
  key <- get_encryption_key ;;
  fernet <- Fernet key ;;
  match Fernet_decrypt L fernet encrypted_token with
  | None => raise InvalidToken
  | Some decrypted => decode decrypted
  end.

(* ----------------------------------------------------------------- *)
(** *** The HTTP client *)

(** [await client.get(url, headers={"PRIVATE-TOKEN": token}, params=...)].
    The client builds the request before it hands it to the transport: it
    parses the URL and then encodes the header value as ASCII, so a token
    that cannot be encoded raises [UnicodeEncodeError] (a [ValueError]).
    When it raises there, nothing reaches the transport. *)
Definition http_get (url token : string) (params : list (string * string))
  : M Response :=
  fun s =>
    let rq := {| req_url := url; req_private_token := token;
                 req_params := params |} in
    let s' := {| db := db s; net_log := (net_log s ++ [rq])%list;
                 _current_gitlab_config := _current_gitlab_config s;
                 drawn := drawn s |} in
    let unencodable := ValueError "'ascii' codec can't encode characters" in
    match client_get W (net_log s) rq with
    | Refused msg => (Raise (OtherException msg), s)
    | Responds r =>
        if is_ascii token then (Ok r, s') else (Raise unencodable, s)
    | Fails e =>
        if is_ascii token then (Raise e, s') else (Raise unencodable, s)
    end.

(** [response.json()] *)
Definition response_json (r : Response) : M Body :=
  match json r with
  | Some b => ret b
  | None => raise (ValueError "Expecting value")
  end.

(** [response.raise_for_status()] *)
Definition raise_for_status (r : Response) : M unit :=
  if ((200 <=? status_code r) && (status_code r <? 300))%Z then ret tt
  else raise (HTTPStatusError "error response" (status_code r) (text r)).

(* ----------------------------------------------------------------- *)
(** *** gitlab_validator.py *)

(** [HttpUrl(url)] *)
Definition HttpUrl (url : string) : M unit :=
  if HttpUrl_accepts W url then ret tt
  else raise (ValidationError "1 validation error for HttpUrl").

(** [data.get('username', 'unknown')] *)
Definition get_username (data : Body) : M pyval :=
  match data with
  | JUser (Some v) => ret v
  | JUser None | JMergeRequest _ | JChanges _ | JEmpty =>
      ret (PyStr "unknown")
  | JMergeRequests _ | JFalse | JOther =>
      raise (OtherException "object has no attribute 'get'")
  end.

(** The constructor of the pydantic model: [gitlab_username] must be a
    string or [None]. *)
Definition GitLabValidationResult_new
    (is_valid : bool) (error_message error_code : option string)
    (gitlab_username : pyval) : M GitLabValidationResult.t :=
  match gitlab_username with
  | PyNone =>
      ret (GitLabValidationResult.mk is_valid error_message error_code None)
  | PyStr u =>
      ret (GitLabValidationResult.mk is_valid error_message error_code (Some u))
  | PyOther =>
      raise (ValidationError "1 validation error for GitLabValidationResult")
  end.

Definition invalid (error_message error_code : string)
  : GitLabValidationResult.t :=
  GitLabValidationResult.mk false (Some error_message) (Some error_code) None.

Definition validate_gitlab_credentials (gitlab_url access_token : string)
  : M GitLabValidationResult.t :=
  let gitlab_url := rstrip_slash gitlab_url in
  early <- try_except
             (_ <- HttpUrl gitlab_url ;; ret None)
             (fun e =>
                match e with
                | ValidationError _ =>
                    ret (Some (invalid "Invalid GitLab URL format" "invalid_url"))
                | _ => raise e
                end) ;;
  match early with
  | Some r => ret r
  | None =>
    let api_url := gitlab_url ++ "/api/v4/user" in
    try_except
      (response <- http_get api_url access_token [] ;;
       if (status_code response =? 200)%Z then
         data <- response_json response ;;
         username <- get_username data ;;
         GitLabValidationResult_new true None None username
       else if (status_code response =? 401)%Z then
         ret (invalid "Invalid access token or token expired" "invalid_token")
       else if (status_code response =? 403)%Z then
         ret (invalid "Token lacks required permissions"
                      "insufficient_permissions")
       else if (status_code response =? 404)%Z then
         ret (invalid "GitLab API endpoint not found - check URL" "not_found")
       else
         ret (invalid ("GitLab API error: " ++ str_of_Z (status_code response))
                      "api_error"))
      (fun e =>
         match e with
         | TimeoutException _ =>
             ret (invalid "Connection timeout - GitLab instance unreachable"
                          "timeout")
         | NetworkError _ =>
             ret (invalid "Network error - could not reach GitLab instance"
                          "network_error")
         | _ =>
             ret (invalid "Unexpected error during validation" "unknown_error")
         end)
  end.

(* ----------------------------------------------------------------- *)
(** *** gitlab_tools.py *)

Definition set_gitlab_config (config : option GitLabConfig.t) : M unit :=
  fun s =>
    (Ok tt,
     {| db := db s; net_log := net_log s;
        _current_gitlab_config := config;
        drawn := drawn s |}).

Definition current_gitlab_config : M (option GitLabConfig.t) :=
  fun s => (Ok (_current_gitlab_config s), s).

(** The text of an optional string inside an f-string. *)
Definition str_opt (o : option string) : string :=
  match o with
  | Some s => s
  | None => "None"
  end.

(** The loop [for mr in merge_requests[:10]] and [len(merge_requests)]
    read the body as a list of merge requests. *)
Definition merge_requests_of (b : Body) : M (list MergeRequest) :=
  match b with
  | JMergeRequests l => ret l
  | _ => raise (OtherException "unexpected response body")
  end.

Definition merge_request_of (b : Body) : M MergeRequest :=
  match b with
  | JMergeRequest mr => ret mr
  | _ => raise (OtherException "unexpected response body")
  end.

(** [changes_data.get('changes', [])] *)
Definition get_changes (b : Body) : M (list Change) :=
  match b with
  | JChanges (Some l) => ret l
  | JChanges None | JUser _ | JMergeRequest _ | JEmpty => ret []
  | JMergeRequests _ | JFalse | JOther =>
      raise (OtherException "object has no attribute 'get'")
  end.

(** The body of the loop of [list_merge_requests]: one displayed entry. *)
Definition format_mr (mr : MergeRequest) : string :=
  let labels :=
    match labels mr with
    | [] => "None"
    | ls => join ", " (map (fun label => "`" ++ label ++ "`") ls)
    end in
  let upvotes := upvotes mr in
  let downvotes := downvotes mr in
  let approvals := if (0 <? upvotes)%Z then "👍 " ++ str_of_Z upvotes else "" in
  let approvals :=
    if (0 <? downvotes)%Z then approvals ++ " 👎 " ++ str_of_Z downvotes
    else approvals in
  let created := split_head "T" (mr_created_at mr) in
  let updated := split_head "T" (mr_updated_at mr) in
  "### MR !" ++ str_of_Z (iid mr) ++ ": " ++ title mr ++ nl ++ nl ++
  "- **Author:** " ++ author_name mr ++ " (@" ++ author_username mr ++ ")" ++ nl ++
  "- **Status:** `" ++ state mr ++ "` " ++ approvals ++ nl ++
  "- **Branch:** `" ++ source_branch mr ++ "` → `" ++ target_branch mr ++ "`" ++ nl ++
  "- **Labels:** " ++ labels ++ nl ++
  "- **Created:** " ++ created ++ " | **Updated:** " ++ updated ++ nl ++
  "- **URL:** " ++ web_url mr.

Definition list_merge_requests (state : string) : M string :=
  cfg <- current_gitlab_config ;;
  match cfg with
  | None => ret "❌ No GitLab configuration selected"
  | Some cfg =>
    if negb (opt_truthy (GitLabConfig.project_id cfg)) then
      ret "❌ No project ID configured. Please set a project ID in your GitLab configuration."
    else
      let project_id := str_opt (GitLabConfig.project_id cfg) in
      try_except
        (token <- decrypt_token (GitLabConfig.access_token_encrypted cfg) ;;
         let url := GitLabConfig.gitlab_url cfg ++ "/api/v4/projects/" ++
                    project_id ++ "/merge_requests" in
         response <- http_get url token [("state", state)] ;;
         _ <- raise_for_status response ;;
         data <- response_json response ;;
         if negb (body_truthy data) then
           ret ("No " ++ state ++ " merge requests found in project " ++
                project_id ++ ".")
         else
           merge_requests <- merge_requests_of data ;;
           (let mr_list := map format_mr (firstn 10 merge_requests) in
            let result := "# 📋 Merge Requests in Project " ++ project_id ++
                          nl ++ nl in
            let result := result ++ "**Filter:** " ++ state ++
                          " | **Total:** " ++
                          str_of_Z (Z.of_nat (length merge_requests)) ++
                          nl ++ nl in
            let result := result ++ "---" ++ nl ++ nl in
            let result := result ++ join (nl ++ nl) mr_list in
            let result :=
              if (10 <? length merge_requests)%nat then
                result ++ nl ++ nl ++ "---" ++ nl ++ nl ++ "*... and " ++
                str_of_Z (Z.of_nat (length merge_requests) - 10) ++
                " more merge requests*"
              else result in
            ret result))
        (fun e =>
           match e with
           | HTTPStatusError _ code text =>
               ret ("❌ GitLab API Error: " ++ str_of_Z code ++ " - " ++ text)
           | _ => ret ("❌ Error fetching merge requests: " ++ str_exn e)
           end)
  end.

(** One step of the loop over [changes[:5]]. *)
Definition add_change (result : string) (change : Change) : string :=
  let result := result ++ "- **" ++ new_path change ++ "**" ++ nl in
  if opt_truthy (diff change) then
    let diff_lines := firstn 10 (split nl_char (str_opt (diff change))) in
    result ++ "```diff" ++ nl ++ join nl diff_lines ++ nl ++ "```" ++ nl ++ nl
  else result.

Definition get_merge_request_details (mr_number : Z) : M string :=
  cfg <- current_gitlab_config ;;
  match cfg with
  | None => ret "❌ No GitLab configuration selected"
  | Some cfg =>
    if negb (opt_truthy (GitLabConfig.project_id cfg)) then
      ret "❌ No project ID configured. Please set a project ID in your GitLab configuration."
    else
      let project_id := str_opt (GitLabConfig.project_id cfg) in
      try_except
        (token <- decrypt_token (GitLabConfig.access_token_encrypted cfg) ;;
         let mr_url := GitLabConfig.gitlab_url cfg ++ "/api/v4/projects/" ++
                       project_id ++ "/merge_requests/" ++ str_of_Z mr_number in
         mr_response <- http_get mr_url token [] ;;
         _ <- raise_for_status mr_response ;;
         mr_json <- response_json mr_response ;;
         let changes_url := mr_url ++ "/changes" in
         changes_response <- http_get changes_url token [] ;;
         _ <- raise_for_status changes_response ;;
         changes_data <- response_json changes_response ;;
         mr_data <- merge_request_of mr_json ;;
         let result :=
           nl ++ "**Merge Request !" ++ str_of_Z (iid mr_data) ++ ": " ++
           title mr_data ++ "**" ++ nl ++ nl ++
           "**Author:** " ++ author_name mr_data ++ " (@" ++
           author_username mr_data ++ ")" ++ nl ++
           "**Status:** " ++ state mr_data ++ nl ++
           "**Created:** " ++ mr_created_at mr_data ++ nl ++
           "**Updated:** " ++ mr_updated_at mr_data ++ nl ++
           "**Source Branch:** " ++ source_branch mr_data ++ nl ++
           "**Target Branch:** " ++ target_branch mr_data ++ nl ++ nl ++
           "**Description:**" ++ nl ++
           match description mr_data with
           | None => "No description provided"
           | Some d => str_opt d
           end ++ nl ++ nl ++
           "**Changes:**" ++ nl in
         changes <- get_changes changes_data ;;
         let result :=
           match changes with
           | [] => result ++ "No changes found." ++ nl
           | _ =>
               let result := result ++ nl ++
                             str_of_Z (Z.of_nat (length changes)) ++
                             " file(s) changed:" ++ nl ++ nl in
               let result := fold_left add_change (firstn 5 changes) result in
               if (5 <? length changes)%nat then
                 result ++ "... and " ++
                 str_of_Z (Z.of_nat (length changes) - 5) ++ " more files" ++ nl
               else result
           end in
         ret (result ++ nl ++ "**URL:** " ++ web_url mr_data))
        (fun e =>
           match e with
           | HTTPStatusError _ code text =>
               ret ("❌ GitLab API Error: " ++ str_of_Z code ++ " - " ++ text)
           | _ => ret ("❌ Error fetching merge request details: " ++ str_exn e)
           end)
  end.

(* ----------------------------------------------------------------- *)
(** *** gitlab_agent.py *)

Definition list_gitlab_configs (self : GitLabAgent.t) : string :=
  match GitLabAgent.gitlab_configs self with
  | [] => "No GitLab configurations found. Please add a GitLab configuration in settings first."
  | configs =>
      let config_list :=
        map (fun ic : nat * GitLabConfig.t =>
               let (idx, config) := ic in
               let status := if GitLabConfig.is_active config
                             then "✓ Valid" else "⚠ Invalid" in
               let name := py_or (GitLabConfig.config_name config)
                                 ("Config " ++ str_of_Z (Z.of_nat idx)) in
               str_of_Z (Z.of_nat idx) ++ ". " ++ name ++ nl ++
               "   URL: " ++ GitLabConfig.gitlab_url config ++ nl ++
               "   Status: " ++ status ++ nl ++
               "   ID: " ++ str_uuid (GitLabConfig.id config))
            (enumerate 1 configs) in
      join (nl ++ nl) config_list
  end.

Definition select_config_by_id (self : GitLabAgent.t) (config_id : string)
  : bool * GitLabAgent.t :=
  match find (fun config => str_uuid (GitLabConfig.id config) =? config_id)
             (GitLabAgent.gitlab_configs self) with
  | Some config => (true, GitLabAgent.set_selected_config (Some config) self)
  | None => (false, self)
  end.

Definition process_with_config (self : GitLabAgent.t)
    (command config_id : string) : M (string * GitLabAgent.t) :=
  let (found, self) := select_config_by_id self config_id in
  if negb found then
    ret ("❌ Error: GitLab configuration with ID `" ++ config_id ++
         "` not found.", self)
  else
    _ <- set_gitlab_config (GitLabAgent.selected_config self) ;;
    if startswith command "/show-mr" then
      result <- list_merge_requests "opened" ;;
      ret (result, self)
    else if startswith command "/review-mr" then
      result <- list_merge_requests "opened" ;;
      ret (result ++ nl ++ nl ++
           "💡 **Next step:** Reply with the MR number (e.g., `!123` or just `123`) to review it.",
           self)
    else
      ret ("❌ Unknown command: `" ++ command ++ "`", self).

(** The first block of [handle_query]: the agent with a configuration
    selected, or the text returned early. *)
Definition select_for_query (self : GitLabAgent.t)
    (last_config_id : option string) : GitLabAgent.t + string :=
  match GitLabAgent.selected_config self with
  | Some _ => inl self
  | None =>
      let (selected, self') :=
        if opt_truthy last_config_id
        then select_config_by_id self (str_opt last_config_id)
        else (false, self) in
      if selected then inl self'
      else
        let active_configs :=
          filter GitLabConfig.is_active (GitLabAgent.gitlab_configs self) in
        if (length active_configs =? 1)%nat then
          inl (GitLabAgent.set_selected_config (hd_error active_configs) self)
        else
          let config_list := list_gitlab_configs self in
          inr ("Please select a GitLab configuration first:" ++ nl ++ nl ++
               config_list ++ nl ++ nl ++
               "Then use `/show-mr` or `/review-mr` to get started.")
  end.

Definition list_keywords : list string :=
  ["list"; "show"; "merge request"; "mr"; "pull request"].

(** [int(mr_number_match.group(1))] *)
Definition int_of_group (group1 : list char) : M Z :=
  fun s =>
    (int_of_digits (unicode_decimal W) (int_max_str_digits W) group1, s).

(** What [handle_query] does once a configuration is selected.  The
    result is [None] where the code returns Python's [None]. *)
Definition answer_query (self : GitLabAgent.t) (query : string)
  : M (option string) :=
  _ <- set_gitlab_config (GitLabAgent.selected_config self) ;;
  let query_lower := lower query in
  let mr_number_match :=
    re_search_mr_number (unicode_decimal W) query_lower in
  match mr_number_match with
  | Some group1 =>
      mr_number <- int_of_group group1 ;;
      result <- get_merge_request_details mr_number ;;
      ret (Some result)
  | None =>
      if existsb (fun keyword => contains keyword query_lower)
                 list_keywords then
        let state :=
          if contains "closed" query_lower then "closed"
          else if contains "merged" query_lower then "merged"
          else if contains "all" query_lower then "all"
          else "opened" in
        result <- list_merge_requests state ;;
        ret (Some result)
      else
        ret None
  end.

(** The method returns or raises; either way the agent object is left as
    the first block made it, so the agent comes beside the outcome. *)
Definition handle_query (self : GitLabAgent.t) (query : string)
    (last_config_id : option string)
  : Sys -> result (option string) * GitLabAgent.t * Sys :=
  fun s =>
    match select_for_query self last_config_id with
    | inr prompt => (Ok (Some prompt), self, s)
    | inl self =>
        let (outcome, s') := answer_query self query s in
        (outcome, self, s')
    end.

(* ----------------------------------------------------------------- *)
(** *** llm_service.py: the GitLab configuration endpoints *)

(** [db.query(GitLabConfig).filter(...).first()] *)
Definition query_first (p : GitLabConfig.t -> bool)
  : M (option GitLabConfig.t) :=
  fun s => (Ok (find p (db s)), s).

(** [db.query(GitLabConfig).filter(...).all()] *)
Definition query_all (p : GitLabConfig.t -> bool) : M (list GitLabConfig.t) :=
  fun s => (Ok (filter p (db s)), s).

Definition set_db (rows : list GitLabConfig.t) (s : Sys) : Sys :=
  {| db := rows; net_log := net_log s;
     _current_gitlab_config := _current_gitlab_config s;
     drawn := drawn s |}.

(** [db.add(new_config); db.commit(); db.refresh(new_config)]: the row
    receives its generated id and its timestamps. *)
Definition db_add (user_id : string) (config_name : option string)
    (gitlab_url : string) (access_token_encrypted : bytes)
    (project_id : option string) (is_active : bool) : M GitLabConfig.t :=
  fun s =>
    let row := GitLabConfig.mk (uuid4 W (drawn s) mod 2 ^ 128)%N user_id
                 config_name
                 gitlab_url access_token_encrypted project_id is_active
                 (utcnow W) (utcnow W) in
    (Ok row,
     {| db := (db s ++ [row])%list; net_log := net_log s;
        _current_gitlab_config := _current_gitlab_config s;
        drawn := S (drawn s) |}).

(** [db.commit()] after attribute assignments on the row [config]. *)
Definition db_commit_row (config : GitLabConfig.t) : M unit :=
  fun s =>
    (Ok tt,
     set_db (map (fun r => if (GitLabConfig.id r =? GitLabConfig.id config)%N
                           then config else r) (db s)) s).

(** [db.delete(config); db.commit()] *)
Definition db_delete (config : GitLabConfig.t) : M unit :=
  fun s =>
    (Ok tt,
     set_db (filter (fun r => negb (GitLabConfig.id r =?
                                    GitLabConfig.id config)%N)
                    (db s)) s).

(** The response model built from a row alone. *)
Definition response_of_config (config : GitLabConfig.t)
  : GitLabConfigResponse.t :=
  GitLabConfigResponse.mk
    (GitLabConfig.id config) (GitLabConfig.config_name config)
    (GitLabConfig.gitlab_url config) (GitLabConfig.project_id config)
    (GitLabConfig.is_active config) None None None
    (GitLabConfig.created_at config) (GitLabConfig.updated_at config).

(** The response dictionary built from a row and a validation result. *)
Definition response_dict (config : GitLabConfig.t)
    (validation_result : GitLabValidationResult.t) : GitLabConfigResponse.t :=
  GitLabConfigResponse.mk
    (GitLabConfig.id config) (GitLabConfig.config_name config)
    (GitLabConfig.gitlab_url config) (GitLabConfig.project_id config)
    (GitLabConfig.is_active config)
    (Some (py_or (GitLabValidationResult.error_message validation_result)
                 "Credentials validated successfully"))
    (GitLabValidationResult.error_code validation_result)
    (GitLabValidationResult.gitlab_username validation_result)
    (GitLabConfig.created_at config) (GitLabConfig.updated_at config).

Definition create_gitlab_config (config_data : GitLabConfigCreate.t)
    (current_user : string) : M GitLabConfigResponse.t :=
  existing_config <-
    query_first (fun c =>
      (GitLabConfig.user_id c =? current_user) &&
      (GitLabConfig.gitlab_url c =? GitLabConfigCreate.gitlab_url config_data)) ;;
  match existing_config with
  | Some _ =>
      raise (HTTPException 400
               "GitLab configuration for this URL already exists")
  | None =>
      validation_result <-
        validate_gitlab_credentials
          (GitLabConfigCreate.gitlab_url config_data)
          (GitLabConfigCreate.access_token config_data) ;;
      encrypted_token <-
        encrypt_token (GitLabConfigCreate.access_token config_data) ;;
      new_config <-
        db_add current_user
               (GitLabConfigCreate.config_name config_data)
               (GitLabConfigCreate.gitlab_url config_data)
               encrypted_token
               (GitLabConfigCreate.project_id config_data)
               (GitLabValidationResult.is_valid validation_result) ;;
      ret (response_dict new_config validation_result)
  end.

Definition get_gitlab_configs (current_user : string)
  : M (list GitLabConfigResponse.t) :=
  configs <- query_all (fun c => GitLabConfig.user_id c =? current_user) ;;
  ret (map response_of_config configs).

(** The filter [GitLabConfig.id == config_id, GitLabConfig.user_id ==
    current_user.id]: the database reads [config_id] as a UUID and
    compares it with the row's. *)
Definition owned_by (config_id current_user : string) (c : GitLabConfig.t)
  : bool :=
  match uuid_in config_id with
  | Some u => (GitLabConfig.id c =? u)%N
  | None => false
  end && (GitLabConfig.user_id c =? current_user).

(** [db.query(GitLabConfig).filter(...).first()] with that filter.  A
    [config_id] that is no UUID makes the statement fail
    ([sqlalchemy.exc.DataError]). *)
Definition query_config (config_id current_user : string)
  : M (option GitLabConfig.t) :=
  match uuid_in config_id with
  | Some _ => query_first (owned_by config_id current_user)
  | None => raise (OtherException "invalid input syntax for type uuid")
  end.

Definition not_found {A} : M A :=
  raise (HTTPException 404 "GitLab configuration not found").

Definition get_gitlab_config (config_id current_user : string)
  : M GitLabConfigResponse.t :=
  config <- query_config config_id current_user ;;
  match config with
  | None => not_found
  | Some config => ret (response_of_config config)
  end.

(** [if v is not None: assign v] *)
Definition assign_if_some {A B} (v : option A) (assign : A -> B -> B) (c : B)
  : B :=
  match v with
  | Some a => assign a c
  | None => c
  end.

Definition update_gitlab_config (config_id : string)
    (config_update : GitLabConfigUpdate.t) (current_user : string)
  : M GitLabConfigResponse.t :=
  config <- query_config config_id current_user ;;
  match config with
  | None => not_found
  | Some config =>
      validated <-
        match GitLabConfigUpdate.access_token config_update with
        | Some access_token =>
            if str_truthy (strip access_token) then
              validation_result <-
                validate_gitlab_credentials
                  (py_or (GitLabConfigUpdate.gitlab_url config_update)
                         (GitLabConfig.gitlab_url config))
                  access_token ;;
              encrypted <- encrypt_token access_token ;;
              let config := GitLabConfig.set_access_token_encrypted
                              encrypted config in
              let config := GitLabConfig.set_is_active
                              (GitLabValidationResult.is_valid validation_result)
                              config in
              ret (Some validation_result, config)
            else ret (None, config)
        | None => ret (None, config)
        end ;;
      let validation_result := fst validated in
      let config := snd validated in
      let config :=
        assign_if_some (GitLabConfigUpdate.config_name config_update)
          (fun v => GitLabConfig.set_config_name (Some v)) config in
      let config :=
        assign_if_some (GitLabConfigUpdate.gitlab_url config_update)
          GitLabConfig.set_gitlab_url config in
      let config :=
        assign_if_some (GitLabConfigUpdate.project_id config_update)
          (fun v => GitLabConfig.set_project_id (Some v)) config in
      let config :=
        match GitLabConfigUpdate.is_active config_update,
              GitLabConfigUpdate.access_token config_update with
        | Some is_active, None => GitLabConfig.set_is_active is_active config
        | _, _ => config
        end in
      let config := GitLabConfig.set_updated_at (utcnow W) config in
      _ <- db_commit_row config ;;
      match validation_result with
      | Some validation_result => ret (response_dict config validation_result)
      | None => ret (response_of_config config)
      end
  end.

Definition delete_gitlab_config (config_id current_user : string) : M unit :=
  config <- query_config config_id current_user ;;
  match config with
  | None => not_found
  | Some config => db_delete config
  end.

End Program.

(* ================================================================= *)
(** ** A concrete library and concrete worlds, for running the code *)

Module Toy.

Definition pad (n : nat) (b : bytes) : bytes :=
  firstn n (b ++ repeat x00 n)%list.

Fixpoint starts_with (p l : bytes) : bool :=
  match p, l with
  | [], _ => true
  | a :: p', b :: l' => Byte.eqb a b && starts_with p' l'
  | _ :: _, [] => false
  end.

(** A stand-in for Fernet with the same interface: a key is any 44
    bytes, a token is the key, 16 bytes of randomness and the data. *)
Definition lib : FernetLib :=
  {| Fernet_accepts := fun k => (length k =? 44)%nat;
     Fernet_generate_key := pad 44;
     Fernet_encrypt := fun k iv m => (k ++ pad 16 iv ++ m)%list;
     Fernet_decrypt := fun k c =>
       if starts_with k c then Some (skipn (length k + 16) c) else None;
     PBKDF2HMAC_SHA256 := fun n salt _ pw => pad n (pw ++ salt)%list;
     urlsafe_b64encode := pad 44 |}.

(** The ids of the rows of the examples, and their texts. *)
Definition id1 : N := 1.
Definition id2 : N := 2.
Definition text1 : string := "00000000-0000-0000-0000-000000000001".
Definition text2 : string := "00000000-0000-0000-0000-000000000002".

(** The ids generated in the examples: from 256 on. *)
Definition uuid_number (i : nat) : N := (256 + N.of_nat i mod 2 ^ 100)%N.

(** The decimal digits of the examples: the ASCII digits and the
    fullwidth digits U+FF10 to U+FF19. *)
Definition decimal (n : N) : option nat :=
  if ((48 <=? n) && (n <=? 57))%N then Some (N.to_nat (n - 48))
  else if ((65296 <=? n) && (n <=? 65305))%N then Some (N.to_nat (n - 65296))
  else None.

Definition user_url : string := "https://gitlab.example.com/api/v4/user".

(** A server that knows the token [glpat-good] of user [alice], and
    project 42 with [n] merge requests. *)
Definition mr (i : nat) : MergeRequest :=
  {| iid := Z.of_nat i; title := "Change " ++ str_of_Z (Z.of_nat i);
     author_name := "Alice"; author_username := "alice";
     state := "opened"; source_branch := "feature"; target_branch := "main";
     labels := []; upvotes := 0; downvotes := 0;
     mr_created_at := "2024-01-02T03:04:05Z";
     mr_updated_at := "2024-01-03T03:04:05Z";
     web_url := "https://gitlab.example.com/p/-/merge_requests/" ++
                str_of_Z (Z.of_nat i);
     description := None |}.

Definition server (n : nat) (rq : Request) : HttpOutcome :=
  if negb (req_private_token rq =? "glpat-good") then
    Responds {| status_code := 401; text := "401 Unauthorized"; json := None |}
  else if req_url rq =? user_url then
    Responds {| status_code := 200; text := "";
                json := Some (JUser (Some (PyStr "alice"))) |}
  else if req_url rq =? "https://gitlab.example.com/api/v4/projects/42/merge_requests" then
    Responds {| status_code := 200; text := "";
                json := Some (JMergeRequests (map mr (seq 1 n))) |}
  else
    Responds {| status_code := 404; text := "404 Not Found"; json := None |}.

Definition world (n : nat) : World :=
  {| getenv_ENCRYPTION_KEY := Some "correct horse battery staple";
     os_urandom := fun i => repeat x2a (S i);
     uuid4 := uuid_number;
     utcnow := 1700000000;
     HttpUrl_accepts := fun u => prefix "https://" u || prefix "http://" u;
     unicode_decimal := decimal;
     int_max_str_digits := 4300;
     client_get := fun _ rq => server n rq |}.

(** A site that answers every path with a web page. *)
Definition web_site : World :=
  {| getenv_ENCRYPTION_KEY := Some "correct horse battery staple";
     os_urandom := fun i => repeat x2a (S i);
     uuid4 := uuid_number;
     utcnow := 1700000000;
     HttpUrl_accepts := fun u => prefix "https://" u || prefix "http://" u;
     unicode_decimal := decimal;
     int_max_str_digits := 4300;
     client_get := fun _ _ =>
       Responds {| status_code := 200; text := "<html>Welcome</html>";
                   json := None |} |}.

(** The stored form of the token [glpat-good]. *)
Definition good_token_encrypted : bytes :=
  match encrypt_token lib (world 0) "glpat-good" sys0 with
  | (Ok b, _) => b
  | (Raise _, _) => []
  end.

Definition config (id : N) (user url : string) (active : bool)
  : GitLabConfig.t :=
  GitLabConfig.mk id user None url good_token_encrypted
    (Some "42") active 1600000000 1600000000.

Definition with_db (rows : list GitLabConfig.t) : Sys :=
  {| db := rows; net_log := []; _current_gitlab_config := None; drawn := 0 |}.

End Toy.

(* ================================================================= *)
(** ** Vocabulary of the properties *)

(** The request [validate_gitlab_credentials] sends. *)
Definition user_request (gitlab_url access_token : string) : Request :=
  {| req_url := rstrip_slash gitlab_url ++ "/api/v4/user";
     req_private_token := access_token;
     req_params := [] |}.

(** The client raised before anything was handed to the transport. *)
Definition is_refused (outcome : HttpOutcome) : bool :=
  match outcome with
  | Refused _ => true
  | Responds _ | Fails _ => false
  end.

(** The state once a request has been sent. *)
Definition sent (rq : Request) (s : Sys) : Sys :=
  {| db := db s; net_log := (net_log s ++ [rq])%list;
     _current_gitlab_config := _current_gitlab_config s;
     drawn := drawn s |}.

Definition valid_as (username : option string) : GitLabValidationResult.t :=
  GitLabValidationResult.mk true None None username.

Definition unknown_error : GitLabValidationResult.t :=
  invalid "Unexpected error during validation" "unknown_error".

(** The body is an object with no [username] member. *)
Definition object_without_username (b : Body) : bool :=
  match b with
  | JUser None | JEmpty | JMergeRequest _ | JChanges _ => true
  | _ => false
  end.

(** The body is a JSON object whose [username], if it has one, is a
    string or [null]. *)
Definition names_user (body : option Body) : bool :=
  match body with
  | Some (JUser (Some (PyStr _))) | Some (JUser (Some PyNone)) => true
  | Some b => object_without_username b
  | None => false
  end.

(** Any exception of the transport other than a timeout or a network
    error. *)
Definition unexpected (e : exn) : Prop :=
  match e with
  | TimeoutException _ | NetworkError _ => False
  | _ => True
  end.

(** The clause of C2 for HTTP 200 as the specification words it, at one
    call: a 200 answer yields a valid result. *)
Definition status_200_yields_valid
    (W : World) (url token : string) (s : Sys) : Prop :=
  forall r,
    HttpUrl_accepts W (rstrip_slash url) = true ->
    client_get W (net_log s) (user_request url token) = Responds r ->
    status_code r = 200 ->
    exists v s',
      validate_gitlab_credentials W url token s = (Ok v, s') /\
      GitLabValidationResult.is_valid v = true.

(** The rejection of a duplicate: the specification's [Conflict]. *)
Definition conflict : exn :=
  HTTPException 400 "GitLab configuration for this URL already exists".

(** The specification's [NotFound]. *)
Definition not_found_error : exn :=
  HTTPException 404 "GitLab configuration not found".




(** The database of the examples: one active credential of [alice]. *)
Definition alice_db : Sys :=
  Toy.with_db [Toy.config Toy.id1 "alice" "https://gitlab.example.com" true].


(** A request that sends the empty token together with
    [is_active = false]. *)
Definition empty_token_deactivate : GitLabConfigUpdate.t :=
  GitLabConfigUpdate.mk None None (Some "") None (Some false).

(** [db.commit()] of the edited row [c']. *)
Definition committed (c c' : GitLabConfig.t) (rows : list GitLabConfig.t)
  : list GitLabConfig.t :=
  map (fun r => if (GitLabConfig.id r =? GitLabConfig.id c)%N then c' else r)
      rows.

(** The request [list_merge_requests] sends for a configuration. *)
Definition merge_requests_request (cfg : GitLabConfig.t)
    (project token state : string) : Request :=
  {| req_url := GitLabConfig.gitlab_url cfg ++ "/api/v4/projects/" ++
                project ++ "/merge_requests";
     req_private_token := token;
     req_params := [("state", state)] |}.

(** The lines above the displayed entries. *)
Definition list_header (project state : string) (total : nat) : string :=
  (("# 📋 Merge Requests in Project " ++ project ++ nl ++ nl) ++
   "**Filter:** " ++ state ++ " | **Total:** " ++
   str_of_Z (Z.of_nat total) ++ nl ++ nl) ++
  "---" ++ nl ++ nl.

(** The trailing notice for [remaining] entries left out. *)
Definition more_notice (remaining : string) : string :=
  nl ++ nl ++ "---" ++ nl ++ nl ++ "*... and " ++ remaining ++
  " more merge requests*".

(** The entry of the enumerated list for the configuration numbered
    [idx]: its name (or its number when it has none), its URL, whether its
    token was found valid, and its id. *)
Definition config_entry (idx : nat) (config : GitLabConfig.t) : string :=
  let number := str_of_Z (Z.of_nat idx) in
  number ++ ". " ++
  match GitLabConfig.config_name config with
  | Some name => if name =? "" then "Config " ++ number else name
  | None => "Config " ++ number
  end ++ nl ++
  "   URL: " ++ GitLabConfig.gitlab_url config ++ nl ++
  "   Status: " ++
  (if GitLabConfig.is_active config then "✓ Valid" else "⚠ Invalid") ++ nl ++
  "   ID: " ++ str_uuid (GitLabConfig.id config).

(** The enumerated list: the entries of all configurations in their
    order, numbered from 1 and separated by an empty line. *)
Definition enumerated_list (configs : list GitLabConfig.t) : string :=
  join (nl ++ nl)
       (map (fun ic : nat * GitLabConfig.t => config_entry (fst ic) (snd ic))
            (combine (seq 1 (length configs)) configs)).

(** The text that asks for a configuration to be selected. *)
Definition selection_prompt (self : GitLabAgent.t) : string :=
  "Please select a GitLab configuration first:" ++ nl ++ nl ++
  match GitLabAgent.gitlab_configs self with
  | [] => "No GitLab configurations found. Please add a GitLab configuration in settings first."
  | configs => enumerated_list configs
  end ++ nl ++ nl ++
  "Then use `/show-mr` or `/review-mr` to get started.".

(** The remembered id names one of the agent's configurations. *)
Definition resolves (self : GitLabAgent.t) (last_config_id : option string)
  : Prop :=
  exists id c,
    last_config_id = Some id /\ id <> "" /\
    In c (GitLabAgent.gitlab_configs self) /\
    str_uuid (GitLabConfig.id c) = id.

Definition active_configs (self : GitLabAgent.t) : list GitLabConfig.t :=
  filter GitLabConfig.is_active (GitLabAgent.gitlab_configs self).

(** A configuration is selected or can be selected without asking. *)
Definition selectable (self : GitLabAgent.t) (last_config_id : option string)
  : Prop :=
  GitLabAgent.selected_config self <> None \/
  resolves self last_config_id \/
  length (active_configs self) = 1%nat.

(** The query holds no merge-request reference and no list keyword. *)
Definition no_gitlab_pattern (W : World) (query : string) : Prop :=
  re_search_mr_number (unicode_decimal W) (lower query) = None /\
  existsb (fun keyword => contains keyword (lower query)) list_keywords = false.

(** The query refers to a merge request by a number of more digits than
    [int()] reads: more than 640, and more than the interpreter's limit
    where it has one. *)
Definition reference_too_long (W : World) (query : string) : Prop :=
  exists digits,
    re_search_mr_number (unicode_decimal W) (lower query) = Some digits /\
    (640 < length digits)%nat /\
    (0 < int_max_str_digits W < length digits)%nat.

(** C9 as the specification words it, at one call: a query with no
    GitLab pattern yields the null result. *)
Definition non_match_yields_none (L : FernetLib) (W : World)
    (self : GitLabAgent.t) (query : string) (last_config_id : option string)
    (s : Sys) : Prop :=
  no_gitlab_pattern W query ->
  exists self' s',
    handle_query L W self query last_config_id s = (Ok None, self', s').

(** An agent of a user with two valid configurations, none selected. *)
Definition two_active_agent : GitLabAgent.t :=
  GitLabAgent.mk "alice"
    [Toy.config Toy.id1 "alice" "https://gitlab.example.com" true;
     Toy.config Toy.id2 "alice" "https://gitlab.example.org" true]
    None.

(** An agent of a user with one valid and one invalid configuration. *)
Definition one_active_agent : GitLabAgent.t :=
  GitLabAgent.mk "alice"
    [Toy.config Toy.id1 "alice" "https://gitlab.example.com" false;
     Toy.config Toy.id2 "alice" "https://gitlab.example.com" true]
    None.

(** The state in which [alice]'s configuration is the current one. *)
Definition alice_selected : Sys :=
  {| db := []; net_log := [];
     _current_gitlab_config :=
       Some (Toy.config Toy.id1 "alice" "https://gitlab.example.com" true);
     drawn := 0 |}.

(** A no-break space, U+00A0. *)
Definition nbsp : string :=
  String (ascii_of_nat 194) (String (ascii_of_nat 160) "").

(** An ideographic space, U+3000. *)
Definition ideographic_space : string :=
  String (ascii_of_nat 227) (String (ascii_of_nat 128)
    (String (ascii_of_nat 128) "")).

(** The fullwidth digit seven, U+FF17. *)
Definition fullwidth_7 : string :=
  String (ascii_of_nat 239) (String (ascii_of_nat 188)
    (String (ascii_of_nat 151) "")).

(** [n] times the digit 7. *)
Fixpoint sevens (n : nat) : string :=
  match n with
  | O => ""
  | S n' => String "7" (sevens n')
  end.

(* ================================================================= *)
(** ** Vocabulary of the further properties *)

(** The library refuses a token made under another key. *)
Definition rejects_foreign_keys (L : FernetLib) : Prop :=
  forall k1 k2 iv m,
    Fernet_accepts L k1 = true -> Fernet_accepts L k2 = true -> k1 <> k2 ->
    Fernet_decrypt L k2 (Fernet_encrypt L k1 iv m) = None.

(** A process started without [ENCRYPTION_KEY]. *)
Definition unconfigured_world : World :=
  {| getenv_ENCRYPTION_KEY := None;
     os_urandom := fun i => repeat x2a (S i);
     uuid4 := Toy.uuid_number;
     utcnow := 1700000000;
     HttpUrl_accepts := fun u => prefix "https://" u || prefix "http://" u;
     unicode_decimal := Toy.decimal;
     int_max_str_digits := 4300;
     client_get := fun _ rq => Toy.server 0 rq |}.

(** [n] trailing slashes. *)
Fixpoint slashes (n : nat) : string :=
  match n with
  | O => ""
  | S n' => String "/" (slashes n')
  end.

(** The closed set of error codes. *)
Definition error_codes : list string :=
  ["invalid_url"; "invalid_token"; "insufficient_permissions"; "not_found";
   "api_error"; "timeout"; "network_error"; "unknown_error"].

(** The text both tools return when no configuration is current. *)
Definition no_configuration_text : string :=
  "❌ No GitLab configuration selected".

(** The text both tools return when the configuration has no project. *)
Definition no_project_text : string :=
  "❌ No project ID configured. Please set a project ID in your GitLab configuration.".

(** What [list_merge_requests] says when there is nothing to list. *)
Definition none_found (state project : string) : string :=
  "No " ++ state ++ " merge requests found in project " ++ project ++ ".".

(** [list_merge_requests] reaches the server and is answered, with a 2xx
    status, by a list of merge requests or by a body that counts as
    false. *)
Definition list_answered (L : FernetLib) (W : World) (state : string)
    (s : Sys) : Prop :=
  exists cfg project token s1 r b,
    _current_gitlab_config s = Some cfg /\
    GitLabConfig.project_id cfg = Some project /\ project <> "" /\
    decrypt_token L W (GitLabConfig.access_token_encrypted cfg) s =
      (Ok token, s1) /\
    is_ascii token = true /\
    client_get W (net_log s1)
      (merge_requests_request cfg project token state) = Responds r /\
    (200 <= status_code r < 300)%Z /\
    json r = Some b /\
    (body_truthy b = false \/ exists mrs, b = JMergeRequests mrs).

(** The first request of [get_merge_request_details]. *)
Definition merge_request_request (cfg : GitLabConfig.t)
    (project token : string) (mr_number : Z) : Request :=
  {| req_url := GitLabConfig.gitlab_url cfg ++ "/api/v4/projects/" ++
                project ++ "/merge_requests/" ++ str_of_Z mr_number;
     req_private_token := token;
     req_params := [] |}.

(** Its second request. *)
Definition changes_request (cfg : GitLabConfig.t)
    (project token : string) (mr_number : Z) : Request :=
  {| req_url := (GitLabConfig.gitlab_url cfg ++ "/api/v4/projects/" ++
                 project ++ "/merge_requests/" ++ str_of_Z mr_number) ++
                "/changes";
     req_private_token := token;
     req_params := [] |}.

(** What [get_merge_request_details] prints before the changes. *)
Definition details_head (mr_data : MergeRequest) : string :=
  nl ++ "**Merge Request !" ++ str_of_Z (iid mr_data) ++ ": " ++
  title mr_data ++ "**" ++ nl ++ nl ++
  "**Author:** " ++ author_name mr_data ++ " (@" ++
  author_username mr_data ++ ")" ++ nl ++
  "**Status:** " ++ state mr_data ++ nl ++
  "**Created:** " ++ mr_created_at mr_data ++ nl ++
  "**Updated:** " ++ mr_updated_at mr_data ++ nl ++
  "**Source Branch:** " ++ source_branch mr_data ++ nl ++
  "**Target Branch:** " ++ target_branch mr_data ++ nl ++ nl ++
  "**Description:**" ++ nl ++
  match description mr_data with
  | None => "No description provided"
  | Some d => str_opt d
  end ++ nl ++ nl ++
  "**Changes:**" ++ nl.

(** What it prints for one changed file. *)
Definition change_block (change : Change) : string :=
  "- **" ++ new_path change ++ "**" ++ nl ++
  match diff change with
  | Some d =>
      if str_truthy d then
        "```diff" ++ nl ++ join nl (firstn 10 (split nl_char d)) ++ nl ++
        "```" ++ nl ++ nl
      else ""
  | None => ""
  end.

(** The concatenation of a list of texts. *)
Definition concat_str (parts : list string) : string :=
  fold_right append "" parts.

(** The state after a request was sent and nothing else happened. *)
Definition only_sent (rqs : list Request) (s s' : Sys) : Prop :=
  db s' = db s /\
  _current_gitlab_config s' = _current_gitlab_config s /\
  net_log s' = (net_log s ++ rqs)%list.

(** [get_merge_request_details] reaches the server twice and is answered,
    with a 2xx status each time, by a merge request and then by a JSON
    body. *)
Definition details_answered (L : FernetLib) (W : World) (mr_number : Z)
    (s : Sys) : Prop :=
  exists cfg project token s1 r1 r2 mr b2,
    _current_gitlab_config s = Some cfg /\
    GitLabConfig.project_id cfg = Some project /\ project <> "" /\
    decrypt_token L W (GitLabConfig.access_token_encrypted cfg) s =
      (Ok token, s1) /\
    is_ascii token = true /\
    client_get W (net_log s1)
      (merge_request_request cfg project token mr_number) = Responds r1 /\
    (200 <= status_code r1 < 300)%Z /\
    json r1 = Some (JMergeRequest mr) /\
    client_get W
      (net_log s1 ++ [merge_request_request cfg project token mr_number])%list
      (changes_request cfg project token mr_number) = Responds r2 /\
    (200 <= status_code r2 < 300)%Z /\
    json r2 = Some b2.

(** The request was made for the current configuration: it carries the
    decrypted token of that configuration. *)
Definition for_current_configuration (L : FernetLib) (W : World) (s : Sys)
    (make : GitLabConfig.t -> string -> string -> Request) (rq : Request)
  : Prop :=
  exists cfg project token s1,
    _current_gitlab_config s = Some cfg /\
    GitLabConfig.project_id cfg = Some project /\ project <> "" /\
    decrypt_token L W (GitLabConfig.access_token_encrypted cfg) s =
      (Ok token, s1) /\
    rq = make cfg project token.

(** The character occurs in the text. *)
Fixpoint has_char (c : ascii) (s : string) : bool :=
  match s with
  | EmptyString => false
  | String a r => Ascii.eqb a c || has_char c r
  end.

(** The merge request with other timestamps. *)
Definition with_times (mr : MergeRequest) (created updated : string)
  : MergeRequest :=
  {| iid := iid mr; title := title mr; author_name := author_name mr;
     author_username := author_username mr; state := state mr;
     source_branch := source_branch mr; target_branch := target_branch mr;
     labels := labels mr; upvotes := upvotes mr; downvotes := downvotes mr;
     mr_created_at := created; mr_updated_at := updated;
     web_url := web_url mr; description := description mr |}.

(** The hint [process_with_config] appends for [/review-mr]. *)
Definition review_hint : string :=
  "💡 **Next step:** Reply with the MR number (e.g., `!123` or just `123`) to review it.".

(** The state once the tools were pointed at a configuration. *)
Definition pointed_at (config : option GitLabConfig.t) (s : Sys) : Sys :=
  {| db := db s; net_log := net_log s;
     _current_gitlab_config := config;
     drawn := drawn s |}.

(** The pair that [create_gitlab_config] keeps unique. *)
Definition url_key (c : GitLabConfig.t) : string * string :=
  (GitLabConfig.user_id c, GitLabConfig.gitlab_url c).

(** No user holds two rows with the same URL. *)
Definition urls_unique (rows : list GitLabConfig.t) : Prop :=
  NoDup (map url_key rows).

(** The user holds no row with this URL yet. *)
Definition holds_no_row_for (rows : list GitLabConfig.t)
    (user url : string) : Prop :=
  forall c, In c rows ->
    GitLabConfig.user_id c = user -> GitLabConfig.gitlab_url c <> url.

(** [DELETE FROM gitlab_configs WHERE id = config_id] *)
Definition without_id (config_id : N) (rows : list GitLabConfig.t)
  : list GitLabConfig.t :=
  filter (fun r => negb (GitLabConfig.id r =? config_id)%N) rows.

(** A database with two credentials of [alice]. *)
Definition alice_two_rows : Sys :=
  Toy.with_db
    [Toy.config Toy.id1 "alice" "https://gitlab.example.com" true;
     Toy.config Toy.id2 "alice" "https://gitlab.example.org" true].

(* ================================================================= *)
(** ** Reading the language model's output *)

(** The objects the extraction code probes with [hasattr], [isinstance]
    and [dict.get], typed by what it looks at.  An absent attribute or key
    is [None]; the texts it collects are strings. *)

(** An element of a content list. *)
Inductive Item : Type :=
| ItemDict (type : option string) (text : option string)
    (* a dict: its ['type'] and ['text'] entries *)
| ItemObject (type : option string) (text : option string)
    (* an object with a [type] attribute: that attribute and [text] *)
| ItemStr (s : string)
| ItemOther.

(** A [content] attribute; [repr] is what [str()] makes of it. *)
Inductive Content : Type :=
| ContentStr (s : string)
| ContentList (items : list Item) (repr : string)
| ContentOther (repr : string).

Module Message.
Record t : Type := mk {
  role : option string;
  content : option Content;
  str : string
}.
End Message.

Module RunOutput.
Record t : Type := mk {
  messages : option (list Message.t);
  content : option Content;
  text : option string;
  message : option Message.t;
  str : string
}.
End RunOutput.

Definition is_type (type : option string) (name : string) : bool :=
  match type with
  | Some t => t =? name
  | None => false
  end.

(** What one element adds to [text_parts] in the loop over a message's
    content. *)
Definition message_item_parts (item : Item) : list string :=
  match item with
  | ItemDict type text | ItemObject type text =>
      if is_type type "text" then
        match text with
        | Some t => [t]
        | None => []
        end
      else []
  | ItemStr s => [s]
  | ItemOther => []
  end.

(** What one element adds to [text_parts] in the loop over the content of
    the run output. *)
Definition output_item_parts (item : Item) : list string :=
  match item with
  | ItemDict type text =>
      if is_type type "text" then
        match text with
        | Some t => [t]
        | None => [""]
        end
      else []
  | ItemStr s => [s]
  | ItemObject _ _ | ItemOther => []
  end.

(** [return '\n'.join(text_parts)] under [if text_parts]. *)
Definition joined (text_parts : list string) : option string :=
  match text_parts with
  | [] => None
  | _ => Some (join nl text_parts)
  end.

(** The loop over [reversed(run_output.messages)], on the reversed list:
    the text it returns, if it returns. *)
Fixpoint last_assistant_text (reversed : list Message.t) : option string :=
  match reversed with
  | [] => None
  | msg :: rest =>
      if negb (is_type (Message.role msg) "assistant") then
        last_assistant_text rest
      else
        match Message.content msg with
        | Some (ContentStr content) =>
            if str_truthy (strip content) then Some content
            else last_assistant_text rest
        | Some (ContentList items _) =>
            match joined (flat_map message_item_parts items) with
            | Some text => Some text
            | None => last_assistant_text rest
            end
        | Some (ContentOther _) | None => last_assistant_text rest
        end
  end.

Definition str_of_content (c : Content) : string :=
  match c with
  | ContentStr s => s
  | ContentList _ repr | ContentOther repr => repr
  end.

Definition _extract_agent_response (run_output : RunOutput.t) : string :=
  let from_messages :=
    match RunOutput.messages run_output with
    | Some ((_ :: _) as messages) => last_assistant_text (rev messages)
    | Some [] | None => None
    end in
  match from_messages with
  | Some text => text
  | None =>
    let from_content :=
      match RunOutput.content run_output with
      | Some (ContentStr content) =>
          if str_truthy (strip content) then Some content else None
      | Some (ContentList items _) =>
          joined (flat_map output_item_parts items)
      | Some (ContentOther _) | None => None
      end in
    match from_content with
    | Some text => text
    | None =>
      if opt_truthy (RunOutput.text run_output) then
        str_opt (RunOutput.text run_output)
      else
        match RunOutput.message run_output with
        | Some msg =>
            match Message.content msg with
            | Some content => str_of_content content
            | None => Message.str msg
            end
        | None => RunOutput.str run_output
        end
    end
  end.

(* ================================================================= *)
(** ** Vocabulary for the language model's output *)

(** A run output with nothing but a list of messages. *)
Definition only_messages (messages : list Message.t) : RunOutput.t :=
  RunOutput.mk (Some messages) None None None "RunOutput".

Definition is_assistant (msg : Message.t) : bool :=
  is_type (Message.role msg) "assistant".

Definition is_tool_use (item : Item) : bool :=
  match item with
  | ItemDict type _ | ItemObject type _ => is_type type "tool_use"
  | ItemStr _ | ItemOther => false
  end.

(** The message says something: its content is a string that is not
    blank, or a list with a text element. *)
Definition has_text (msg : Message.t) : bool :=
  match Message.content msg with
  | Some (ContentStr content) => str_truthy (strip content)
  | Some (ContentList items _) =>
      match flat_map message_item_parts items with
      | [] => false
      | _ => true
      end
  | Some (ContentOther _) | None => false
  end.

(** The run output says something: an assistant message has text, or the
    content of the output is a string that is not blank or a list with a
    text element, or its [text] is not empty. *)
Definition says_something (run_output : RunOutput.t) : bool :=
  match RunOutput.messages run_output with
  | Some messages => existsb (fun msg => is_assistant msg && has_text msg)
                             messages
  | None => false
  end ||
  match RunOutput.content run_output with
  | Some (ContentStr content) => str_truthy (strip content)
  | Some (ContentList items _) =>
      match flat_map output_item_parts items with
      | [] => false
      | _ => true
      end
  | Some (ContentOther _) | None => false
  end ||
  opt_truthy (RunOutput.text run_output).

(** Two optional values are both absent, or both present and related. *)
Definition both {A} (R : A -> A -> Prop) (o o' : option A) : Prop :=
  match o, o' with
  | Some a, Some a' => R a a'
  | None, None => True
  | _, _ => False
  end.

(** [c'] is the content [c] with the tool-use elements taken out of its
    list.  What [str()] makes of the list is not constrained: it changes
    with the list. *)
Definition content_without_tool_use (c c' : Content) : Prop :=
  match c, c' with
  | ContentList items _, ContentList items' _ =>
      items' = filter (fun item => negb (is_tool_use item)) items
  | _, _ => c' = c
  end.

Definition message_without_tool_use (msg msg' : Message.t) : Prop :=
  Message.role msg' = Message.role msg /\
  both content_without_tool_use (Message.content msg) (Message.content msg').

(** [run_output'] is [run_output] with the tool-use elements taken out
    of every content list of its messages and of its own content.  Its
    [message] attribute and what [str()] makes of it are not
    constrained. *)
Definition without_tool_use (run_output run_output' : RunOutput.t) : Prop :=
  both (Forall2 message_without_tool_use)
       (RunOutput.messages run_output) (RunOutput.messages run_output') /\
  both content_without_tool_use
       (RunOutput.content run_output) (RunOutput.content run_output') /\
  RunOutput.text run_output' = RunOutput.text run_output.

(** [run_output'] is [run_output] with the messages of the assistant
    only.  Its [message] attribute and what [str()] makes of it are not
    constrained. *)
Definition assistant_only (run_output run_output' : RunOutput.t) : Prop :=
  RunOutput.messages run_output' =
    option_map (filter is_assistant) (RunOutput.messages run_output) /\
  RunOutput.content run_output' = RunOutput.content run_output /\
  RunOutput.text run_output' = RunOutput.text run_output.

(** Six changed files, the first with a diff of three lines. *)
Definition six_changes : list Change :=
  {| new_path := "README.md";
     diff := Some ("@@ -1 +1 @@" ++ nl ++ "-old" ++ nl ++ "+new") |} ::
  map (fun i => {| new_path := "src/file" ++ str_of_Z (Z.of_nat i) ++ ".py";
                   diff := None |}) (seq 2 5).

(** A server that knows merge request 7 of project 42 and its changes. *)
Definition details_world : World :=
  {| getenv_ENCRYPTION_KEY := Some "correct horse battery staple";
     os_urandom := fun i => repeat x2a (S i);
     uuid4 := Toy.uuid_number;
     utcnow := 1700000000;
     HttpUrl_accepts := fun u => prefix "https://" u || prefix "http://" u;
     unicode_decimal := Toy.decimal;
     int_max_str_digits := 4300;
     client_get := fun _ rq =>
       if req_url rq =?
          "https://gitlab.example.com/api/v4/projects/42/merge_requests/7"
       then Responds {| status_code := 200; text := "";
                        json := Some (JMergeRequest (Toy.mr 7)) |}
       else if req_url rq =?
          "https://gitlab.example.com/api/v4/projects/42/merge_requests/7/changes"
       then Responds {| status_code := 200; text := "";
                        json := Some (JChanges (Some six_changes)) |}
       else Responds {| status_code := 404; text := "404 Not Found";
                        json := None |} |}.

(** A server that answers every request with [null]. *)
Definition null_world : World :=
  {| getenv_ENCRYPTION_KEY := Some "correct horse battery staple";
     os_urandom := fun i => repeat x2a (S i);
     uuid4 := Toy.uuid_number;
     utcnow := 1700000000;
     HttpUrl_accepts := fun u => prefix "https://" u || prefix "http://" u;
     unicode_decimal := Toy.decimal;
     int_max_str_digits := 4300;
     client_get := fun _ _ =>
       Responds {| status_code := 200; text := "null";
                   json := Some JFalse |} |}.


(** An agent that has its first configuration selected. *)
Definition selected_agent : GitLabAgent.t :=
  GitLabAgent.set_selected_config
    (Some (Toy.config Toy.id1 "alice" "https://gitlab.example.com" true))
    two_active_agent.

(** A conversation: a question, a tool call, the tool's result, and the
    assistant's answer followed by an empty assistant message. *)
Definition conversation : list Message.t :=
  [Message.mk (Some "user") (Some (ContentStr "list my merge requests"))
     "Message";
   Message.mk (Some "assistant")
     (Some (ContentList [ItemDict (Some "tool_use") None] "[...]")) "Message";
   Message.mk (Some "tool") (Some (ContentStr "3 merge requests")) "Message";
   Message.mk (Some "assistant")
     (Some (ContentStr "You have 3 open merge requests.")) "Message";
   Message.mk (Some "assistant") (Some (ContentStr "  ")) "Message"].

(* ================================================================= *)
(** * Properties *)

(** ** The built-ins on small inputs *)

Example strip_blank : strip "   " = "" /\ strip "  a b  " = "a b".
Proof. split; reflexivity. Qed.

(** A no-break space and an ideographic space are whitespace, also when
    nothing else is there. *)
Example strip_unicode_blank :
  strip nbsp = "" /\
  strip (nbsp ++ "a b" ++ ideographic_space) = "a b" /\
  strip "é" = "é".
Proof. repeat split; reflexivity. Qed.

Example rstrip_slash_url :
  rstrip_slash "https://gitlab.example.com//" = "https://gitlab.example.com".
Proof. reflexivity. Qed.

Example search_bang_number :
  re_search_mr_number Toy.decimal (lower "Show me Merge Request !456") =
    Some (chars "456").
Proof. reflexivity. Qed.

Example search_spelled_out :
  re_search_mr_number Toy.decimal (lower "what is in merge   request 0456 ?") =
    Some (chars "0456") /\
  int_of_digits Toy.decimal 4300 (chars "0456") = Ok 456.
Proof. split; reflexivity. Qed.

(** Whitespace and digits outside ASCII count as well. *)
Example search_unicode :
  re_search_mr_number Toy.decimal
    (lower ("merge" ++ nbsp ++ "request" ++ ideographic_space ++ fullwidth_7))
    = Some (chars fullwidth_7) /\
  int_of_digits Toy.decimal 4300 (chars (fullwidth_7 ++ "5")) = Ok 75.
Proof. split; reflexivity. Qed.

Example search_no_number :
  re_search_mr_number Toy.decimal (lower "list the merged mr") = None.
Proof. reflexivity. Qed.

(** A reference of 4301 digits is found by the pattern and refused by
    [int()]; one of 4300 digits is read. *)
Example int_limit :
  (exists msg, int_of_digits Toy.decimal 4300 (chars (sevens 4301)) =
                 Raise (ValueError msg)) /\
  (exists n, int_of_digits Toy.decimal 4300 (chars (sevens 4300)) = Ok n) /\
  (exists n, int_of_digits Toy.decimal 0 (chars (sevens 4301)) = Ok n).
Proof.
  repeat split; eexists; vm_compute; reflexivity.
Qed.

Example utf8_valid_examples :
  utf8_valid (encode "glpat-good → ✓") = true /\
  utf8_valid [xc3; x28] = false.
Proof. split; reflexivity. Qed.

Example uuid_in_examples :
  uuid_in "00000000-0000-4000-8000-000000000001" = Some 302240678275694148452353%N /\
  uuid_in "{00000000-0000-4000-8000-00000000000A}" =
    uuid_in "0000000000004000-8000-00000000000a" /\
  uuid_in "cfg-1" = None /\
  uuid_in "00000000-0000-4000-8000-000000000001 " = None.
Proof. repeat split; vm_compute; reflexivity. Qed.

(** ** The monad *)

Lemma bind_ok {A B} (m : M A) (k : A -> M B) s a s' :
  m s = (Ok a, s') -> bind m k s = k a s'.
Proof. intros H. unfold bind. now rewrite H. Qed.

Lemma bind_raise {A B} (m : M A) (k : A -> M B) s e s' :
  m s = (Raise e, s') -> bind m k s = (Raise e, s').
Proof. intros H. unfold bind. now rewrite H. Qed.

Lemma try_except_ok {A} (body : M A) handler s a s' :
  body s = (Ok a, s') -> try_except body handler s = (Ok a, s').
Proof. intros H. unfold try_except. now rewrite H. Qed.

Lemma try_except_raise {A} (body : M A) handler s e s' :
  body s = (Raise e, s') -> try_except body handler s = handler e s'.
Proof. intros H. unfold try_except. now rewrite H. Qed.

(** A [try] whose handlers all return does not raise. *)
Lemma try_except_returns {A} (body : M A) (handler : exn -> M A) s :
  (forall e s1, exists a s2, handler e s1 = (Ok a, s2)) ->
  exists a s', try_except body handler s = (Ok a, s').
Proof.
  intros Hh. unfold try_except.
  destruct (body s) as [[a|e] s1].
  - now exists a, s1.
  - apply Hh.
Qed.

(** ** encryption.py *)

Section Encryption.

Context (L : FernetLib) (HL : FernetLaws L).

(** Key resolution always produces a key the cipher accepts. *)
Lemma get_encryption_key_accepted (W : World) (s : Sys) :
  exists k s',
    get_encryption_key L W s = (Ok k, s') /\ Fernet_accepts L k = true.
Proof.
  unfold get_encryption_key.
  destruct (negb (opt_truthy (getenv_ENCRYPTION_KEY W))).
  - eexists _, _. split; [reflexivity|]. apply (generated_key_accepted L HL).
  - unfold try_except, bind, Fernet.
    destruct (Fernet_accepts L (encode (py_or (getenv_ENCRYPTION_KEY W) "")))
      eqn:Hacc; cbn.
    + eexists _, _. split; [reflexivity|]. exact Hacc.
    + eexists _, _. split; [reflexivity|].
      apply (b64_of_32_accepted L HL), (derived_length L HL).
Qed.

(** With a configured key the resolved key depends on nothing else. *)
Lemma configured_key_is_constant (W1 W2 : World) (s1 s2 : Sys) :
  opt_truthy (getenv_ENCRYPTION_KEY W1) = true ->
  getenv_ENCRYPTION_KEY W1 = getenv_ENCRYPTION_KEY W2 ->
  fst (get_encryption_key L W1 s1) = fst (get_encryption_key L W2 s2).
Proof.
  intros Ht He. unfold get_encryption_key. rewrite <- He, Ht. cbn.
  unfold try_except, bind, Fernet.
  now destruct (Fernet_accepts L _).
Qed.

(** Without a configured key every call generates its own key from
    fresh randomness. *)
Lemma unconfigured_key_is_fresh (W : World) (s : Sys) :
  opt_truthy (getenv_ENCRYPTION_KEY W) = false ->
  get_encryption_key L W s =
    (Ok (Fernet_generate_key L (os_urandom W (drawn s))),
     {| db := db s; net_log := net_log s;
        _current_gitlab_config := _current_gitlab_config s;
        drawn := S (drawn s) |}).
Proof.
  intros Ht. unfold get_encryption_key. now rewrite Ht.
Qed.

Lemma encrypt_token_returns (W : World) (token : string) (s : Sys) :
  exists ct s', encrypt_token L W token s = (Ok ct, s').
Proof.
  destruct (get_encryption_key_accepted W s) as (k & s1 & Hk & Hacc).
  unfold encrypt_token. rewrite (bind_ok _ _ _ _ _ Hk).
  unfold bind, Fernet. rewrite Hacc. cbn. eexists _, _. reflexivity.
Qed.

Lemma encrypt_token_value (W : World) (token : string) (s : Sys) k s1 :
  get_encryption_key L W s = (Ok k, s1) ->
  fst (encrypt_token L W token s) =
    Ok (Fernet_encrypt L k (os_urandom W (drawn s1)) (encode token)).
Proof.
  intros Hk.
  destruct (get_encryption_key_accepted W s) as (k' & s1' & Hk' & Hacc).
  rewrite Hk in Hk'. inversion Hk'; subst k' s1'.
  unfold encrypt_token. rewrite (bind_ok _ _ _ _ _ Hk).
  unfold bind, Fernet. rewrite Hacc. reflexivity.
Qed.

Lemma decode_encode (W : World) (token : string) (s : Sys) :
  utf8_valid (encode token) = true ->
  decode (encode token) s = (Ok token, s).
Proof.
  intros Hv. unfold decode. rewrite Hv. unfold encode.
  now rewrite string_of_list_byte_of_string.
Qed.

(** C10. Decrypting what [encrypt_token] produced returns the plaintext,
    for every plaintext string, provided the key that [decrypt_token]
    resolves is the key that [encrypt_token] resolved (the two calls may
    run in different processes). *)
Theorem decrypt_encrypt_roundtrip
    (W1 W2 : World) (s1 s2 : Sys) (token : string) :
  utf8_valid (encode token) = true ->
  fst (get_encryption_key L W1 s1) = fst (get_encryption_key L W2 s2) ->
  exists ct s1',
    encrypt_token L W1 token s1 = (Ok ct, s1') /\
    fst (decrypt_token L W2 ct s2) = Ok token.
Proof.
  intros Hutf Hkey.
  destruct (get_encryption_key_accepted W1 s1) as (k & t1 & Hk1 & Hacc).
  destruct (get_encryption_key_accepted W2 s2) as (k2 & t2 & Hk2 & _).
  rewrite Hk1, Hk2 in Hkey. cbn in Hkey. inversion Hkey; subst k2.
  destruct (encrypt_token_returns W1 token s1) as (ct & s1' & Henc).
  exists ct, s1'. split; [exact Henc|].
  pose proof (encrypt_token_value W1 token s1 k t1 Hk1) as Hval.
  rewrite Henc in Hval. cbn in Hval. inversion Hval; subst ct.
  unfold decrypt_token. rewrite (bind_ok _ _ _ _ _ Hk2).
  unfold bind, Fernet. rewrite Hacc. unfold ret.
  rewrite (decrypt_encrypt L HL) by exact Hacc.
  now rewrite (decode_encode W2).
Qed.

End Encryption.

(** ** gitlab_validator.py *)

Section Validator.

Variables (W : World) (url token : string) (s : Sys).

Let run := validate_gitlab_credentials W url token s.
Let answer := client_get W (net_log s) (user_request url token).
Let accepted := HttpUrl_accepts W (rstrip_slash url).
Let encodable := is_ascii token.

Ltac start :=
  unfold run, answer, accepted, encodable, validate_gitlab_credentials,
    user_request, bind, try_except, HttpUrl, http_get;
  set (u := rstrip_slash url).

Ltac respond Hacc Henc Hget :=
  start; intros Hacc Henc Hget; rewrite Hacc; cbn; rewrite Hget; cbn;
  rewrite Henc; cbn.

Lemma validate_rejected_url :
  accepted = false ->
  run = (Ok (invalid "Invalid GitLab URL format" "invalid_url"), s).
Proof. start. intros Hacc. now rewrite Hacc. Qed.

(** A token that cannot be sent as a header: nothing goes out. *)
Lemma validate_not_encodable :
  accepted = true -> encodable = false -> run = (Ok unknown_error, s).
Proof.
  start. intros Hacc Henc. rewrite Hacc. cbn.
  destruct (client_get W (net_log s) _) as [r|e|msg]; cbn;
    rewrite ?Henc; reflexivity.
Qed.

(** A request the client cannot build: nothing goes out either. *)
Lemma validate_refused msg :
  accepted = true -> answer = Refused msg -> run = (Ok unknown_error, s).
Proof. start. intros Hacc Hget. rewrite Hacc. cbn. now rewrite Hget. Qed.

Lemma validate_200_username r name :
  accepted = true -> encodable = true -> answer = Responds r ->
  status_code r = 200 -> json r = Some (JUser (Some (PyStr name))) ->
  run = (Ok (valid_as (Some name)), sent (user_request url token) s).
Proof.
  respond Hacc Henc Hget. intros Hst Hj. rewrite Hst. cbn.
  unfold response_json. now rewrite Hj.
Qed.

Lemma validate_200_null_username r :
  accepted = true -> encodable = true -> answer = Responds r ->
  status_code r = 200 -> json r = Some (JUser (Some PyNone)) ->
  run = (Ok (valid_as None), sent (user_request url token) s).
Proof.
  respond Hacc Henc Hget. intros Hst Hj. rewrite Hst. cbn.
  unfold response_json. now rewrite Hj.
Qed.

Lemma validate_200_no_username r b :
  accepted = true -> encodable = true -> answer = Responds r ->
  status_code r = 200 -> json r = Some b ->
  object_without_username b = true ->
  run = (Ok (valid_as (Some "unknown")), sent (user_request url token) s).
Proof.
  respond Hacc Henc Hget. intros Hst Hj Hb. rewrite Hst. cbn.
  unfold response_json. rewrite Hj.
  now destruct b as [[v|]| | | | | |].
Qed.

Lemma validate_200_unreadable r :
  accepted = true -> encodable = true -> answer = Responds r ->
  status_code r = 200 -> names_user (json r) = false ->
  run = (Ok unknown_error, sent (user_request url token) s).
Proof.
  respond Hacc Henc Hget. intros Hst Hj. rewrite Hst. cbn.
  unfold response_json.
  now destruct (json r) as [[[[| |]|]| | | | | |]|].
Qed.

Lemma validate_401 r :
  accepted = true -> encodable = true -> answer = Responds r ->
  status_code r = 401 ->
  run = (Ok (invalid "Invalid access token or token expired" "invalid_token"),
         sent (user_request url token) s).
Proof. respond Hacc Henc Hget. intros Hst. now rewrite Hst. Qed.

Lemma validate_403 r :
  accepted = true -> encodable = true -> answer = Responds r ->
  status_code r = 403 ->
  run = (Ok (invalid "Token lacks required permissions"
                     "insufficient_permissions"),
         sent (user_request url token) s).
Proof. respond Hacc Henc Hget. intros Hst. now rewrite Hst. Qed.

Lemma validate_404 r :
  accepted = true -> encodable = true -> answer = Responds r ->
  status_code r = 404 ->
  run = (Ok (invalid "GitLab API endpoint not found - check URL" "not_found"),
         sent (user_request url token) s).
Proof. respond Hacc Henc Hget. intros Hst. now rewrite Hst. Qed.

Lemma validate_other_status r :
  accepted = true -> encodable = true -> answer = Responds r ->
  status_code r <> 200 -> status_code r <> 401 ->
  status_code r <> 403 -> status_code r <> 404 ->
  run = (Ok (invalid ("GitLab API error: " ++ str_of_Z (status_code r))
                     "api_error"),
         sent (user_request url token) s).
Proof.
  respond Hacc Henc Hget. intros H0 H1 H3 H4.
  apply Z.eqb_neq in H0, H1, H3, H4. now rewrite H0, H1, H3, H4.
Qed.

Lemma validate_timeout msg :
  accepted = true -> encodable = true ->
  answer = Fails (TimeoutException msg) ->
  run = (Ok (invalid "Connection timeout - GitLab instance unreachable"
                     "timeout"),
         sent (user_request url token) s).
Proof. now respond Hacc Henc Hget. Qed.

Lemma validate_network_error msg :
  accepted = true -> encodable = true ->
  answer = Fails (NetworkError msg) ->
  run = (Ok (invalid "Network error - could not reach GitLab instance"
                     "network_error"),
         sent (user_request url token) s).
Proof. now respond Hacc Henc Hget. Qed.

Lemma validate_unexpected e :
  accepted = true -> encodable = true -> answer = Fails e -> unexpected e ->
  run = (Ok unknown_error, sent (user_request url token) s).
Proof.
  respond Hacc Henc Hget. intros Hu. now destruct e.
Qed.

(** A syntactically valid URL and a request that the client can build
    cost exactly one request. *)
Lemma validate_sends_one_request :
  accepted = true -> encodable = true ->
  (forall msg, answer <> Refused msg) ->
  snd run = sent (user_request url token) s.
Proof.
  start. intros Hacc Henc Hbuilt. rewrite Hacc. cbn.
  destruct (client_get W (net_log s) _) as [r|e|msg]; cbn;
    rewrite ?Henc; cbn; [| |now destruct (Hbuilt msg)].
  - destruct (status_code r =? 200)%Z.
    + unfold response_json.
      now destruct (json r) as [[[[| |]|]| | | | | |]|].
    + now destruct (status_code r =? 401)%Z;
        [|destruct (status_code r =? 403)%Z;
          [|destruct (status_code r =? 404)%Z]].
  - now destruct e.
Qed.

(** Every result is one of the results the function builds, and every
    failure carries an error code. *)
Lemma validate_returns :
  exists v s',
    run = (Ok v, s') /\
    (GitLabValidationResult.is_valid v = false ->
     exists message code,
       GitLabValidationResult.error_message v = Some message /\
       GitLabValidationResult.error_code v = Some code).
Proof.
  start. destruct (HttpUrl_accepts W u); cbn.
  2: { eexists _, _. split; [reflexivity|]. cbn. eauto. }
  destruct (client_get W (net_log s) _) as [r|e|msg]; cbn;
    [| |eexists _, _; split; [reflexivity|]; cbn; eauto];
    (destruct (is_ascii token); cbn;
     [|eexists _, _; split; [reflexivity|]; cbn; eauto]).
  - destruct (status_code r =? 200)%Z.
    + unfold response_json.
      destruct (json r) as [[[[| |]|]| | | | | |]|]; cbn;
        eexists _, _; (split; [reflexivity|]); cbn; eauto; discriminate.
    + destruct (status_code r =? 401)%Z;
        [|destruct (status_code r =? 403)%Z;
          [|destruct (status_code r =? 404)%Z]];
        eexists _, _; (split; [reflexivity|]); cbn; eauto.
  - destruct e; eexists _, _; (split; [reflexivity|]); cbn; eauto.
Qed.

End Validator.

(** C2, counterexample.  A site that answers [GET /api/v4/user] with
    status 200 and a web page: the URL passes validation, the status is
    200, and the result is [unknown_error], not a valid credential. *)
Lemma status_200_web_page_is_unknown_error :
  fst (validate_gitlab_credentials Toy.web_site "https://example.com"
         "glpat-good" sys0) = Ok unknown_error /\
  ~ status_200_yields_valid Toy.web_site "https://example.com" "glpat-good"
      sys0.
Proof.
  split; [reflexivity|].
  intros H.
  destruct (H {| status_code := 200; text := "<html>Welcome</html>";
                 json := None |} eq_refl eq_refl eq_refl)
    as (v & s' & Hrun & Hvalid).
  vm_compute in Hrun. inversion Hrun; subst v. discriminate Hvalid.
Qed.

(** C2, as amended.  The result of [validate_gitlab_credentials] follows
    a fixed mapping.  A URL that fails syntax validation yields
    [invalid_url] and no request is made.  A request that the HTTP client
    cannot build (the token cannot be sent as a header: it is not ASCII;
    or [client.get] raises for another reason before it hands anything to
    the transport) yields [unknown_error] and no request is made either.
    Otherwise exactly one request is handed to the transport, and:
    - status 200 with a JSON object whose [username] is a string yields a
      valid result with that username; with an object that has no
      username, a valid result with ['unknown']; with an object whose
      username is [null], a valid result with no username;
    - status 200 with any other body (one that is not JSON, JSON that is
      not an object, an object whose username is neither a string nor
      [null]) yields [unknown_error];
    - 401 yields [invalid_token]; 403 yields [insufficient_permissions];
      404 yields [not_found]; every other status yields [api_error] with
      the status in the message;
    - a timeout yields [timeout]; a network error yields
      [network_error]. *)
Theorem validate_status_mapping (W : World) (url token : string) (s : Sys) :
  let run := validate_gitlab_credentials W url token s in
  let rq := user_request url token in
  let answer := client_get W (net_log s) rq in
  (HttpUrl_accepts W (rstrip_slash url) = false ->
     run = (Ok (invalid "Invalid GitLab URL format" "invalid_url"), s)) /\
  (HttpUrl_accepts W (rstrip_slash url) = true -> is_ascii token = false ->
     run = (Ok unknown_error, s)) /\
  (HttpUrl_accepts W (rstrip_slash url) = true ->
     forall msg, answer = Refused msg -> run = (Ok unknown_error, s)) /\
  (HttpUrl_accepts W (rstrip_slash url) = true -> is_ascii token = true ->
     ((forall msg, answer <> Refused msg) -> snd run = sent rq s) /\
     (forall r name,
        answer = Responds r -> status_code r = 200 ->
        json r = Some (JUser (Some (PyStr name))) ->
        fst run = Ok (valid_as (Some name))) /\
     (forall r b,
        answer = Responds r -> status_code r = 200 ->
        json r = Some b -> object_without_username b = true ->
        fst run = Ok (valid_as (Some "unknown"))) /\
     (forall r,
        answer = Responds r -> status_code r = 200 ->
        json r = Some (JUser (Some PyNone)) ->
        fst run = Ok (valid_as None)) /\
     (forall r,
        answer = Responds r -> status_code r = 200 ->
        names_user (json r) = false ->
        fst run = Ok unknown_error) /\
     (forall r,
        answer = Responds r -> status_code r = 401 ->
        fst run = Ok (invalid "Invalid access token or token expired"
                              "invalid_token")) /\
     (forall r,
        answer = Responds r -> status_code r = 403 ->
        fst run = Ok (invalid "Token lacks required permissions"
                              "insufficient_permissions")) /\
     (forall r,
        answer = Responds r -> status_code r = 404 ->
        fst run = Ok (invalid "GitLab API endpoint not found - check URL"
                              "not_found")) /\
     (forall r,
        answer = Responds r ->
        status_code r <> 200 -> status_code r <> 401 ->
        status_code r <> 403 -> status_code r <> 404 ->
        fst run = Ok (invalid ("GitLab API error: " ++
                               str_of_Z (status_code r)) "api_error")) /\
     (forall msg,
        answer = Fails (TimeoutException msg) ->
        fst run = Ok (invalid
                        "Connection timeout - GitLab instance unreachable"
                        "timeout")) /\
     (forall msg,
        answer = Fails (NetworkError msg) ->
        fst run = Ok (invalid
                        "Network error - could not reach GitLab instance"
                        "network_error"))).
Proof.
  cbv zeta. split; [|split; [|split]].
  - apply validate_rejected_url.
  - apply validate_not_encodable.
  - intros Hacc msg. now apply validate_refused.
  - intros Hacc Henc. split.
    { now apply validate_sends_one_request. }
    repeat split; intros.
    + now erewrite validate_200_username by eassumption.
    + now erewrite validate_200_no_username by eassumption.
    + now erewrite validate_200_null_username by eassumption.
    + now erewrite validate_200_unreadable by eassumption.
    + now erewrite validate_401 by eassumption.
    + now erewrite validate_403 by eassumption.
    + now erewrite validate_404 by eassumption.
    + now erewrite validate_other_status by eassumption.
    + now erewrite validate_timeout by eassumption.
    + now erewrite validate_network_error by eassumption.
Qed.

(** C3.  [validate_gitlab_credentials] returns a result for every input
    and every outcome of the HTTP call, and never raises; an exception of
    the transport that is neither a timeout nor a network error, and a
    body that cannot be decoded, are mapped to [unknown_error]. *)
Theorem validate_never_raises (W : World) (url token : string) (s : Sys) :
  let run := validate_gitlab_credentials W url token s in
  let answer := client_get W (net_log s) (user_request url token) in
  (exists v s', run = (Ok v, s')) /\
  (forall e,
     HttpUrl_accepts W (rstrip_slash url) = true ->
     answer = Fails e -> unexpected e ->
     exists s',
       run = (Ok unknown_error, s') /\
       GitLabValidationResult.error_code unknown_error = Some "unknown_error").
Proof.
  cbv zeta. split.
  - destruct (validate_returns W url token s) as (v & s' & H & _). eauto.
  - intros e Hacc Hget Hu.
    destruct (is_ascii token) eqn:Henc.
    + eexists. split; [|reflexivity].
      now apply validate_unexpected with (e := e).
    + eexists. split; [|reflexivity].
      now apply validate_not_encodable.
Qed.

(** ** llm_service.py *)

Lemma find_none_iff {A} (p : A -> bool) (l : list A) :
  find p l = None <-> (forall x, In x l -> p x = false).
Proof.
  split.
  - apply find_none.
  - induction l as [|a l IH]; cbn; intros H; [reflexivity|].
    rewrite (H a (or_introl eq_refl)). apply IH. intros x Hx.
    apply H. now right.
Qed.

Lemma get_encryption_key_frame L W s :
  let s' := snd (get_encryption_key L W s) in
  db s' = db s /\ net_log s' = net_log s /\
  _current_gitlab_config s' = _current_gitlab_config s.
Proof.
  unfold get_encryption_key.
  destruct (negb (opt_truthy (getenv_ENCRYPTION_KEY W))); cbn.
  - auto.
  - unfold try_except, bind, Fernet.
    destruct (Fernet_accepts L _); cbn; auto.
Qed.

Lemma encrypt_token_frame L W token s :
  let s' := snd (encrypt_token L W token s) in
  db s' = db s /\ net_log s' = net_log s /\
  _current_gitlab_config s' = _current_gitlab_config s.
Proof.
  pose proof (get_encryption_key_frame L W s) as Hk.
  unfold encrypt_token, bind.
  destruct (get_encryption_key L W s) as [[k|e] s1]; cbn in *; [|exact Hk].
  unfold Fernet. destruct (Fernet_accepts L k); cbn; exact Hk.
Qed.

Lemma validate_frame W url token s :
  let s' := snd (validate_gitlab_credentials W url token s) in
  db s' = db s /\ drawn s' = drawn s /\
  _current_gitlab_config s' = _current_gitlab_config s.
Proof.
  cbv zeta.
  destruct (HttpUrl_accepts W (rstrip_slash url)) eqn:Hacc.
  - destruct (is_ascii token) eqn:Henc.
    + destruct (client_get W (net_log s) (user_request url token))
        as [r|e|msg] eqn:Hget.
      * rewrite (validate_sends_one_request W url token s Hacc Henc)
          by (intros msg; rewrite Hget; discriminate).
        cbn. auto.
      * rewrite (validate_sends_one_request W url token s Hacc Henc)
          by (intros msg; rewrite Hget; discriminate).
        cbn. auto.
      * rewrite (validate_refused W url token s msg Hacc Hget). cbn. auto.
    + rewrite (validate_not_encodable W url token s Hacc Henc). cbn. auto.
  - rewrite (validate_rejected_url W url token s Hacc). cbn. auto.
Qed.

(** *** The text of a UUID *)





Section Service.

Context (L : FernetLib) (HL : FernetLaws L) (W : World).

Lemma lookup_missing cid user (s : Sys) :
  (forall c, In c (db s) ->
     uuid_in cid = Some (GitLabConfig.id c) ->
     GitLabConfig.user_id c <> user) ->
  find (owned_by cid user) (db s) = None.
Proof.
  intros H. apply find_none_iff. intros c Hin. unfold owned_by.
  destruct (uuid_in cid) as [u|] eqn:Hu; [|reflexivity].
  destruct (N.eqb_spec (GitLabConfig.id c) u) as [Heq|]; [|reflexivity].
  destruct (String.eqb_spec (GitLabConfig.user_id c) user) as [Hc|];
    [|reflexivity].
  subst u. now destruct (H c Hin eq_refl).
Qed.

(** A row that the lookup finds: the id asked for is the text of the
    row's UUID, in some spelling, and the row is the user's. *)
Lemma owned_by_true cid user c :
  owned_by cid user c = true ->
  uuid_in cid = Some (GitLabConfig.id c) /\ GitLabConfig.user_id c = user.
Proof.
  unfold owned_by. intros H. apply andb_true_iff in H. destruct H as [Hid Hu].
  apply String.eqb_eq in Hu.
  destruct (uuid_in cid) as [u|]; [|discriminate].
  apply N.eqb_eq in Hid. now subst u.
Qed.

Lemma query_config_finds cid user (s : Sys) c :
  find (owned_by cid user) (db s) = Some c ->
  query_config cid user s = (Ok (Some c), s).
Proof.
  intros Hf. unfold query_config, query_first.
  destruct (find_some _ _ Hf) as [_ Hc].
  apply owned_by_true in Hc. destruct Hc as (Hu & _).
  now rewrite Hu, Hf.
Qed.

(** C4.  Creating a credential whose URL the same user already holds is
    rejected with [conflict], whatever the world (and so whatever the
    validation of the submitted token would say); the state is left as it
    was: no row is added and no request is sent. *)
Theorem create_duplicate_is_conflict
    (config_data : GitLabConfigCreate.t) (current_user : string) (s : Sys) :
  (exists c, In c (db s) /\
     GitLabConfig.user_id c = current_user /\
     GitLabConfig.gitlab_url c = GitLabConfigCreate.gitlab_url config_data) ->
  create_gitlab_config L W config_data current_user s = (Raise conflict, s).
Proof.
  intros (c & Hin & Hu & Hurl).
  unfold create_gitlab_config, bind, query_first.
  destruct (find _ (db s)) eqn:Hf; [reflexivity|].
  apply find_none with (x := c) in Hf; [|exact Hin].
  cbn in Hf. rewrite Hu, Hurl, !String.eqb_refl in Hf. discriminate.
Qed.


(** C6.  Reading, updating and deleting look the row up by its id and the
    requesting user's id together.  For an id that is the text of a UUID,
    in any spelling the database reads, when no row has both (the UUID is
    unknown, or its row belongs to someone else), each of the three ends
    in the same [not_found_error] and leaves the state as it was. *)
Theorem foreign_or_missing_is_not_found
    (config_id current_user : string) (config_update : GitLabConfigUpdate.t)
    (s : Sys) :
  uuid_in config_id <> None ->
  (forall c, In c (db s) ->
     uuid_in config_id = Some (GitLabConfig.id c) ->
     GitLabConfig.user_id c <> current_user) ->
  get_gitlab_config config_id current_user s = (Raise not_found_error, s) /\
  update_gitlab_config L W config_id config_update current_user s =
    (Raise not_found_error, s) /\
  delete_gitlab_config config_id current_user s = (Raise not_found_error, s).
Proof.
  intros Hu H. apply lookup_missing in H.
  unfold get_gitlab_config, update_gitlab_config, delete_gitlab_config,
    bind, query_config, query_first.
  destruct (uuid_in config_id); [|now destruct Hu].
  now rewrite H.
Qed.


(** The converse for reading: the owner's row is found. *)
Lemma get_own_config (config_id current_user : string) (s : Sys) c :
  find (owned_by config_id current_user) (db s) = Some c ->
  get_gitlab_config config_id current_user s = (Ok (response_of_config c), s).
Proof.
  intros H. unfold get_gitlab_config, bind.
  now rewrite (query_config_finds _ _ _ _ H).
Qed.

End Service.

(** *** Updating a credential *)


Section Update.

Context (L : FernetLib) (HL : FernetLaws L) (W : World).


(** What the code does with a supplied [is_active] beside an empty or
    blank token: the value is dropped. *)
Lemma update_blank_token_drops_is_active
    (config_id : string) (config_update : GitLabConfigUpdate.t)
    (current_user token : string) (s : Sys) (c : GitLabConfig.t) :
  find (owned_by config_id current_user) (db s) = Some c ->
  GitLabConfigUpdate.access_token config_update = Some token ->
  str_truthy (strip token) = false ->
  exists response s' c',
    update_gitlab_config L W config_id config_update current_user s =
      (Ok response, s') /\
    db s' = committed c c' (db s) /\
    GitLabConfig.is_active c' = GitLabConfig.is_active c.
Proof.
  intros Hfind Htoken Hblank.
  unfold update_gitlab_config.
  rewrite (bind_ok _ _ s (Some c) s)
    by (now apply query_config_finds).
  destruct config_update as [uname uurl utoken uproject uactive].
  cbn in Htoken. subst utoken. cbn. rewrite Hblank. unfold bind. cbn.
  destruct uname, uurl, uproject, uactive; cbn;
    (eexists _, _, _; split; [reflexivity|]; cbn; split; reflexivity).
Qed.

End Update.

(** ** gitlab_tools.py *)

Section Tools.

Context (L : FernetLib) (W : World).

(** C7.  When the server answers the list request with merge requests
    (the request went out, so the token could be sent as a header),
    [list_merge_requests] displays the first ten of them at most, one
    entry each, and whenever more than ten were returned it ends with a
    notice citing how many were left out; with twelve returned it displays
    ten and the notice reads [... and 2 more merge requests]. *)
Theorem list_merge_requests_caps_at_ten
    (state : string) (s s1 : Sys) (cfg : GitLabConfig.t)
    (project token : string) (r : Response) (mrs : list MergeRequest) :
  _current_gitlab_config s = Some cfg ->
  GitLabConfig.project_id cfg = Some project ->
  project <> "" ->
  decrypt_token L W (GitLabConfig.access_token_encrypted cfg) s =
    (Ok token, s1) ->
  is_ascii token = true ->
  client_get W (net_log s1) (merge_requests_request cfg project token state) =
    Responds r ->
  (200 <= status_code r < 300)%Z ->
  json r = Some (JMergeRequests mrs) ->
  let shown := map format_mr (firstn 10 mrs) in
  let listing := list_header project state (length mrs) ++
                 join (nl ++ nl) shown in
  let result := fst (list_merge_requests L W state s) in
  (length shown <= 10)%nat /\
  (mrs = [] ->
     result = Ok ("No " ++ state ++ " merge requests found in project " ++
                  project ++ ".")) /\
  (mrs <> [] -> (length mrs <= 10)%nat -> result = Ok listing) /\
  (mrs <> [] -> (10 < length mrs)%nat ->
     result = Ok (listing ++
                  more_notice (str_of_Z (Z.of_nat (length mrs) - 10)))) /\
  (length mrs = 12%nat ->
     length shown = 10%nat /\
     result = Ok (listing ++ more_notice "2")).
Proof.
  intros Hcfg Hproject Hne Hdec Hascii Hget Hstatus Hjson. cbv zeta.
  assert (Hrun : fst (list_merge_requests L W state s) =
    Ok match mrs with
       | [] => "No " ++ state ++ " merge requests found in project " ++
               project ++ "."
       | _ =>
           if (10 <? length mrs)%nat then
             (list_header project state (length mrs) ++
              join (nl ++ nl) (map format_mr (firstn 10 mrs))) ++
             more_notice (str_of_Z (Z.of_nat (length mrs) - 10))
           else
             list_header project state (length mrs) ++
             join (nl ++ nl) (map format_mr (firstn 10 mrs))
       end).
  { unfold list_merge_requests, bind, current_gitlab_config, try_except.
    rewrite Hcfg, Hproject. cbn [opt_truthy str_opt negb].
    apply String.eqb_neq in Hne. unfold str_truthy. rewrite Hne.
    cbn [negb]. rewrite Hdec.
    unfold http_get. rewrite Hascii. cbn [negb].
    fold (merge_requests_request cfg project token state).
    rewrite Hget. unfold raise_for_status.
    replace ((200 <=? status_code r)%Z && (status_code r <? 300)%Z)
      with true by (symmetry; apply andb_true_iff; split;
                    [apply Z.leb_le | apply Z.ltb_lt]; lia).
    unfold ret, response_json. rewrite Hjson.
    destruct mrs as [|m ms]; [reflexivity|].
    cbn [body_truthy negb]. unfold merge_requests_of, ret.
    cbv beta iota zeta.
    destruct (10 <? length (m :: ms))%nat; reflexivity. }
  rewrite Hrun. split; [|split; [|split; [|split]]].
  - rewrite length_map, length_firstn. apply Nat.le_min_l.
  - intros ->. reflexivity.
  - intros Hn Hlen. destruct mrs as [|m ms]; [now destruct Hn|].
    apply Nat.ltb_ge in Hlen. now rewrite Hlen.
  - intros Hn Hlen. destruct mrs as [|m ms]; [now destruct Hn|].
    apply Nat.ltb_lt in Hlen. now rewrite Hlen.
  - intros Hlen. split.
    + rewrite length_map, length_firstn, Hlen. reflexivity.
    + destruct mrs as [|m ms]; [discriminate Hlen|].
      rewrite Hlen. reflexivity.
Qed.

End Tools.

(** ** gitlab_agent.py *)

(** *** The pattern and the number it captures *)

Section PatternFacts.

Variable decimal : N -> option nat.

Lemma take_digits_decimal (cs : list char) :
  forallb (is_decimal decimal) (take_digits decimal cs) = true.
Proof.
  induction cs as [|c cs IH]; cbn; [reflexivity|].
  destruct (is_decimal decimal c) eqn:Hc; cbn; [|reflexivity].
  now rewrite Hc, IH.
Qed.

Lemma digits_here_captures (cs d : list char) :
  digits_here decimal cs = Some d ->
  d <> [] /\ forallb (is_decimal decimal) d = true.
Proof.
  unfold digits_here. intros H.
  pose proof (take_digits_decimal cs) as Hd.
  destruct (take_digits decimal cs) as [|c r]; [discriminate|].
  inversion H; subst d. split; [discriminate|exact Hd].
Qed.

Lemma spaces_digits_captures (cs d : list char) :
  spaces_digits decimal cs = Some d ->
  d <> [] /\ forallb (is_decimal decimal) d = true.
Proof.
  induction cs as [|c cs IH]; cbn [spaces_digits]; [discriminate|].
  destruct (py_isspace c).
  - destruct (spaces_digits decimal cs) as [d'|].
    + intros H. inversion H; subst d'. now apply IH.
    + apply digits_here_captures.
  - apply digits_here_captures.
Qed.

Lemma match_here_captures (s : string) (d : list char) :
  match_here decimal s = Some d ->
  d <> [] /\ forallb (is_decimal decimal) d = true.
Proof.
  unfold match_here. destruct (match_keyword s) as [cs|]; [|discriminate].
  apply spaces_digits_captures.
Qed.

(** What the pattern captures is a run of decimal digits, one at least. *)
Lemma re_search_captures (s : string) (d : list char) :
  re_search_mr_number decimal s = Some d ->
  d <> [] /\ forallb (is_decimal decimal) d = true.
Proof.
  induction s as [|c s IH]; cbn [re_search_mr_number].
  - destruct (match_here decimal "") as [d'|] eqn:Hm; [|discriminate].
    intros H. inversion H; subst d'. now apply match_here_captures in Hm.
  - destruct (match_here decimal (String c s)) as [d'|] eqn:Hm.
    + intros H. inversion H; subst d'. now apply match_here_captures in Hm.
    + exact IH.
Qed.

Lemma digits_fold_nonneg (d : list char) (acc : Z) :
  0 <= acc ->
  0 <= fold_left (fun acc c => 10 * acc + digit_value decimal c) d acc.
Proof.
  revert acc. induction d as [|c d IH]; cbn [fold_left]; intros acc Hacc;
    [exact Hacc|].
  apply IH. unfold digit_value. destruct (decimal (code c)); lia.
Qed.

(** [int()] reads a captured run of digits, unless the run is longer than
    the interpreter's limit. *)
Lemma int_of_digits_captured (limit : nat) (d : list char) :
  d <> [] -> forallb (is_decimal decimal) d = true ->
  (exists n, int_of_digits decimal limit d = Ok n /\ 0 <= n /\
             ~ ((640 < length d)%nat /\ (0 < limit < length d)%nat)) \/
  (exists msg, int_of_digits decimal limit d = Raise (ValueError msg) /\
               (640 < length d)%nat /\ (0 < limit < length d)%nat).
Proof.
  intros Hne Hd. unfold int_of_digits. rewrite Hd.
  destruct d as [|c d]; [now destruct Hne|].
  cbn [length Nat.eqb negb andb].
  destruct (640 <? S (length d))%nat eqn:H1;
    destruct (0 <? limit)%nat eqn:H2;
    destruct (limit <? S (length d))%nat eqn:H3; cbn [andb];
    try (right; eexists; split; [reflexivity|];
         apply Nat.ltb_lt in H1, H2, H3; cbn [length]; lia);
    left; eexists; (split; [reflexivity|]);
    (split; [apply digits_fold_nonneg; lia|]);
    cbn [length]; intros (Ha & Hb & Hc);
    first [apply Nat.ltb_ge in H1 | apply Nat.ltb_ge in H2
          | apply Nat.ltb_ge in H3]; lia.
Qed.

End PatternFacts.

(** *** The list of configurations *)

Lemma enumerate_combine {A} (n : nat) (l : list A) :
  enumerate n l = combine (seq n (length l)) l.
Proof.
  revert n. induction l as [|x l IH]; intros n; cbn; [reflexivity|].
  now rewrite IH.
Qed.

(** [list_gitlab_configs] writes the enumerated list. *)
Lemma list_gitlab_configs_enumerates (self : GitLabAgent.t) :
  GitLabAgent.gitlab_configs self <> [] ->
  list_gitlab_configs self = enumerated_list (GitLabAgent.gitlab_configs self).
Proof.
  intros Hne. unfold list_gitlab_configs, enumerated_list.
  destruct (GitLabAgent.gitlab_configs self) as [|c0 cs] eqn:Hc;
    [now destruct Hne|].
  rewrite enumerate_combine. f_equal. apply map_ext.
  intros [idx config]. cbn [fst snd]. unfold config_entry, py_or, str_truthy.
  destruct (GitLabConfig.config_name config) as [name|]; [|reflexivity].
  now destruct (name =? "").
Qed.

Lemma selection_prompt_is_returned (self : GitLabAgent.t) :
  "Please select a GitLab configuration first:" ++ nl ++ nl ++
  list_gitlab_configs self ++ nl ++ nl ++
  "Then use `/show-mr` or `/review-mr` to get started." =
  selection_prompt self.
Proof.
  unfold selection_prompt.
  destruct (GitLabAgent.gitlab_configs self) as [|c0 cs] eqn:Hc.
  - unfold list_gitlab_configs. now rewrite Hc.
  - rewrite list_gitlab_configs_enumerates by (rewrite Hc; discriminate).
    now rewrite Hc.
Qed.

(** C9, counterexample.  The greeting has no GitLab pattern, yet with two
    active configurations and none selected the answer is the selection
    prompt, not the null result. *)
Lemma greeting_gets_selection_prompt :
  handle_query Toy.lib (Toy.world 0) two_active_agent "Hello there" None sys0
    = (Ok (Some (selection_prompt two_active_agent)), two_active_agent, sys0)
  /\
  ~ non_match_yields_none Toy.lib (Toy.world 0) two_active_agent
      "Hello there" None sys0.
Proof.
  split; [reflexivity|].
  intros H. destruct H as (self' & s' & Hrun); [split; reflexivity|].
  vm_compute in Hrun. discriminate Hrun.
Qed.

Section Agent.

Context (L : FernetLib) (W : World).

Lemma list_merge_requests_returns state s :
  exists text s', list_merge_requests L W state s = (Ok text, s').
Proof.
  unfold list_merge_requests, bind, current_gitlab_config.
  destruct (_current_gitlab_config s) as [cfg|]; [|eexists _, _; reflexivity].
  destruct (negb (opt_truthy (GitLabConfig.project_id cfg)));
    [eexists _, _; reflexivity|].
  apply try_except_returns.
  intros e s1. destruct e; eexists _, _; reflexivity.
Qed.

Lemma get_merge_request_details_returns mr_number s :
  exists text s', get_merge_request_details L W mr_number s = (Ok text, s').
Proof.
  unfold get_merge_request_details, bind, current_gitlab_config.
  destruct (_current_gitlab_config s) as [cfg|]; [|eexists _, _; reflexivity].
  destruct (negb (opt_truthy (GitLabConfig.project_id cfg)));
    [eexists _, _; reflexivity|].
  apply try_except_returns.
  intros e s1. destruct e; eexists _, _; reflexivity.
Qed.

Lemma select_config_by_id_misses self id :
  (forall c, In c (GitLabAgent.gitlab_configs self) ->
     str_uuid (GitLabConfig.id c) <> id) ->
  select_config_by_id self id = (false, self).
Proof.
  intros H. unfold select_config_by_id.
  replace (find _ _) with (@None GitLabConfig.t); [reflexivity|].
  symmetry. apply find_none_iff. intros c Hin.
  apply String.eqb_neq. now apply H.
Qed.

Lemma select_config_by_id_hits self id c :
  In c (GitLabAgent.gitlab_configs self) ->
  str_uuid (GitLabConfig.id c) = id ->
  exists c',
    select_config_by_id self id =
      (true, GitLabAgent.set_selected_config (Some c') self).
Proof.
  intros Hin Hid. unfold select_config_by_id.
  destruct (find _ _) as [c'|] eqn:Hf; [now exists c'|].
  apply find_none with (x := c) in Hf; [|exact Hin].
  cbv beta in Hf. rewrite Hid, String.eqb_refl in Hf. discriminate.
Qed.

(** With nothing selected and no remembered id that resolves, the first
    block of [handle_query] looks at the active configurations only. *)
Lemma select_for_query_unresolved self last_config_id :
  GitLabAgent.selected_config self = None ->
  ~ resolves self last_config_id ->
  select_for_query self last_config_id =
    if (length (active_configs self) =? 1)%nat
    then inl (GitLabAgent.set_selected_config
                (hd_error (active_configs self)) self)
    else inr (selection_prompt self).
Proof.
  intros Hnone Hres. unfold select_for_query. rewrite Hnone.
  rewrite selection_prompt_is_returned.
  destruct last_config_id as [id|]; cbn [opt_truthy str_opt].
  - unfold str_truthy. destruct (String.eqb_spec id "") as [->|Hid];
      cbn [negb]; [reflexivity|].
    rewrite select_config_by_id_misses; [reflexivity|].
    intros c Hin Heq. apply Hres. now exists id, c.
  - reflexivity.
Qed.

Lemma select_for_query_selectable self last_config_id :
  selectable self last_config_id ->
  exists self',
    select_for_query self last_config_id = inl self' /\
    GitLabAgent.selected_config self' <> None.
Proof.
  intros Hsel. unfold select_for_query.
  rewrite selection_prompt_is_returned.
  destruct (GitLabAgent.selected_config self) as [c0|] eqn:Hc0.
  { exists self. split; [reflexivity|]. now rewrite Hc0. }
  assert (Hactive : length (active_configs self) = 1%nat ->
    exists self',
      (if (length (active_configs self) =? 1)%nat
       then inl (GitLabAgent.set_selected_config
                   (hd_error (active_configs self)) self)
       else inr (selection_prompt self)) = inl self' /\
      GitLabAgent.selected_config self' <> None).
  { intros Hlen. rewrite Hlen. cbn [Nat.eqb]. eexists. split; [reflexivity|].
    cbn. destruct (active_configs self); [discriminate Hlen|discriminate]. }
  destruct last_config_id as [id|]; cbn [opt_truthy str_opt].
  - unfold str_truthy. destruct (String.eqb_spec id "") as [->|Hid];
      cbn [negb].
    + destruct Hsel as [H|[(id' & c & Hl & Hne & _)|H]];
        [now destruct H | inversion Hl; subst; now destruct Hne
        | now apply Hactive].
    + destruct (find (fun config => str_uuid (GitLabConfig.id config) =? id)
                  (GitLabAgent.gitlab_configs self)) as [c'|] eqn:Hf;
        unfold select_config_by_id; rewrite Hf.
      * eexists. split; [reflexivity|]. discriminate.
      * destruct Hsel as [H|[(id' & c & Hl & _ & Hin & Heq)|H]];
          [now destruct H | | now apply Hactive].
        injection Hl as Hl. rewrite <- Hl in Heq.
        apply find_none with (x := c) in Hf; [|exact Hin].
        cbv beta in Hf. rewrite Heq, String.eqb_refl in Hf. discriminate.
  - destruct Hsel as [H|[(id' & c & Hl & _)|H]];
      [now destruct H | discriminate Hl | now apply Hactive].
Qed.

(** What [handle_query] does with the query once a configuration is
    selected: it returns, unless the query refers to a merge request by
    more digits than [int()] reads, in which case the [ValueError] of
    [int()] leaves the method. *)
Lemma answer_query_outcome self query s :
  exists outcome s',
    answer_query L W self query s = (outcome, s') /\
    (~ reference_too_long W query -> exists out, outcome = Ok out) /\
    (reference_too_long W query ->
     exists msg, outcome = Raise (ValueError msg)).
Proof.
  unfold answer_query, reference_too_long, bind, set_gitlab_config,
    int_of_group.
  destruct (re_search_mr_number (unicode_decimal W) (lower query))
    as [digits|] eqn:Hre.
  - destruct (re_search_captures _ _ _ Hre) as [Hne Hd].
    destruct (int_of_digits_captured (unicode_decimal W)
                (int_max_str_digits W) digits Hne Hd)
      as [(n & Hn & _ & Hshort)|(msg & Hm & Hlong)].
    + rewrite Hn.
      match goal with
      | |- context [get_merge_request_details L W ?n ?st] =>
          destruct (get_merge_request_details_returns n st) as (t & s' & Ht);
          rewrite Ht
      end.
      eexists _, _. split; [reflexivity|]. split.
      * intros _. eexists. reflexivity.
      * intros (d & Hd' & Hl). inversion Hd'; subst d. now destruct Hshort.
    + rewrite Hm. eexists _, _. split; [reflexivity|]. split.
      * intros Hno. exfalso. apply Hno. now exists digits.
      * intros _. now exists msg.
  - assert (Hno : ~ (exists digits : list char,
                       None = Some digits /\
                       (640 < length digits)%nat /\
                       (0 < int_max_str_digits W < length digits)%nat))
      by (intros (d & Hd & _); discriminate).
    destruct (existsb _ list_keywords).
    + match goal with
      | |- context [list_merge_requests L W ?st ?sy] =>
          destruct (list_merge_requests_returns st sy) as (t & s' & Ht);
          rewrite Ht
      end.
      eexists _, _. split; [reflexivity|]. split.
      * intros _. eexists. reflexivity.
      * intros H. now destruct Hno.
    + eexists _, _. split; [reflexivity|]. split.
      * intros _. eexists. reflexivity.
      * intros H. now destruct Hno.
Qed.

(** Once a configuration is selected the agent keeps it, whether
    [handle_query] returns or raises. *)
Lemma handle_query_selected self self' query last_config_id s :
  select_for_query self last_config_id = inl self' ->
  exists outcome s',
    handle_query L W self query last_config_id s = (outcome, self', s') /\
    (~ reference_too_long W query -> exists out, outcome = Ok out) /\
    (reference_too_long W query ->
     exists msg, outcome = Raise (ValueError msg)).
Proof.
  intros Hsel. unfold handle_query. rewrite Hsel.
  destruct (answer_query_outcome self' query s) as (o & s' & Ha & Ho).
  rewrite Ha. now exists o, s'.
Qed.

(** C8.  With no configuration selected and no remembered id that
    resolves: if exactly one configuration is active, [handle_query]
    selects it and goes on with the query (it then returns, unless the
    query refers to a merge request by more digits than [int()] reads and
    the [ValueError] leaves the method; the selection is made either
    way); if several are active it returns the prompt with the enumerated
    list of all configurations, selects none and leaves the state as it
    was. *)
Theorem single_active_is_selected_several_are_listed
    (self : GitLabAgent.t) (query : string) (last_config_id : option string)
    (s : Sys) :
  GitLabAgent.selected_config self = None ->
  ~ resolves self last_config_id ->
  (forall c, active_configs self = [c] ->
     exists outcome s',
       handle_query L W self query last_config_id s =
         (outcome, GitLabAgent.set_selected_config (Some c) self, s') /\
       (~ reference_too_long W query -> exists out, outcome = Ok out) /\
       (reference_too_long W query ->
        exists msg, outcome = Raise (ValueError msg))) /\
  ((2 <= length (active_configs self))%nat ->
     handle_query L W self query last_config_id s =
       (Ok (Some ("Please select a GitLab configuration first:" ++ nl ++ nl ++
                  enumerated_list (GitLabAgent.gitlab_configs self) ++
                  nl ++ nl ++
                  "Then use `/show-mr` or `/review-mr` to get started.")),
        self, s) /\
     GitLabAgent.selected_config self = None).
Proof.
  intros Hnone Hres.
  pose proof (select_for_query_unresolved self last_config_id Hnone Hres)
    as Hsel.
  split.
  - intros c Hc. rewrite Hc in Hsel. cbn in Hsel.
    now apply handle_query_selected.
  - intros Hlen. split; [|exact Hnone].
    destruct (Nat.eqb_spec (length (active_configs self)) 1) as [H1|_];
      [lia|].
    unfold handle_query. rewrite Hsel. unfold selection_prompt.
    unfold active_configs in Hlen.
    destruct (GitLabAgent.gitlab_configs self); [cbn in Hlen; lia|].
    reflexivity.
Qed.

(** C9, as amended.  For a query with no GitLab pattern: when a
    configuration is selected or can be selected without asking (the
    remembered id resolves, or exactly one configuration is active),
    [handle_query] returns the null result; when none can be selected it
    returns the selection prompt. *)
Theorem non_match_yields_none_once_selected
    (self : GitLabAgent.t) (query : string) (last_config_id : option string)
    (s : Sys) :
  no_gitlab_pattern W query ->
  (selectable self last_config_id ->
     exists self' s',
       handle_query L W self query last_config_id s = (Ok None, self', s') /\
       GitLabAgent.selected_config self' <> None) /\
  (~ selectable self last_config_id ->
     handle_query L W self query last_config_id s =
       (Ok (Some (selection_prompt self)), self, s)).
Proof.
  intros [Hre Hkw]. split.
  - intros Hsel.
    destruct (select_for_query_selectable self last_config_id Hsel)
      as (self' & Hs & Hc).
    exists self'. unfold handle_query. rewrite Hs.
    unfold answer_query, bind, set_gitlab_config. rewrite Hre, Hkw.
    eexists. split; [reflexivity|exact Hc].
  - intros Hno. unfold selectable in Hno.
    assert (Hnone : GitLabAgent.selected_config self = None).
    { destruct (GitLabAgent.selected_config self); [|reflexivity].
      exfalso. apply Hno. left. discriminate. }
    assert (Hres : ~ resolves self last_config_id) by tauto.
    unfold handle_query.
    rewrite (select_for_query_unresolved self last_config_id Hnone Hres).
    destruct (Nat.eqb_spec (length (active_configs self)) 1) as [H1|_];
      [tauto|reflexivity].
Qed.

End Agent.

(** ** The properties at concrete inputs *)

Lemma pad_length n b : length (Toy.pad n b) = n.
Proof.
  unfold Toy.pad. rewrite length_firstn, length_app, repeat_length. lia.
Qed.

Lemma starts_with_app p l : Toy.starts_with p (p ++ l)%list = true.
Proof.
  induction p as [|a p IH]; [reflexivity|].
  cbn. rewrite IH. now rewrite (@Byte.byte_dec_lb a a eq_refl).
Qed.

(** The stand-in library keeps the documented laws of the package. *)
Lemma toy_laws : FernetLaws Toy.lib.
Proof.
  split; intros; unfold Toy.lib;
    cbv beta iota delta [Fernet_accepts Fernet_generate_key Fernet_encrypt
                         Fernet_decrypt PBKDF2HMAC_SHA256 urlsafe_b64encode].
  - rewrite pad_length. reflexivity.
  - apply pad_length.
  - rewrite pad_length. reflexivity.
  - rewrite starts_with_app.
    rewrite app_assoc, skipn_app.
    rewrite length_app, pad_length.
    rewrite skipn_all2 by (rewrite length_app, pad_length; lia).
    now rewrite Nat.sub_diag.
Qed.

(** C10 at the token [glpat-good], encrypted and decrypted under the same
    configured passphrase. *)
Lemma decrypt_encrypt_roundtrip_witness :
  exists ct s1',
    encrypt_token Toy.lib (Toy.world 0) "glpat-good" sys0 = (Ok ct, s1') /\
    fst (decrypt_token Toy.lib (Toy.world 0) ct alice_db) = Ok "glpat-good".
Proof.
  apply (decrypt_encrypt_roundtrip Toy.lib toy_laws (Toy.world 0)
           (Toy.world 0) sys0 alice_db "glpat-good"); reflexivity.
Defined.

(** C4 at a second credential of [alice] for the URL she already holds,
    with a token the server would accept. *)
Lemma create_duplicate_is_conflict_witness :
  create_gitlab_config Toy.lib (Toy.world 0)
    (GitLabConfigCreate.mk (Some "again") "https://gitlab.example.com"
       "glpat-good" None)
    "alice" alice_db
  = (Raise conflict, alice_db).
Proof.
  apply (create_duplicate_is_conflict Toy.lib (Toy.world 0)).
  exists (Toy.config Toy.id1 "alice" "https://gitlab.example.com" true).
  split; [now left|]. split; reflexivity.
Defined.


(** C6 at a row of [alice] requested by [bob], the id written in capitals
    and in braces. *)
Lemma foreign_or_missing_is_not_found_witness :
  get_gitlab_config "{0000000000000000-0000-000000000001}" "bob" alice_db =
    (Raise not_found_error, alice_db) /\
  update_gitlab_config Toy.lib (Toy.world 0)
    "{0000000000000000-0000-000000000001}" empty_token_deactivate
    "bob" alice_db = (Raise not_found_error, alice_db) /\
  delete_gitlab_config "{0000000000000000-0000-000000000001}" "bob"
    alice_db = (Raise not_found_error, alice_db).
Proof.
  apply (foreign_or_missing_is_not_found Toy.lib (Toy.world 0)
           "{0000000000000000-0000-000000000001}" "bob"
           empty_token_deactivate alice_db).
  - discriminate.
  - intros c [<-|[]] _. discriminate.
Defined.


(** C7 at a project with twelve open merge requests. *)
Lemma list_merge_requests_caps_at_ten_witness :
  let mrs := map Toy.mr (seq 1 12) in
  let shown := map format_mr (firstn 10 mrs) in
  let listing := list_header "42" "opened" 12 ++ join (nl ++ nl) shown in
  length shown = 10%nat /\
  fst (list_merge_requests Toy.lib (Toy.world 12) "opened" alice_selected) =
    Ok (listing ++ more_notice "2").
Proof.
  cbv zeta.
  refine (proj2 (proj2 (proj2 (proj2
    (list_merge_requests_caps_at_ten Toy.lib (Toy.world 12) "opened"
       alice_selected alice_selected
       (Toy.config Toy.id1 "alice" "https://gitlab.example.com" true)
       "42" "glpat-good"
       {| status_code := 200; text := "";
          json := Some (JMergeRequests (map Toy.mr (seq 1 12))) |}
       (map Toy.mr (seq 1 12))
       eq_refl eq_refl _ _ eq_refl eq_refl _ eq_refl)))) eq_refl).
  - discriminate.
  - vm_compute. reflexivity.
  - cbn. lia.
Defined.

(** C8 at a user with one valid and one invalid configuration. *)
Lemma single_active_is_selected_witness :
  exists outcome s',
    handle_query Toy.lib (Toy.world 3) one_active_agent "show merge requests"
      None sys0 =
    (outcome,
     GitLabAgent.set_selected_config
       (Some (Toy.config Toy.id2 "alice" "https://gitlab.example.com" true))
       one_active_agent, s') /\
    (~ reference_too_long (Toy.world 3) "show merge requests" ->
     exists out, outcome = Ok out) /\
    (reference_too_long (Toy.world 3) "show merge requests" ->
     exists msg, outcome = Raise (ValueError msg)).
Proof.
  refine (proj1
    (single_active_is_selected_several_are_listed Toy.lib (Toy.world 3)
       one_active_agent "show merge requests" None sys0 eq_refl _) _ eq_refl).
  intros (id & c & Hl & _). discriminate Hl.
Defined.

(** C9 at a greeting sent to the same user. *)
Lemma non_match_yields_none_witness :
  exists self' s',
    handle_query Toy.lib (Toy.world 3) one_active_agent "Hello there" None
      sys0 = (Ok None, self', s') /\
    GitLabAgent.selected_config self' <> None.
Proof.
  refine (proj1
    (non_match_yields_none_once_selected Toy.lib (Toy.world 3)
       one_active_agent "Hello there" None sys0 _) _).
  - split; reflexivity.
  - right. right. reflexivity.
Defined.

(* ================================================================= *)
(** * Further properties of the code *)

(** ** Strings *)

Lemma append_nil_r (s : string) : s ++ "" = s.
Proof. induction s as [|c s IH]; cbn; [reflexivity | now rewrite IH]. Qed.

Lemma append_assoc (a b c : string) : (a ++ b) ++ c = a ++ b ++ c.
Proof. induction a as [|x a IH]; cbn; [reflexivity | now rewrite IH]. Qed.

Lemma rstrip_by_strippable (p : ascii -> bool) (s : string) (c : ascii) :
  p c = true -> rstrip_by p (s ++ String c "") = rstrip_by p s.
Proof.
  intros Hc. induction s as [|a s IH]; cbn.
  - now rewrite Hc.
  - now rewrite IH.
Qed.

Lemma rstrip_slash_slashes (url : string) (n : nat) :
  rstrip_slash (url ++ slashes n) = rstrip_slash url.
Proof.
  revert url. induction n as [|n IH]; intros url; cbn.
  - now rewrite append_nil_r.
  - change (String "/" (slashes n)) with (String "/" "" ++ slashes n).
    rewrite <- append_assoc, IH. now apply rstrip_by_strippable.
Qed.

(** ** encryption.py *)

Section EncryptionFurther.

Context (L : FernetLib) (HL : FernetLaws L).

(** X1.  A token encrypted by one process is decrypted by any other
    process (or the same one, in any state) that is started with the same
    non-empty [ENCRYPTION_KEY], be it a ready Fernet key or a passphrase. *)
Theorem encrypted_token_survives_restart
    (W1 W2 : World) (s1 s2 : Sys) (token key_str : string) :
  utf8_valid (encode token) = true ->
  getenv_ENCRYPTION_KEY W1 = Some key_str ->
  getenv_ENCRYPTION_KEY W2 = Some key_str ->
  key_str <> "" ->
  exists ct s1',
    encrypt_token L W1 token s1 = (Ok ct, s1') /\
    fst (decrypt_token L W2 ct s2) = Ok token.
Proof.
  intros Hutf H1 H2 Hne.
  assert (Hkey : fst (get_encryption_key L W1 s1) =
                 fst (get_encryption_key L W2 s2)).
  { apply configured_key_is_constant; [|congruence].
    rewrite H1. cbn. unfold str_truthy.
    apply String.eqb_neq in Hne. now rewrite Hne. }
  destruct (get_encryption_key_accepted L HL W1 s1) as (k & t1 & Hk1 & Hacc).
  destruct (get_encryption_key_accepted L HL W2 s2) as (k2 & t2 & Hk2 & _).
  rewrite Hk1, Hk2 in Hkey. cbn in Hkey. inversion Hkey; subst k2.
  destruct (encrypt_token_returns L HL W1 token s1) as (ct & s1' & Henc).
  exists ct, s1'. split; [exact Henc|].
  pose proof (encrypt_token_value L HL W1 token s1 k t1 Hk1) as Hval.
  rewrite Henc in Hval. cbn in Hval. inversion Hval; subst ct.
  unfold decrypt_token. rewrite (bind_ok _ _ _ _ _ Hk2).
  unfold bind, Fernet. rewrite Hacc. unfold ret.
  rewrite (decrypt_encrypt L HL) by exact Hacc.
  now rewrite (decode_encode W2).
Qed.

(** X2.  Without [ENCRYPTION_KEY] (unset or empty) every call generates
    its own key: a token encrypted by [encrypt_token] is refused with
    [InvalidToken] by the [decrypt_token] that follows in the same
    process, as soon as the two generated keys differ and the library
    refuses tokens made under another key. *)
Theorem unconfigured_key_breaks_roundtrip
    (W : World) (s : Sys) (token : string) :
  opt_truthy (getenv_ENCRYPTION_KEY W) = false ->
  rejects_foreign_keys L ->
  Fernet_generate_key L (os_urandom W (drawn s)) <>
    Fernet_generate_key L (os_urandom W (S (S (drawn s)))) ->
  exists ct s1,
    encrypt_token L W token s = (Ok ct, s1) /\
    fst (decrypt_token L W ct s1) = Raise InvalidToken.
Proof.
  intros Hunset Hforeign Hdiff.
  pose proof (generated_key_accepted L HL) as Hgen.
  unfold encrypt_token, decrypt_token.
  rewrite (bind_ok _ _ _ _ _ (unconfigured_key_is_fresh L W s Hunset)).
  unfold bind at 1, Fernet at 1. rewrite Hgen. cbn.
  eexists _, _. split; [reflexivity|].
  rewrite (bind_ok _ _ _ _ _ (unconfigured_key_is_fresh L W _ Hunset)).
  unfold bind, Fernet. rewrite Hgen. cbn.
  rewrite Hforeign; [reflexivity| apply Hgen | apply Hgen |].
  intros Heq. apply Hdiff. now symmetry.
Qed.

End EncryptionFurther.

(** ** gitlab_validator.py *)

(** X3.  Every validation result is well formed: either it is valid and
    carries no error, or it is invalid, carries no username, and has a
    message and an error code from the closed set of eight codes. *)
Theorem validation_result_is_well_formed
    (W : World) (url token : string) (s : Sys) :
  exists v s',
    validate_gitlab_credentials W url token s = (Ok v, s') /\
    ((GitLabValidationResult.is_valid v = true /\
      GitLabValidationResult.error_code v = None /\
      GitLabValidationResult.error_message v = None) \/
     (GitLabValidationResult.is_valid v = false /\
      GitLabValidationResult.gitlab_username v = None /\
      exists message code,
        GitLabValidationResult.error_message v = Some message /\
        GitLabValidationResult.error_code v = Some code /\
        In code error_codes)).
Proof.
  unfold validate_gitlab_credentials, bind, try_except, HttpUrl, http_get.
  set (u := rstrip_slash url).
  assert (Hinv : forall message code (st : Sys),
    In code error_codes ->
    exists v s',
      (Ok (invalid message code), st) = (Ok v, s') /\
      ((GitLabValidationResult.is_valid v = true /\
        GitLabValidationResult.error_code v = None /\
        GitLabValidationResult.error_message v = None) \/
       (GitLabValidationResult.is_valid v = false /\
        GitLabValidationResult.gitlab_username v = None /\
        exists message code,
          GitLabValidationResult.error_message v = Some message /\
          GitLabValidationResult.error_code v = Some code /\
          In code error_codes))).
  { intros message code st Hin. eexists _, _. split; [reflexivity|].
    right. cbn. repeat split. eauto. }
  destruct (HttpUrl_accepts W u); cbn.
  2: { apply Hinv. cbn. tauto. }
  destruct (client_get W (net_log s) _) as [r|e|msg]; cbn;
    [| |apply Hinv; cbn; tauto];
    (destruct (is_ascii token); cbn; [|apply Hinv; cbn; tauto]).
  - destruct (status_code r =? 200)%Z.
    + unfold response_json.
      destruct (json r) as [[[[| |]|]| | | | | |]|]; cbn;
        try (apply Hinv; cbn; tauto);
        (eexists _, _; split; [reflexivity|]; left; cbn; auto).
    + destruct (status_code r =? 401)%Z;
        [|destruct (status_code r =? 403)%Z;
          [|destruct (status_code r =? 404)%Z]];
        apply Hinv; cbn; tauto.
  - destruct e; apply Hinv; cbn; tauto.
Qed.

(** X4.  Trailing slashes of the URL do not matter: the URL is checked,
    and the request is made (when the URL is accepted and the client can
    build the request, the token being one it can send as a header),
    without them. *)
Theorem trailing_slashes_are_ignored
    (W : World) (url token : string) (s : Sys) (n : nat) :
  validate_gitlab_credentials W (url ++ slashes n) token s =
    validate_gitlab_credentials W url token s /\
  net_log (snd (validate_gitlab_credentials W (url ++ slashes n) token s)) =
    (if HttpUrl_accepts W (rstrip_slash url) && is_ascii token &&
        negb (is_refused (client_get W (net_log s) (user_request url token)))
     then net_log s ++ [user_request url token]
     else net_log s)%list.
Proof.
  assert (H : validate_gitlab_credentials W (url ++ slashes n) token s =
              validate_gitlab_credentials W url token s).
  { unfold validate_gitlab_credentials. now rewrite rstrip_slash_slashes. }
  split; [exact H|]. rewrite H.
  destruct (HttpUrl_accepts W (rstrip_slash url)) eqn:Hacc.
  - destruct (is_ascii token) eqn:Henc.
    + destruct (client_get W (net_log s) (user_request url token))
        as [r|e|msg] eqn:Hget; cbn [is_refused negb andb].
      * now rewrite (validate_sends_one_request W url token s Hacc Henc)
          by (intros msg; rewrite Hget; discriminate).
      * now rewrite (validate_sends_one_request W url token s Hacc Henc)
          by (intros msg; rewrite Hget; discriminate).
      * now rewrite (validate_refused W url token s msg Hacc Hget).
    + now rewrite (validate_not_encodable W url token s Hacc Henc).
  - now rewrite (validate_rejected_url W url token s Hacc).
Qed.

(** ** gitlab_tools.py *)

Lemma decrypt_token_frame L W ct s :
  let s' := snd (decrypt_token L W ct s) in
  db s' = db s /\ net_log s' = net_log s /\
  _current_gitlab_config s' = _current_gitlab_config s.
Proof.
  pose proof (get_encryption_key_frame L W s) as Hk.
  unfold decrypt_token, bind.
  destruct (get_encryption_key L W s) as [[k|e] s1]; cbn in *; [|exact Hk].
  unfold Fernet. destruct (Fernet_accepts L k); cbn; [|exact Hk].
  destruct (Fernet_decrypt L k ct) as [d|]; cbn; [|exact Hk].
  unfold decode. destruct (utf8_valid d); exact Hk.
Qed.

Section ToolsFurther.

Context (L : FernetLib) (W : World).

(** What a call of [list_merge_requests] does, by cases: it returns; the
    rows and the current configuration stay; either no request is made
    and the text is marked, or the one request for the current
    configuration is made and the text is marked unless the answer was a
    body that counts as false or a list of merge requests. *)
Lemma list_merge_requests_outcome (state : string) (s : Sys) :
  exists text s',
    list_merge_requests L W state s = (Ok text, s') /\
    db s' = db s /\
    _current_gitlab_config s' = _current_gitlab_config s /\
    ((net_log s' = net_log s /\ startswith text "❌" = true) \/
     (exists cfg project token s1,
        _current_gitlab_config s = Some cfg /\
        GitLabConfig.project_id cfg = Some project /\ project <> "" /\
        decrypt_token L W (GitLabConfig.access_token_encrypted cfg) s =
          (Ok token, s1) /\
        is_ascii token = true /\
        net_log s' =
          (net_log s ++ [merge_requests_request cfg project token state])%list /\
        (startswith text "❌" = true \/
         exists r b,
           client_get W (net_log s1)
             (merge_requests_request cfg project token state) = Responds r /\
           (200 <= status_code r < 300)%Z /\
           json r = Some b /\
           ((body_truthy b = false /\ text = none_found state project) \/
            (exists mrs, b = JMergeRequests mrs /\ mrs <> []))))).
Proof.
  unfold list_merge_requests, bind, current_gitlab_config.
  destruct (_current_gitlab_config s) as [cfg|] eqn:Hcfg.
  2: { eexists _, _. split; [reflexivity|]. rewrite Hcfg. auto. }
  destruct (GitLabConfig.project_id cfg) as [project|] eqn:Hproject;
    cbn [opt_truthy negb].
  2: { eexists _, _. split; [reflexivity|]. rewrite Hcfg. auto. }
  unfold str_truthy.
  destruct (String.eqb_spec project "") as [->|Hne]; cbn [negb].
  { eexists _, _. split; [reflexivity|]. rewrite Hcfg. auto. }
  pose proof (decrypt_token_frame L W
                (GitLabConfig.access_token_encrypted cfg) s) as Hframe.
  unfold try_except, bind.
  destruct (decrypt_token L W (GitLabConfig.access_token_encrypted cfg) s)
    as [[token|e] s1] eqn:Hdec; cbn in Hframe;
    destruct Hframe as (Hdb & Hlog & Hcur).
  2: { destruct e; eexists _, _; (split; [reflexivity|]);
       rewrite Hdb, Hcur, Hlog, Hcfg; auto. }
  unfold http_get. cbn [str_opt].
  destruct (is_ascii token) eqn:Hascii; cbn [negb].
  2: { destruct (client_get W (net_log s1) _) as [r|e|msg];
         eexists _, _; (split; [reflexivity|]);
         rewrite Hdb, Hcur, Hlog, Hcfg; auto. }
  fold (merge_requests_request cfg project token state).
  set (P := fun (text' : string) (s' : Sys) =>
    db s' = db s /\
    _current_gitlab_config s' = Some cfg /\
    ((net_log s' = net_log s /\ startswith text' "❌" = true) \/
     (exists cfg0 project0 token0 s2,
        Some cfg = Some cfg0 /\
        GitLabConfig.project_id cfg0 = Some project0 /\ project0 <> "" /\
        decrypt_token L W (GitLabConfig.access_token_encrypted cfg0) s =
          (Ok token0, s2) /\
        is_ascii token0 = true /\
        net_log s' =
          (net_log s ++
           [merge_requests_request cfg0 project0 token0 state])%list /\
        (startswith text' "❌" = true \/
         exists r b,
           client_get W (net_log s2)
             (merge_requests_request cfg0 project0 token0 state) =
             Responds r /\
           (200 <= status_code r < 300)%Z /\
           json r = Some b /\
           ((body_truthy b = false /\ text' = none_found state project0) \/
            (exists mrs, b = JMergeRequests mrs /\ mrs <> [])))))).
  assert (Hsent : forall text,
    (startswith text "❌" = true \/
     exists r b,
       client_get W (net_log s1)
         (merge_requests_request cfg project token state) = Responds r /\
       (200 <= status_code r < 300)%Z /\
       json r = Some b /\
       ((body_truthy b = false /\ text = none_found state project) \/
        (exists mrs, b = JMergeRequests mrs /\ mrs <> []))) ->
    exists text' s',
      (Ok text,
       {| db := db s1;
          net_log := (net_log s1 ++
                      [merge_requests_request cfg project token state])%list;
          _current_gitlab_config := _current_gitlab_config s1;
          drawn := drawn s1 |}) = (Ok text', s') /\ P text' s').
  { intros text Hm. eexists _, _. split; [reflexivity|]. unfold P. cbn.
    rewrite Hdb, Hcur, Hlog. repeat split; auto.
    right. exists cfg, project, token, s1. rewrite Hdec. auto 10. }
  destruct (client_get W (net_log s1)
              (merge_requests_request cfg project token state))
    as [r|e|msg] eqn:Hget.
  2: { destruct e; apply Hsent; left; reflexivity. }
  2: { eexists _, _. split; [reflexivity|]. unfold P.
       rewrite Hdb, Hcur, Hlog, Hcfg. auto. }
  unfold raise_for_status.
  destruct ((200 <=? status_code r)%Z && (status_code r <? 300)%Z) eqn:Hst;
    cbn.
  2: { apply Hsent; left; reflexivity. }
  apply andb_true_iff in Hst. destruct Hst as [Hlo Hhi].
  apply Z.leb_le in Hlo. apply Z.ltb_lt in Hhi.
  unfold response_json.
  destruct (json r) as [b|] eqn:Hjson; cbn.
  2: { apply Hsent; left; reflexivity. }
  destruct (body_truthy b) eqn:Hb; cbn [negb].
  - destruct b as [u|mrs|mr|ch| | |]; cbn;
      try (apply Hsent; left; reflexivity).
    apply Hsent. right. exists r, (JMergeRequests mrs).
    repeat split; auto. right. exists mrs. split; [reflexivity|].
    intros ->. discriminate Hb.
  - apply Hsent. right. exists r, b. repeat split; auto.
Qed.

(** The same for [get_merge_request_details]: the request for the changes
    is sent only after a 2xx answer with a JSON body to the request for
    the merge request. *)
Lemma get_merge_request_details_outcome (mr_number : Z) (s : Sys) :
  exists text s',
    get_merge_request_details L W mr_number s = (Ok text, s') /\
    db s' = db s /\
    _current_gitlab_config s' = _current_gitlab_config s /\
    ((net_log s' = net_log s /\ startswith text "❌" = true) \/
     (exists cfg project token s1,
        _current_gitlab_config s = Some cfg /\
        GitLabConfig.project_id cfg = Some project /\ project <> "" /\
        decrypt_token L W (GitLabConfig.access_token_encrypted cfg) s =
          (Ok token, s1) /\
        is_ascii token = true /\
        let rq1 := merge_request_request cfg project token mr_number in
        let rq2 := changes_request cfg project token mr_number in
        ((net_log s' = (net_log s ++ [rq1])%list /\
          startswith text "❌" = true) \/
         (net_log s' = (net_log s ++ [rq1; rq2])%list /\
          exists r1 b1,
            client_get W (net_log s1) rq1 = Responds r1 /\
            (200 <= status_code r1 < 300)%Z /\ json r1 = Some b1 /\
            (startswith text "❌" = true \/
             exists r2 b2 mr,
               client_get W (net_log s1 ++ [rq1])%list rq2 = Responds r2 /\
               (200 <= status_code r2 < 300)%Z /\ json r2 = Some b2 /\
               b1 = JMergeRequest mr))))).
Proof.
  unfold get_merge_request_details, bind, current_gitlab_config.
  destruct (_current_gitlab_config s) as [cfg|] eqn:Hcfg.
  2: { eexists _, _. split; [reflexivity|]. rewrite Hcfg. auto. }
  destruct (GitLabConfig.project_id cfg) as [project|] eqn:Hproject;
    cbn [opt_truthy negb].
  2: { eexists _, _. split; [reflexivity|]. rewrite Hcfg. auto. }
  unfold str_truthy.
  destruct (String.eqb_spec project "") as [->|Hne]; cbn [negb].
  { eexists _, _. split; [reflexivity|]. rewrite Hcfg. auto. }
  pose proof (decrypt_token_frame L W
                (GitLabConfig.access_token_encrypted cfg) s) as Hframe.
  unfold try_except, bind.
  destruct (decrypt_token L W (GitLabConfig.access_token_encrypted cfg) s)
    as [[token|e] s1] eqn:Hdec; cbn in Hframe;
    destruct Hframe as (Hdb & Hlog & Hcur).
  2: { destruct e; eexists _, _; (split; [reflexivity|]);
       rewrite Hdb, Hcur, Hlog, Hcfg; auto. }
  unfold http_get. cbn [str_opt].
  destruct (is_ascii token) eqn:Hascii; cbn [negb].
  2: { destruct (client_get W (net_log s1) _) as [r|e|msg];
         eexists _, _; (split; [reflexivity|]);
         rewrite Hdb, Hcur, Hlog, Hcfg; auto. }
  fold (merge_request_request cfg project token mr_number).
  fold (changes_request cfg project token mr_number).
  set (rq1 := merge_request_request cfg project token mr_number).
  set (rq2 := changes_request cfg project token mr_number).
  set (P := fun (text : string) (s' : Sys) =>
    db s' = db s /\
    _current_gitlab_config s' = Some cfg /\
    ((net_log s' = net_log s /\ startswith text "❌" = true) \/
     (exists cfg0 project0 token0 s2,
        Some cfg = Some cfg0 /\
        GitLabConfig.project_id cfg0 = Some project0 /\ project0 <> "" /\
        decrypt_token L W (GitLabConfig.access_token_encrypted cfg0) s =
          (Ok token0, s2) /\
        is_ascii token0 = true /\
        let rq1 := merge_request_request cfg0 project0 token0 mr_number in
        let rq2 := changes_request cfg0 project0 token0 mr_number in
        ((net_log s' = (net_log s ++ [rq1])%list /\
          startswith text "❌" = true) \/
         (net_log s' = (net_log s ++ [rq1; rq2])%list /\
          exists r1 b1,
            client_get W (net_log s2) rq1 = Responds r1 /\
            (200 <= status_code r1 < 300)%Z /\ json r1 = Some b1 /\
            (startswith text "❌" = true \/
             exists r2 b2 mr,
               client_get W (net_log s2 ++ [rq1])%list rq2 = Responds r2 /\
               (200 <= status_code r2 < 300)%Z /\ json r2 = Some b2 /\
               b1 = JMergeRequest mr)))))).
  assert (Hone : forall text,
    startswith text "❌" = true ->
    exists text' s',
      (Ok text,
       {| db := db s1; net_log := (net_log s1 ++ [rq1])%list;
          _current_gitlab_config := _current_gitlab_config s1;
          drawn := drawn s1 |}) = (Ok text', s') /\ P text' s').
  { intros text Hm. eexists _, _. split; [reflexivity|]. unfold P. cbn.
    rewrite Hdb, Hcur, Hlog. repeat split; auto.
    right. exists cfg, project, token, s1. rewrite Hdec. cbv zeta.
    repeat split; auto. }
  destruct (client_get W (net_log s1) rq1) as [r1|e|msg] eqn:Hget1.
  2: { destruct e; apply Hone; reflexivity. }
  2: { eexists _, _. split; [reflexivity|]. unfold P.
       rewrite Hdb, Hcur, Hlog, Hcfg. auto. }
  unfold raise_for_status at 1.
  destruct ((200 <=? status_code r1)%Z && (status_code r1 <? 300)%Z) eqn:Hst1;
    cbn.
  2: { apply Hone; reflexivity. }
  apply andb_true_iff in Hst1. destruct Hst1 as [Hlo1 Hhi1].
  apply Z.leb_le in Hlo1. apply Z.ltb_lt in Hhi1.
  unfold response_json at 1.
  destruct (json r1) as [b1|] eqn:Hjson1; cbn.
  2: { apply Hone; reflexivity. }
  assert (Htwo : forall text st,
    net_log st = ((net_log s1 ++ [rq1]) ++ [rq2])%list ->
    db st = db s1 -> _current_gitlab_config st = _current_gitlab_config s1 ->
    (startswith text "❌" = true \/
     exists r2 b2 mr,
       client_get W (net_log s1 ++ [rq1])%list rq2 = Responds r2 /\
       (200 <= status_code r2 < 300)%Z /\ json r2 = Some b2 /\
       b1 = JMergeRequest mr) ->
    exists text' s', (Ok text, st) = (Ok text', s') /\ P text' s').
  { intros text st Hl Hd Hc Hm. eexists _, _. split; [reflexivity|].
    unfold P. rewrite Hd, Hc, Hl, Hdb, Hcur, Hlog, <- app_assoc. cbn.
    repeat split; auto.
    right. exists cfg, project, token, s1. rewrite Hdec. cbv zeta.
    repeat split; auto. right. split; [reflexivity|].
    exists r1, b1. repeat split; auto. }
  destruct (client_get W (net_log s1 ++ [rq1])%list rq2)
    as [r2|e|msg] eqn:Hget2.
  2: { destruct e; apply Htwo; auto. }
  2: { apply Hone; reflexivity. }
  unfold raise_for_status.
  destruct ((200 <=? status_code r2)%Z && (status_code r2 <? 300)%Z) eqn:Hst2;
    cbn.
  2: { apply Htwo; auto. }
  apply andb_true_iff in Hst2. destruct Hst2 as [Hlo2 Hhi2].
  apply Z.leb_le in Hlo2. apply Z.ltb_lt in Hhi2.
  unfold response_json.
  destruct (json r2) as [b2|] eqn:Hjson2; cbn.
  2: { apply Htwo; auto. }
  destruct b1 as [u1|l1|mr|c1| | |]; cbn; try solve [apply Htwo; auto].
  assert (Hgood : forall text st,
    net_log st = ((net_log s1 ++ [rq1]) ++ [rq2])%list ->
    db st = db s1 -> _current_gitlab_config st = _current_gitlab_config s1 ->
    exists text' s', (Ok text, st) = (Ok text', s') /\ P text' s').
  { intros text st Hl Hd Hc. apply Htwo; auto.
    right. exists r2, b2, mr. repeat split; auto. }
  destruct b2 as [u2|l2|mr2|[changes|]| | |]; cbn;
    try solve [apply Htwo; auto];
    try solve [apply Hgood; reflexivity].
Qed.

(** Without a current configuration, or with one that has no
    project id, both tools answer with the same marked text and do
    nothing else: no key is resolved, nothing is decrypted, no request is
    sent. *)
Lemma tools_need_a_project (state : string) (mr_number : Z) (s : Sys) :
  (_current_gitlab_config s = None ->
     list_merge_requests L W state s = (Ok no_configuration_text, s) /\
     get_merge_request_details L W mr_number s =
       (Ok no_configuration_text, s)) /\
  (forall cfg,
     _current_gitlab_config s = Some cfg ->
     opt_truthy (GitLabConfig.project_id cfg) = false ->
     list_merge_requests L W state s = (Ok no_project_text, s) /\
     get_merge_request_details L W mr_number s = (Ok no_project_text, s)).
Proof.
  unfold list_merge_requests, get_merge_request_details, bind,
    current_gitlab_config.
  split.
  - intros ->. split; reflexivity.
  - intros cfg -> Hp. rewrite Hp. split; reflexivity.
Qed.

(** X5.  Neither tool raises, and whatever goes wrong (no configuration,
    no project, a token that cannot be decrypted or cannot be sent, a
    transport failure, a status outside 2xx, a body that is not JSON or
    that the tool cannot read) the text returned starts with the failure
    marker.  The text is unmarked only when the server answered with a 2xx
    status and, for the list, a list of merge requests or a body that
    counts as false (reported as nothing found); for the details, a merge
    request and then a JSON body. *)
Theorem tool_failures_are_marked (state : string) (mr_number : Z) (s : Sys) :
  (exists text s',
     list_merge_requests L W state s = (Ok text, s') /\
     (list_answered L W state s \/ startswith text "❌" = true)) /\
  (exists text s',
     get_merge_request_details L W mr_number s = (Ok text, s') /\
     (details_answered L W mr_number s \/ startswith text "❌" = true)).
Proof.
  split.
  - destruct (list_merge_requests_outcome state s)
      as (text & s' & Hrun & _ & _ & Hcases).
    exists text, s'. split; [exact Hrun|].
    destruct Hcases as [[_ Hm]|(cfg & project & token & s1 & Hc & Hp & Hne &
                                Hdec & Ha & _ &
                                [Hm|(r & b & Hg & Hst & Hj & Hb)])];
      auto.
    left. exists cfg, project, token, s1, r, b.
    repeat split; auto; try lia.
    destruct Hb as [[Hb _]|(mrs & Hb & _)]; [now left|right; now exists mrs].
  - destruct (get_merge_request_details_outcome mr_number s)
      as (text & s' & Hrun & _ & _ & Hcases).
    exists text, s'. split; [exact Hrun|].
    destruct Hcases as [[_ Hm]|(cfg & project & token & s1 & Hc & Hp & Hne &
                                Hdec & Ha & Hsent)]; auto.
    cbv zeta in Hsent.
    destruct Hsent as [[_ Hm]|(_ & r1 & b1 & Hg1 & Hst1 & Hj1 &
                               [Hm|(r2 & b2 & mr & Hg2 & Hst2 & Hj2 & Hb)])];
      auto.
    left. subst b1. exists cfg, project, token, s1, r1, r2, mr, b2. auto 12.
Qed.

(** X30.  A 2xx answer to the list request whose body counts as false
    ([null], [false], zero, an empty string, list or object) is reported
    as nothing found, not as a failure: the text is the one for no merge
    request and carries no failure marker. *)
Lemma empty_answer_is_nothing_found
    (state : string) (s s1 : Sys) (cfg : GitLabConfig.t)
    (project token : string) (r : Response) (b : Body) :
  _current_gitlab_config s = Some cfg ->
  GitLabConfig.project_id cfg = Some project ->
  project <> "" ->
  decrypt_token L W (GitLabConfig.access_token_encrypted cfg) s =
    (Ok token, s1) ->
  is_ascii token = true ->
  client_get W (net_log s1) (merge_requests_request cfg project token state) =
    Responds r ->
  (200 <= status_code r < 300)%Z ->
  json r = Some b ->
  body_truthy b = false ->
  fst (list_merge_requests L W state s) = Ok (none_found state project).
Proof.
  intros Hcfg Hproject Hne Hdec Hascii Hget Hstatus Hjson Hb.
  unfold list_merge_requests, bind, current_gitlab_config, try_except.
  rewrite Hcfg, Hproject. cbn [opt_truthy str_opt negb].
  apply String.eqb_neq in Hne. unfold str_truthy. rewrite Hne.
  cbn [negb]. rewrite Hdec.
  unfold http_get. rewrite Hascii. cbn [negb].
  fold (merge_requests_request cfg project token state).
  rewrite Hget. unfold raise_for_status.
  replace ((200 <=? status_code r)%Z && (status_code r <? 300)%Z)
    with true by (symmetry; apply andb_true_iff; split;
                  [apply Z.leb_le | apply Z.ltb_lt]; lia).
  unfold response_json. rewrite Hjson. unfold ret. cbv beta iota.
  rewrite Hb. reflexivity.
Qed.

(** X6.  [list_merge_requests] never changes the stored rows or the
    current configuration, and it sends one request at most: the list
    request of the current configuration, carrying its decrypted token. *)
Theorem list_merge_requests_effects (state : string) (s : Sys) :
  exists text s' new,
    list_merge_requests L W state s = (Ok text, s') /\
    only_sent new s s' /\
    (new = [] \/
     exists rq,
       new = [rq] /\
       for_current_configuration L W s
         (fun cfg project token =>
            merge_requests_request cfg project token state) rq).
Proof.
  destruct (list_merge_requests_outcome state s)
    as (text & s' & Hrun & Hdb & Hcur & Hcases).
  destruct Hcases as [[Hlog _]|(cfg & project & token & s1 & Hc & Hp & Hne &
                                Hdec & _ & Hlog & _)].
  - exists text, s', []. split; [exact Hrun|]. split; [|now left].
    unfold only_sent. now rewrite app_nil_r.
  - exists text, s', [merge_requests_request cfg project token state].
    split; [exact Hrun|]. split; [now unfold only_sent|].
    right. eexists. split; [reflexivity|].
    exists cfg, project, token, s1. auto.
Qed.

(** X7.  [get_merge_request_details] never changes the stored rows or
    the current configuration.  It sends two requests at most, both for
    the current configuration with its decrypted token: first the merge
    request, and the changes only after the first was answered with a
    2xx status and a JSON body. *)
Theorem get_merge_request_details_effects (mr_number : Z) (s : Sys) :
  exists text s' new,
    get_merge_request_details L W mr_number s = (Ok text, s') /\
    only_sent new s s' /\
    (new = [] \/
     exists rq1,
       for_current_configuration L W s
         (fun cfg project token =>
            merge_request_request cfg project token mr_number) rq1 /\
       (new = [rq1] \/
        exists rq2 r1 b1,
          new = [rq1; rq2] /\
          for_current_configuration L W s
            (fun cfg project token =>
               changes_request cfg project token mr_number) rq2 /\
          client_get W (net_log s) rq1 = Responds r1 /\
          (200 <= status_code r1 < 300)%Z /\ json r1 = Some b1)).
Proof.
  destruct (get_merge_request_details_outcome mr_number s)
    as (text & s' & Hrun & Hdb & Hcur & Hcases).
  destruct Hcases as [[Hlog _]|(cfg & project & token & s1 & Hc & Hp & Hne &
                                Hdec & _ & Hsent)].
  - exists text, s', []. split; [exact Hrun|]. split; [|now left].
    unfold only_sent. now rewrite app_nil_r.
  - cbv zeta in Hsent.
    assert (Hfor : forall make,
      for_current_configuration L W s make (make cfg project token)).
    { intros make. exists cfg, project, token, s1. auto. }
    pose proof (decrypt_token_frame L W
                  (GitLabConfig.access_token_encrypted cfg) s) as Hframe.
    rewrite Hdec in Hframe. cbn in Hframe. destruct Hframe as (_ & Hl1 & _).
    destruct Hsent as [[Hlog _]|(Hlog & r1 & b1 & Hg1 & Hst1 & Hj1 & _)].
    + exists text, s', [merge_request_request cfg project token mr_number].
      split; [exact Hrun|]. split; [now unfold only_sent|].
      right. eexists. split; [apply Hfor|]. now left.
    + exists text, s',
        [merge_request_request cfg project token mr_number;
         changes_request cfg project token mr_number].
      split; [exact Hrun|]. split; [now unfold only_sent|].
      right. eexists. split; [apply Hfor|]. right.
      exists (changes_request cfg project token mr_number), r1, b1.
      rewrite Hl1 in Hg1.
      split; [reflexivity|]. split; [apply Hfor|]. auto.
Qed.

Lemma add_change_appends (result : string) (change : Change) :
  add_change result change = result ++ change_block change.
Proof.
  unfold add_change, change_block.
  destruct (diff change) as [d|]; cbn [opt_truthy str_opt].
  - destruct (str_truthy d).
    + rewrite !append_assoc. reflexivity.
    + now rewrite append_nil_r.
  - now rewrite append_nil_r.
Qed.

Lemma fold_add_change (changes : list Change) (result : string) :
  fold_left add_change changes result =
    result ++ concat_str (map change_block changes).
Proof.
  revert result. induction changes as [|c l IH]; intros result; cbn.
  - now rewrite append_nil_r.
  - now rewrite IH, add_change_appends, append_assoc.
Qed.

(** X8.  When both requests are answered (they went out, so the token
    could be sent as a header), the changes are shown for the
    first five files at most, one block per file, followed by a line
    citing how many files were left out when there were more than five;
    with no change at all the text says so. *)
Theorem details_show_five_files_at_most
    (mr_number : Z) (s s1 : Sys) (cfg : GitLabConfig.t)
    (project token : string) (r1 r2 : Response) (mr : MergeRequest)
    (changes : list Change) :
  _current_gitlab_config s = Some cfg ->
  GitLabConfig.project_id cfg = Some project ->
  project <> "" ->
  decrypt_token L W (GitLabConfig.access_token_encrypted cfg) s =
    (Ok token, s1) ->
  is_ascii token = true ->
  client_get W (net_log s1)
    (merge_request_request cfg project token mr_number) = Responds r1 ->
  (200 <= status_code r1 < 300)%Z ->
  json r1 = Some (JMergeRequest mr) ->
  client_get W
    (net_log s1 ++ [merge_request_request cfg project token mr_number])%list
    (changes_request cfg project token mr_number) = Responds r2 ->
  (200 <= status_code r2 < 300)%Z ->
  json r2 = Some (JChanges (Some changes)) ->
  let shown := map change_block (firstn 5 changes) in
  let total := str_of_Z (Z.of_nat (length changes)) in
  let left_out := str_of_Z (Z.of_nat (length changes) - 5) in
  let footer := nl ++ "**URL:** " ++ web_url mr in
  let result := fst (get_merge_request_details L W mr_number s) in
  (length shown <= 5)%nat /\
  (changes = [] ->
     result = Ok (details_head mr ++ "No changes found." ++ nl ++ footer)) /\
  (changes <> [] -> (length changes <= 5)%nat ->
     result = Ok (details_head mr ++ nl ++ total ++ " file(s) changed:" ++
                  nl ++ nl ++ concat_str shown ++ footer)) /\
  ((5 < length changes)%nat ->
     result = Ok (details_head mr ++ nl ++ total ++ " file(s) changed:" ++
                  nl ++ nl ++ concat_str shown ++
                  "... and " ++ left_out ++ " more files" ++ nl ++ footer)).
Proof.
  intros Hcfg Hproject Hne Hdec Hascii Hget1 Hst1 Hjson1 Hget2 Hst2 Hjson2.
  cbv zeta.
  assert (Hok : forall r, (200 <= status_code r < 300)%Z ->
    ((200 <=? status_code r)%Z && (status_code r <? 300)%Z) = true).
  { intros r Hr. apply andb_true_iff. split;
      [apply Z.leb_le | apply Z.ltb_lt]; lia. }
  assert (Hrun : fst (get_merge_request_details L W mr_number s) =
    Ok ((match changes with
         | [] => details_head mr ++ "No changes found." ++ nl
         | _ =>
             if (5 <? length changes)%nat then
               fold_left add_change (firstn 5 changes)
                 (details_head mr ++ nl ++
                  str_of_Z (Z.of_nat (length changes)) ++
                  " file(s) changed:" ++ nl ++ nl) ++
               "... and " ++ str_of_Z (Z.of_nat (length changes) - 5) ++
               " more files" ++ nl
             else
               fold_left add_change (firstn 5 changes)
                 (details_head mr ++ nl ++
                  str_of_Z (Z.of_nat (length changes)) ++
                  " file(s) changed:" ++ nl ++ nl)
         end) ++ nl ++ "**URL:** " ++ web_url mr)).
  { unfold get_merge_request_details, bind, current_gitlab_config, try_except.
    rewrite Hcfg, Hproject. cbn [opt_truthy str_opt negb].
    apply String.eqb_neq in Hne. unfold str_truthy. rewrite Hne.
    cbn [negb]. rewrite Hdec.
    unfold http_get. rewrite Hascii. cbn [negb].
    fold (merge_request_request cfg project token mr_number).
    fold (changes_request cfg project token mr_number).
    rewrite Hget1. unfold raise_for_status. rewrite (Hok r1 Hst1).
    unfold response_json. rewrite Hjson1. unfold ret. cbv beta iota.
    cbn [net_log]. rewrite Hget2. rewrite (Hok r2 Hst2). cbv beta iota.
    rewrite Hjson2. unfold merge_request_of, get_changes, ret.
    cbv beta iota zeta. fold (details_head mr).
    destruct changes as [|c l]; [reflexivity|].
    destruct (5 <? length (c :: l))%nat; reflexivity. }
  rewrite Hrun. split; [|split; [|split]].
  - rewrite length_map, length_firstn. apply Nat.le_min_l.
  - intros ->. now rewrite !append_assoc.
  - intros Hn Hlen. destruct changes as [|c l]; [now destruct Hn|].
    apply Nat.ltb_ge in Hlen. rewrite Hlen, fold_add_change.
    now rewrite !append_assoc.
  - intros Hlen. destruct changes as [|c l]; [cbn in Hlen; lia|].
    apply Nat.ltb_lt in Hlen. rewrite Hlen, fold_add_change.
    now rewrite !append_assoc.
Qed.

End ToolsFurther.

(** *** Dates and diffs *)

Lemma split_cons (c a : ascii) (r : string) :
  split c (String a r) =
    if Ascii.eqb a c then "" :: split c r
    else String a (hd "" (split c r)) :: tl (split c r).
Proof.
  cbn. destruct (Ascii.eqb a c); [reflexivity|].
  now destruct (split c r).
Qed.

Lemma split_not_nil (c : ascii) (s : string) : split c s <> [].
Proof.
  destruct s as [|a r]; [discriminate|].
  rewrite split_cons. now destruct (Ascii.eqb a c).
Qed.

Lemma join_cons (sep p : string) (rest : list string) :
  rest <> [] -> join sep (p :: rest) = p ++ sep ++ join sep rest.
Proof. intros H. destruct rest; [now destruct H | reflexivity]. Qed.

(** Splitting at a character and joining with it gives the text back. *)
Lemma join_split (c : ascii) (s : string) :
  join (String c "") (split c s) = s.
Proof.
  induction s as [|a r IH]; [reflexivity|].
  rewrite split_cons.
  pose proof (split_not_nil c r) as Hne.
  destruct (Ascii.eqb_spec a c) as [->|Hac].
  - rewrite join_cons by exact Hne. cbn. now rewrite IH.
  - destruct (split c r) as [|h t]; [now destruct Hne|]. cbn [hd tl].
    destruct t as [|h' t'].
    + cbn in *. now rewrite IH.
    + rewrite join_cons by discriminate.
      rewrite join_cons in IH by discriminate.
      cbn [append] in *. now rewrite IH.
Qed.

Lemma split_head_cons (c a : ascii) (r : string) :
  split_head c (String a r) =
    if Ascii.eqb a c then "" else String a (split_head c r).
Proof.
  unfold split_head. rewrite split_cons. now destruct (Ascii.eqb a c).
Qed.

(** The text before the first occurrence of the character. *)
Lemma split_head_before (c : ascii) (a b : string) :
  has_char c a = false -> split_head c (a ++ String c b) = a.
Proof.
  induction a as [|x a IH]; cbn [has_char append]; intros H.
  - rewrite split_head_cons. now rewrite Ascii.eqb_refl.
  - apply orb_false_iff in H. destruct H as [Hx Ha].
    rewrite split_head_cons, Hx. now rewrite IH.
Qed.

Lemma split_head_absent (c : ascii) (a : string) :
  has_char c a = false -> split_head c a = a.
Proof.
  induction a as [|x a IH]; cbn [has_char]; intros H; [reflexivity|].
  apply orb_false_iff in H. destruct H as [Hx Ha].
  rewrite split_head_cons, Hx. now rewrite IH.
Qed.

(** X9.  A changed file whose diff has ten lines at most is shown with
    its whole diff, unchanged, inside the fenced block. *)
Theorem short_diff_is_shown_whole
    (result : string) (change : Change) (d : string) :
  diff change = Some d ->
  d <> "" ->
  (length (split nl_char d) <= 10)%nat ->
  add_change result change =
    result ++ "- **" ++ new_path change ++ "**" ++ nl ++
    "```diff" ++ nl ++ d ++ nl ++ "```" ++ nl ++ nl.
Proof.
  intros Hd Hne Hlen.
  rewrite add_change_appends. unfold change_block. rewrite Hd.
  apply String.eqb_neq in Hne. unfold str_truthy. rewrite Hne. cbn [negb].
  rewrite firstn_all2 by exact Hlen.
  unfold nl. now rewrite join_split.
Qed.

(** X10.  Of the creation and update timestamps an entry of the list
    shows the part before the first [T] only: what follows it has no
    effect on the entry. *)
Theorem format_mr_shows_dates_only
    (mr : MergeRequest) (date1 time1 date2 time2 : string) :
  has_char "T" date1 = false ->
  has_char "T" date2 = false ->
  format_mr (with_times mr (date1 ++ String "T" time1)
                           (date2 ++ String "T" time2)) =
    format_mr (with_times mr date1 date2).
Proof.
  intros H1 H2. unfold format_mr, with_times. cbn [mr_created_at mr_updated_at
    labels upvotes downvotes iid title author_name author_username state
    source_branch target_branch web_url].
  now rewrite !split_head_before, !split_head_absent by assumption.
Qed.

(** ** gitlab_agent.py *)

Lemma lower_ascii_idempotent (c : ascii) :
  lower_ascii (lower_ascii c) = lower_ascii c.
Proof. destruct c as [[] [] [] [] [] [] [] []]; reflexivity. Qed.

Lemma lower_idempotent (s : string) : lower (lower s) = lower s.
Proof.
  induction s as [|c s IH]; cbn; [reflexivity|].
  now rewrite lower_ascii_idempotent, IH.
Qed.

Lemma lower_app (a b : string) : lower (a ++ b) = lower a ++ lower b.
Proof. induction a as [|c a IH]; cbn; [reflexivity | now rewrite IH]. Qed.

(** X11.  What the pattern of a merge-request reference captures is a run
    of decimal digits, one at least.  [int()] reads it as a number that is
    not negative, unless the run is longer than the interpreter reads
    (more than 640 digits and more than its limit, 4300 unless
    configured): then [int()] raises [ValueError]. *)
Theorem captured_number_is_a_number
    (W : World) (query : string) (digits : list char) :
  re_search_mr_number (unicode_decimal W) (lower query) = Some digits ->
  let number :=
    int_of_digits (unicode_decimal W) (int_max_str_digits W) digits in
  let too_long :=
    (640 < length digits)%nat /\
    (0 < int_max_str_digits W < length digits)%nat in
  digits <> [] /\
  forallb (is_decimal (unicode_decimal W)) digits = true /\
  ((exists n, number = Ok n /\ 0 <= n /\ ~ too_long) \/
   (exists msg, number = Raise (ValueError msg) /\ too_long)).
Proof.
  intros H. cbv zeta.
  apply re_search_captures in H. destruct H as [Hne Hd].
  split; [exact Hne|]. split; [exact Hd|].
  exact (int_of_digits_captured (unicode_decimal W) (int_max_str_digits W)
           digits Hne Hd).
Qed.

(** X12.  Selecting by id is a lookup in the agent's own configurations:
    on success the selected configuration is one of them and has the
    requested id; on failure none has that id and the agent is left as it
    was. *)
Theorem select_config_by_id_is_a_lookup
    (self : GitLabAgent.t) (config_id : string) :
  let (found, self') := select_config_by_id self config_id in
  GitLabAgent.gitlab_configs self' = GitLabAgent.gitlab_configs self /\
  if found then
    exists c,
      GitLabAgent.selected_config self' = Some c /\
      In c (GitLabAgent.gitlab_configs self) /\
      str_uuid (GitLabConfig.id c) = config_id
  else
    self' = self /\
    forall c, In c (GitLabAgent.gitlab_configs self) ->
              str_uuid (GitLabConfig.id c) <> config_id.
Proof.
  unfold select_config_by_id.
  destruct (find _ _) as [c|] eqn:Hf.
  - split; [reflexivity|]. exists c. split; [reflexivity|].
    apply find_some in Hf. destruct Hf as [Hin Heq].
    split; [exact Hin|]. now apply String.eqb_eq.
  - split; [reflexivity|]. split; [reflexivity|].
    intros c Hin. apply String.eqb_neq.
    now apply (find_none _ _ Hf).
Qed.

Section AgentFurther.

Context (L : FernetLib) (W : World).

(** The first block of [handle_query] only ever selects one of the agent's
    own configurations, and changes nothing else of the agent. *)
Lemma select_for_query_selects (self self' : GitLabAgent.t)
    (last_config_id : option string) :
  select_for_query self last_config_id = inl self' ->
  GitLabAgent.gitlab_configs self' = GitLabAgent.gitlab_configs self /\
  GitLabAgent.user_id self' = GitLabAgent.user_id self /\
  exists c, GitLabAgent.selected_config self' = Some c.
Proof.
  unfold select_for_query.
  destruct (GitLabAgent.selected_config self) as [c0|] eqn:Hc0.
  { intros H. inversion H; subst self'. eauto. }
  set (prompt := _ ++ _).
  assert (Hactive :
    (if (length (filter GitLabConfig.is_active
                   (GitLabAgent.gitlab_configs self)) =? 1)%nat
     then inl (GitLabAgent.set_selected_config
                 (hd_error (filter GitLabConfig.is_active
                              (GitLabAgent.gitlab_configs self))) self)
     else inr prompt) = inl self' ->
    GitLabAgent.gitlab_configs self' = GitLabAgent.gitlab_configs self /\
    GitLabAgent.user_id self' = GitLabAgent.user_id self /\
    exists c, GitLabAgent.selected_config self' = Some c).
  { destruct (Nat.eqb_spec (length (filter GitLabConfig.is_active
                                      (GitLabAgent.gitlab_configs self))) 1)
      as [Hlen|]; [|discriminate].
    intros H. inversion H; subst self'. cbn.
    destruct (filter GitLabConfig.is_active
                (GitLabAgent.gitlab_configs self)) as [|c l];
      [discriminate Hlen|]. cbn. eauto. }
  destruct (opt_truthy last_config_id); [|exact Hactive].
  unfold select_config_by_id.
  destruct (find _ _) as [c|]; [|exact Hactive].
  intros H. inversion H; subst self'. cbn. eauto.
Qed.

(** What [handle_query] does once the agent has its configuration: it
    points the tools at it and dispatches on the lowered query. *)
Lemma handle_query_dispatches (self self' : GitLabAgent.t) (query : string)
    (last_config_id : option string) (s : Sys) :
  select_for_query self last_config_id = inl self' ->
  let s0 := pointed_at (GitLabAgent.selected_config self') s in
  handle_query L W self query last_config_id s =
    match re_search_mr_number (unicode_decimal W) (lower query) with
    | Some group1 =>
        match int_of_digits (unicode_decimal W) (int_max_str_digits W)
                group1 with
        | Ok mr_number =>
            let (text, s') := get_merge_request_details L W mr_number s0 in
            match text with
            | Ok text => (Ok (Some text), self', s')
            | Raise e => (Raise e, self', s')
            end
        | Raise e => (Raise e, self', s0)
        end
    | None =>
        if existsb (fun keyword => contains keyword (lower query))
                   list_keywords then
          let (text, s') :=
            list_merge_requests L W
              (if contains "closed" (lower query) then "closed"
               else if contains "merged" (lower query) then "merged"
               else if contains "all" (lower query) then "all"
               else "opened") s0 in
          match text with
          | Ok text => (Ok (Some text), self', s')
          | Raise e => (Raise e, self', s')
          end
        else (Ok None, self', s0)
    end.
Proof.
  intros Hsel. cbv zeta. unfold handle_query. rewrite Hsel.
  unfold answer_query, bind, set_gitlab_config, pointed_at, int_of_group.
  destruct (re_search_mr_number (unicode_decimal W) (lower query)) as [d|].
  - destruct (int_of_digits _ _ d) as [n|e]; [|reflexivity].
    now destruct (get_merge_request_details L W _ _) as [[t|e] s'].
  - destruct (existsb _ list_keywords); [|reflexivity].
    now destruct (list_merge_requests L W _ _) as [[t|e] s'].
Qed.

(** X13.  A selection is kept: once the agent has a configuration
    selected, what [handle_query] does is the same whatever remembered id
    is passed and however many configurations are active, and the agent
    is left as it was, whether the method returns or raises. *)
Theorem selection_is_sticky (self : GitLabAgent.t) (query : string)
    (last1 last2 : option string) (s : Sys) :
  GitLabAgent.selected_config self <> None ->
  handle_query L W self query last1 s = handle_query L W self query last2 s /\
  exists outcome s',
    handle_query L W self query last1 s = (outcome, self, s') /\
    (~ reference_too_long W query -> exists out, outcome = Ok out).
Proof.
  intros Hsel.
  assert (H : forall last, select_for_query self last = inl self).
  { intros last. unfold select_for_query.
    destruct (GitLabAgent.selected_config self); [reflexivity|].
    now destruct Hsel. }
  split.
  - unfold handle_query. now rewrite !H.
  - destruct (handle_query_selected L W self self query last1 s (H last1))
      as (o & s' & Hrun & Hok & _).
    now exists o, s'.
Qed.

(** X14.  With nothing selected, a remembered id that names one of the
    agent's configurations selects it, be it active or not and however
    many configurations are active; the selection is made whether the
    method then returns or raises. *)
Theorem remembered_id_is_selected_first (self : GitLabAgent.t)
    (query id : string) (c : GitLabConfig.t) (s : Sys) :
  GitLabAgent.selected_config self = None ->
  id <> "" ->
  In c (GitLabAgent.gitlab_configs self) ->
  str_uuid (GitLabConfig.id c) = id ->
  exists c' outcome s',
    handle_query L W self query (Some id) s =
      (outcome, GitLabAgent.set_selected_config (Some c') self, s') /\
    In c' (GitLabAgent.gitlab_configs self) /\
    str_uuid (GitLabConfig.id c') = id /\
    (~ reference_too_long W query -> exists out, outcome = Ok out).
Proof.
  intros Hnone Hne Hin Hid.
  destruct (find (fun config => str_uuid (GitLabConfig.id config) =? id)
              (GitLabAgent.gitlab_configs self)) as [c'|] eqn:Hf.
  2: { apply find_none with (x := c) in Hf; [|exact Hin].
       cbv beta in Hf. rewrite Hid, String.eqb_refl in Hf. discriminate. }
  assert (Hsel : select_for_query self (Some id) =
                 inl (GitLabAgent.set_selected_config (Some c') self)).
  { unfold select_for_query. rewrite Hnone. cbn [opt_truthy str_opt].
    apply String.eqb_neq in Hne. unfold str_truthy. rewrite Hne. cbn [negb].
    unfold select_config_by_id. now rewrite Hf. }
  destruct (handle_query_selected L W self _ query (Some id) s Hsel)
    as (o & s' & Hrun & Hok & _).
  exists c', o, s'. split; [exact Hrun|].
  apply find_some in Hf. destruct Hf as [Hin' Heq].
  split; [exact Hin'|]. split; [now apply String.eqb_eq|exact Hok].
Qed.

(** X15.  Dispatch does not depend on the case of the query. *)
Theorem dispatch_ignores_case (self : GitLabAgent.t) (query : string)
    (last_config_id : option string) (s : Sys) :
  handle_query L W self (lower query) last_config_id s =
    handle_query L W self query last_config_id s.
Proof.
  unfold handle_query, answer_query. now rewrite lower_idempotent.
Qed.

Lemma re_search_after (a b : string) (d : list char) :
  match_here (unicode_decimal W) b = Some d ->
  exists d', re_search_mr_number (unicode_decimal W) (a ++ b) = Some d'.
Proof.
  intros Hb. induction a as [|c a IH]; cbn [append].
  - exists d. destruct b; cbn [re_search_mr_number]; now rewrite Hb.
  - cbn [re_search_mr_number].
    destruct (match_here (unicode_decimal W) (String c (a ++ b))) as [d0|];
      [now exists d0|].
    exact IH.
Qed.

Lemma spaces_digits_finds (cs d : list char) :
  digits_here (unicode_decimal W) cs = Some d ->
  exists d', spaces_digits (unicode_decimal W) cs = Some d'.
Proof.
  intros H. destruct cs as [|c cs]; [discriminate H|].
  cbn [spaces_digits]. destruct (py_isspace c).
  - destruct (spaces_digits (unicode_decimal W) cs) as [d0|];
      [now exists d0|now exists d].
  - now exists d.
Qed.

Lemma match_here_bang (after : string) (c : char) (rest : list char) :
  chars after = c :: rest ->
  is_decimal (unicode_decimal W) c = true ->
  exists d, match_here (unicode_decimal W) (String "!" after) = Some d.
Proof.
  intros Hc Hd. unfold match_here, match_keyword.
  assert (Hp : prefix "!" (String "!" after) = true)
    by (cbn; now destruct after).
  rewrite Hp. change (drop 1 (String "!" after)) with after.
  apply spaces_digits_finds
    with (d := c :: take_digits (unicode_decimal W) rest).
  unfold digits_here. rewrite Hc. cbn [take_digits]. now rewrite Hd.
Qed.

(** X16.  A bang followed by a decimal digit, anywhere in the lowered
    query, is a merge-request reference: with a configuration selected or
    selectable the query goes to the detail tool, whatever else it says,
    and the answer is that tool's text (or the [ValueError] of [int()]
    when the number has more digits than [int()] reads). *)
Theorem bang_number_goes_to_details (self : GitLabAgent.t)
    (query before after : string) (c : char) (rest : list char)
    (last_config_id : option string) (s : Sys) :
  lower query = before ++ String "!" after ->
  chars after = c :: rest ->
  is_decimal (unicode_decimal W) c = true ->
  selectable self last_config_id ->
  exists self' digits,
    re_search_mr_number (unicode_decimal W) (lower query) = Some digits /\
    let s0 := pointed_at (GitLabAgent.selected_config self') s in
    ((exists n text s',
        int_of_digits (unicode_decimal W) (int_max_str_digits W) digits =
          Ok n /\
        get_merge_request_details L W n s0 = (Ok text, s') /\
        handle_query L W self query last_config_id s =
          (Ok (Some text), self', s')) \/
     (exists msg,
        reference_too_long W query /\
        handle_query L W self query last_config_id s =
          (Raise (ValueError msg), self', s0))).
Proof.
  intros Hq Hc Hd Hsel.
  destruct (select_for_query_selectable self last_config_id Hsel)
    as (self' & Hs & _).
  destruct (match_here_bang after c rest Hc Hd) as (d0 & Hm0).
  destruct (re_search_after before _ d0 Hm0) as (d & Hm).
  rewrite <- Hq in Hm.
  exists self', d. split; [exact Hm|]. cbv zeta.
  rewrite (handle_query_dispatches self self' _ last_config_id s Hs).
  cbv zeta. rewrite Hm.
  destruct (re_search_captures _ _ _ Hm) as [Hne Hdec].
  destruct (int_of_digits_captured (unicode_decimal W)
              (int_max_str_digits W) d Hne Hdec)
    as [(n & Hn & _)|(msg & Hmsg & Hlong)].
  - left. rewrite Hn.
    destruct (get_merge_request_details_returns L W n
                (pointed_at (GitLabAgent.selected_config self') s))
      as (text & s' & Ht).
    exists n, text, s'. rewrite Ht. auto.
  - right. rewrite Hmsg. exists msg. split; [|reflexivity].
    now exists d.
Qed.

End AgentFurther.

Section AgentEffects.

Context (L : FernetLib) (W : World).

(** X17.  [/review-mr] with a configuration id answers what [/show-mr]
    answers, followed by the hint for the next step when the id was found;
    both leave the same agent and the same state behind. *)
Theorem review_is_show_plus_hint
    (self : GitLabAgent.t) (config_id : string) (s : Sys) :
  exists text self' s',
    process_with_config L W self "/show-mr" config_id s =
      (Ok (text, self'), s') /\
    process_with_config L W self "/review-mr" config_id s =
      (Ok (if fst (select_config_by_id self config_id)
           then text ++ nl ++ nl ++ review_hint
           else text, self'), s').
Proof.
  unfold process_with_config.
  destruct (select_config_by_id self config_id) as [[|] self'];
    cbn [negb fst].
  - change (startswith "/show-mr" "/show-mr") with true.
    change (startswith "/review-mr" "/show-mr") with false.
    change (startswith "/review-mr" "/review-mr") with true.
    cbv iota. unfold bind, set_gitlab_config.
    match goal with
    | |- context [list_merge_requests L W ?st ?sy] =>
        destruct (list_merge_requests_returns L W st sy) as (t & s' & Ht)
    end.
    exists t, self', s'. rewrite Ht. split; reflexivity.
  - eexists _, _, _. split; reflexivity.
Qed.

(** [process_with_config] with an id that none of the agent's
    configurations has answers with a marked error for every command, and
    changes neither the agent nor the state: it sends nothing. *)
Lemma unknown_config_id_is_reported
    (self : GitLabAgent.t) (command config_id : string) (s : Sys) :
  (forall c, In c (GitLabAgent.gitlab_configs self) ->
             str_uuid (GitLabConfig.id c) <> config_id) ->
  process_with_config L W self command config_id s =
    (Ok ("❌ Error: GitLab configuration with ID `" ++ config_id ++
         "` not found.", self), s).
Proof.
  intros H. unfold process_with_config.
  now rewrite (select_config_by_id_misses self config_id H).
Qed.

(** X18.  [handle_query] never changes the stored rows or the agent's
    list of configurations, and the only exception that leaves it is the
    [ValueError] of [int()], for a reference of more digits than [int()]
    reads.  When a configuration is selected or selectable, the agent is
    left with one selected and the tools are left pointed at it, whether
    the method returns or raises; otherwise the agent and the state are
    left as they were and the method returns. *)
Theorem handle_query_effects (self : GitLabAgent.t) (query : string)
    (last_config_id : option string) (s : Sys) :
  exists outcome self' s',
    handle_query L W self query last_config_id s = (outcome, self', s') /\
    ((exists out, outcome = Ok out) \/
     (exists msg, outcome = Raise (ValueError msg) /\
                  reference_too_long W query /\
                  selectable self last_config_id)) /\
    db s' = db s /\
    GitLabAgent.gitlab_configs self' = GitLabAgent.gitlab_configs self /\
    (selectable self last_config_id ->
       exists c,
         GitLabAgent.selected_config self' = Some c /\
         _current_gitlab_config s' = Some c) /\
    (~ selectable self last_config_id ->
       self' = self /\ s' = s /\ exists out, outcome = Ok out).
Proof.
  destruct (select_for_query self last_config_id) as [self'|prompt] eqn:Hsel.
  - destruct (select_for_query_selects self self' last_config_id Hsel)
      as (Hconfigs & _ & c & Hc).
    assert (Hyes : selectable self last_config_id).
    { unfold selectable.
      destruct (GitLabAgent.selected_config self) eqn:H0;
        [left; discriminate|].
      destruct (Nat.eq_dec (length (active_configs self)) 1) as [H1|H1];
        [auto|].
      right. left. unfold resolves.
      unfold select_for_query in Hsel. rewrite H0 in Hsel.
      fold (active_configs self) in Hsel.
      apply Nat.eqb_neq in H1. rewrite H1 in Hsel.
      destruct last_config_id as [id|]; cbn [opt_truthy str_opt] in Hsel;
        [|discriminate].
      unfold str_truthy in Hsel.
      destruct (String.eqb_spec id "") as [|Hid]; cbn [negb] in Hsel;
        [discriminate|].
      unfold select_config_by_id in Hsel.
      destruct (find _ _) as [c'|] eqn:Hf; [|discriminate].
      apply find_some in Hf. destruct Hf as [Hin Heq].
      apply String.eqb_eq in Heq. now exists id, c'. }
    rewrite (handle_query_dispatches L W self self' query last_config_id s
               Hsel).
    cbv zeta.
    set (s0 := pointed_at (GitLabAgent.selected_config self') s).
    assert (Hfinish : forall (outcome : result (option string)) (s' : Sys),
      ((exists out, outcome = Ok out) \/
       (exists msg, outcome = Raise (ValueError msg) /\
                    reference_too_long W query)) ->
      db s' = db s0 ->
      _current_gitlab_config s' = _current_gitlab_config s0 ->
      exists outcome0 self0 s0',
        (outcome, self', s') = (outcome0, self0, s0') /\
        ((exists out, outcome0 = Ok out) \/
         (exists msg, outcome0 = Raise (ValueError msg) /\
                      reference_too_long W query /\
                      selectable self last_config_id)) /\
        db s0' = db s /\
        GitLabAgent.gitlab_configs self0 = GitLabAgent.gitlab_configs self /\
        (selectable self last_config_id ->
           exists c0,
             GitLabAgent.selected_config self0 = Some c0 /\
             _current_gitlab_config s0' = Some c0) /\
        (~ selectable self last_config_id ->
           self0 = self /\ s0' = s /\ exists out, outcome0 = Ok out)).
    { intros o s' Ho Hd Hcur. exists o, self', s'.
      split; [reflexivity|]. split.
      { destruct Ho as [Ho|(msg & Ho & Hl)]; [now left|].
        right. now exists msg. }
      split; [exact Hd|]. split; [exact Hconfigs|].
      split; [|tauto]. intros _. exists c. split; [exact Hc|].
      rewrite Hcur. unfold s0. cbn. exact Hc. }
    destruct (re_search_mr_number (unicode_decimal W) (lower query))
      as [d|] eqn:Hre.
    + destruct (re_search_captures _ _ _ Hre) as [Hne Hdec].
      destruct (int_of_digits_captured (unicode_decimal W)
                  (int_max_str_digits W) d Hne Hdec)
        as [(n & Hn & _)|(msg & Hmsg & Hlong)].
      * rewrite Hn.
        destruct (get_merge_request_details_outcome L W n s0)
          as (text & s' & Hrun & Hd & Hcur & _).
        rewrite Hrun. apply Hfinish; auto. left. now eexists.
      * rewrite Hmsg. apply Hfinish; auto. right. exists msg.
        split; [reflexivity|]. exists d. now rewrite Hre.
    + destruct (existsb _ list_keywords).
      * match goal with
        | |- context [list_merge_requests L W ?st s0] =>
            destruct (list_merge_requests_outcome L W st s0)
              as (text & s' & Hrun & Hd & Hcur & _)
        end.
        rewrite Hrun. apply Hfinish; auto. left. now eexists.
      * apply Hfinish; auto. left. now eexists.
  - assert (Hno : ~ selectable self last_config_id).
    { intros Hyes.
      destruct (select_for_query_selectable self last_config_id Hyes)
        as (self' & Hs & _).
      rewrite Hs in Hsel. discriminate. }
    unfold handle_query. rewrite Hsel.
    eexists _, _, _. split; [reflexivity|].
    split; [left; now eexists|].
    repeat split; try tauto. now eexists.
Qed.

End AgentEffects.

(** ** llm_service.py *)



Section ServiceFurther.

Context (L : FernetLib) (HL : FernetLaws L) (W : World).

(** What a creation does when the user holds no row for the URL. *)
Lemma create_fresh (config_data : GitLabConfigCreate.t)
    (current_user : string) (s : Sys) :
  holds_no_row_for (db s) current_user
    (GitLabConfigCreate.gitlab_url config_data) ->
  exists v s1 k t1 s2,
    validate_gitlab_credentials W
      (GitLabConfigCreate.gitlab_url config_data)
      (GitLabConfigCreate.access_token config_data) s = (Ok v, s1) /\
    get_encryption_key L W s1 = (Ok k, t1) /\
    Fernet_accepts L k = true /\
    db s2 = db s /\
    let row :=
      GitLabConfig.mk (uuid4 W (drawn s2) mod 2 ^ 128)%N current_user
        (GitLabConfigCreate.config_name config_data)
        (GitLabConfigCreate.gitlab_url config_data)
        (Fernet_encrypt L k (os_urandom W (drawn t1))
           (encode (GitLabConfigCreate.access_token config_data)))
        (GitLabConfigCreate.project_id config_data)
        (GitLabValidationResult.is_valid v) (utcnow W) (utcnow W) in
    create_gitlab_config L W config_data current_user s =
      (Ok (response_dict row v),
       {| db := (db s ++ [row])%list; net_log := net_log s2;
          _current_gitlab_config := _current_gitlab_config s2;
          drawn := S (drawn s2) |}).
Proof.
  intros Hfresh.
  destruct (validate_returns W (GitLabConfigCreate.gitlab_url config_data)
              (GitLabConfigCreate.access_token config_data) s)
    as (v & s1 & Hval & _).
  destruct (get_encryption_key_accepted L HL W s1) as (k & t1 & Hk & Hacc).
  destruct (encrypt_token_returns L HL W
              (GitLabConfigCreate.access_token config_data) s1)
    as (enc & s2 & Henc).
  pose proof (encrypt_token_value L HL W
                (GitLabConfigCreate.access_token config_data) s1 k t1 Hk)
    as Hvalue.
  rewrite Henc in Hvalue. cbn in Hvalue. inversion Hvalue; subst enc.
  pose proof (validate_frame W (GitLabConfigCreate.gitlab_url config_data)
                (GitLabConfigCreate.access_token config_data) s) as Hf1.
  pose proof (encrypt_token_frame L W
                (GitLabConfigCreate.access_token config_data) s1) as Hf2.
  rewrite Hval in Hf1. rewrite Henc in Hf2. cbn in Hf1, Hf2.
  destruct Hf1 as (Hdb1 & _). destruct Hf2 as (Hdb2 & _).
  exists v, s1, k, t1, s2.
  split; [exact Hval|]. split; [exact Hk|]. split; [exact Hacc|].
  split; [congruence|]. cbv zeta.
  assert (Hfind : find (fun c =>
            (GitLabConfig.user_id c =? current_user) &&
            (GitLabConfig.gitlab_url c =?
               GitLabConfigCreate.gitlab_url config_data)) (db s) = None).
  { apply find_none_iff. intros c Hin.
    destruct (String.eqb_spec (GitLabConfig.user_id c) current_user) as [Hu|];
      [|reflexivity].
    destruct (String.eqb_spec (GitLabConfig.gitlab_url c)
                (GitLabConfigCreate.gitlab_url config_data)) as [Hurl|];
      [|reflexivity].
    now destruct (Hfresh c Hin Hu). }
  unfold create_gitlab_config, bind, query_first. rewrite Hfind, Hval, Henc.
  cbn. now rewrite Hdb2, Hdb1.
Qed.

(** X19.  Listing returns the caller's rows and no one else's, each
    without validation details, and changes nothing. *)
Theorem get_gitlab_configs_is_scoped (current_user : string) (s : Sys) :
  exists responses,
    get_gitlab_configs current_user s = (Ok responses, s) /\
    (forall response,
       In response responses <->
       exists row,
         In row (db s) /\ GitLabConfig.user_id row = current_user /\
         response = response_of_config row) /\
    (forall response,
       In response responses ->
       GitLabConfigResponse.validation_error_code response = None /\
       GitLabConfigResponse.gitlab_username response = None).
Proof.
  eexists. split; [reflexivity|]. split.
  - intros response. rewrite in_map_iff. split.
    + intros (row & Hr & Hin). apply filter_In in Hin.
      destruct Hin as [Hin Hu]. apply String.eqb_eq in Hu.
      exists row. auto.
    + intros (row & Hin & Hu & ->). exists row. split; [reflexivity|].
      apply filter_In. split; [exact Hin|]. now apply String.eqb_eq.
  - intros response Hin. apply in_map_iff in Hin.
    destruct Hin as (row & <- & _). split; reflexivity.
Qed.

(** X20.  Deleting an owned row is a hard delete: every row with that id
    is gone, every other row stays, nothing is sent, and reading or
    deleting the same id again ends in [not_found_error]. *)
Theorem delete_is_hard (config_id current_user : string) (s : Sys)
    (c : GitLabConfig.t) :
  find (owned_by config_id current_user) (db s) = Some c ->
  exists s',
    delete_gitlab_config config_id current_user s = (Ok tt, s') /\
    db s' = without_id (GitLabConfig.id c) (db s) /\
    net_log s' = net_log s /\
    (forall r, In r (db s') <->
               In r (db s) /\ GitLabConfig.id r <> GitLabConfig.id c) /\
    get_gitlab_config config_id current_user s' =
      (Raise not_found_error, s') /\
    delete_gitlab_config config_id current_user s' =
      (Raise not_found_error, s').
Proof.
  intros Hfind.
  assert (Hid : uuid_in config_id = Some (GitLabConfig.id c)).
  { apply find_some in Hfind. destruct Hfind as [_ H].
    now apply owned_by_true in H. }
  unfold delete_gitlab_config at 1. unfold bind.
  rewrite (query_config_finds _ _ _ _ Hfind). unfold db_delete.
  eexists. split; [reflexivity|]. cbn [db net_log set_db].
  fold (without_id (GitLabConfig.id c) (db s)).
  split; [reflexivity|]. split; [reflexivity|].
  assert (Hin : forall r,
    In r (without_id (GitLabConfig.id c) (db s)) <->
    In r (db s) /\ GitLabConfig.id r <> GitLabConfig.id c).
  { intros r. unfold without_id. rewrite filter_In.
    rewrite negb_true_iff, N.eqb_neq. tauto. }
  split; [exact Hin|].
  assert (Hgone : find (owned_by config_id current_user)
                    (without_id (GitLabConfig.id c) (db s)) = None).
  { apply find_none_iff. intros r Hr. apply Hin in Hr.
    destruct Hr as [_ Hne]. unfold owned_by. rewrite Hid.
    apply N.eqb_neq in Hne. now rewrite Hne. }
  unfold get_gitlab_config, delete_gitlab_config, bind, query_config.
  rewrite Hid. unfold query_first. cbn [db set_db].
  fold (without_id (GitLabConfig.id c) (db s)). now rewrite Hgone.
Qed.

(** X21.  Creation keeps the URLs of every user unique: whatever is
    submitted and whatever the outcome, if no user held two rows with the
    same URL before, none does after. *)
Theorem create_keeps_urls_unique (config_data : GitLabConfigCreate.t)
    (current_user : string) (s : Sys) :
  urls_unique (db s) ->
  urls_unique
    (db (snd (create_gitlab_config L W config_data current_user s))).
Proof.
  intros Hu.
  destruct (find (fun c =>
              (GitLabConfig.user_id c =? current_user) &&
              (GitLabConfig.gitlab_url c =?
                 GitLabConfigCreate.gitlab_url config_data)) (db s))
    as [c|] eqn:Hfind.
  - unfold create_gitlab_config, bind, query_first. now rewrite Hfind.
  - assert (Hfresh : holds_no_row_for (db s) current_user
                       (GitLabConfigCreate.gitlab_url config_data)).
    { intros c Hin Huser Hurl.
      apply find_none with (x := c) in Hfind; [|exact Hin].
      cbn in Hfind. rewrite Huser, Hurl, !String.eqb_refl in Hfind.
      discriminate. }
    destruct (create_fresh config_data current_user s Hfresh)
      as (v & s1 & k & t1 & s2 & _ & _ & _ & _ & Hrun).
    cbv zeta in Hrun. rewrite Hrun. cbn [snd db].
    unfold urls_unique in *. rewrite map_app. cbn [map].
    apply NoDup_app; [exact Hu | repeat constructor; intros [] |].
    intros key Hin [<-|[]].
    apply in_map_iff in Hin. destruct Hin as (c & Hkey & Hin).
    unfold url_key in Hkey. cbn in Hkey. inversion Hkey as [[Huser Hurl]].
    exact (Hfresh c Hin Huser Hurl).
Qed.

End ServiceFurther.

Section ServiceComposition.

Context (L : FernetLib) (HL : FernetLaws L) (W : World).






End ServiceComposition.

(** ** Reading the language model's output *)

(** The three places where [_extract_agent_response] looks for text
    before it falls back on [str()]. *)
Lemma extraction_stages (run_output : RunOutput.t) :
  _extract_agent_response run_output =
    match
      match RunOutput.messages run_output with
      | Some messages => last_assistant_text (rev messages)
      | None => None
      end
    with
    | Some text => text
    | None =>
        match
          match RunOutput.content run_output with
          | Some (ContentStr content) =>
              if str_truthy (strip content) then Some content else None
          | Some (ContentList items _) =>
              joined (flat_map output_item_parts items)
          | Some (ContentOther _) | None => None
          end
        with
        | Some text => text
        | None =>
            if opt_truthy (RunOutput.text run_output) then
              str_opt (RunOutput.text run_output)
            else
              match RunOutput.message run_output with
              | Some msg =>
                  match Message.content msg with
                  | Some content => str_of_content content
                  | None => Message.str msg
                  end
              | None => RunOutput.str run_output
              end
        end
    end.
Proof.
  unfold _extract_agent_response.
  now destruct (RunOutput.messages run_output) as [[|m l]|].
Qed.

Lemma message_parts_without_tool_use (items : list Item) :
  flat_map message_item_parts
    (filter (fun item => negb (is_tool_use item)) items) =
  flat_map message_item_parts items.
Proof.
  induction items as [|item items IH]; [reflexivity|].
  cbn [filter flat_map].
  destruct (is_tool_use item) eqn:Htool; cbn [negb flat_map].
  - rewrite IH.
    destruct item as [[t|] text|[t|] text| |]; cbn in Htool;
      try discriminate Htool.
    + apply String.eqb_eq in Htool. subst t. reflexivity.
    + apply String.eqb_eq in Htool. subst t. reflexivity.
  - now rewrite IH.
Qed.

Lemma output_parts_without_tool_use (items : list Item) :
  flat_map output_item_parts
    (filter (fun item => negb (is_tool_use item)) items) =
  flat_map output_item_parts items.
Proof.
  induction items as [|item items IH]; [reflexivity|].
  cbn [filter flat_map].
  destruct (is_tool_use item) eqn:Htool; cbn [negb flat_map].
  - rewrite IH.
    destruct item as [[t|] text|[t|] text| |]; cbn in Htool;
      try discriminate Htool; try reflexivity.
    apply String.eqb_eq in Htool. subst t. reflexivity.
  - now rewrite IH.
Qed.

Lemma last_assistant_text_without_tool_use (l l' : list Message.t) :
  Forall2 message_without_tool_use l l' ->
  last_assistant_text l' = last_assistant_text l.
Proof.
  induction 1 as [|msg msg' l l' [Hrole Hcontent] _ IH]; [reflexivity|].
  cbn [last_assistant_text]. rewrite Hrole, IH.
  destruct (negb (is_type (Message.role msg) "assistant")); [reflexivity|].
  unfold both, content_without_tool_use in Hcontent.
  destruct (Message.content msg) as [[c|items repr|repr]|],
           (Message.content msg') as [[c'|items' repr'|repr']|];
    try contradiction; try discriminate Hcontent;
    try (inversion Hcontent; subst; reflexivity); try reflexivity.
  subst items'. now rewrite message_parts_without_tool_use.
Qed.

Lemma Forall2_rev {A B} (R : A -> B -> Prop) (l : list A) (l' : list B) :
  Forall2 R l l' -> Forall2 R (rev l) (rev l').
Proof.
  induction 1 as [|a b l l' Hab _ IH]; [constructor|].
  cbn [rev]. apply Forall2_app; [exact IH|]. now constructor.
Qed.

(** A run output that says something is not read through [str()]. *)
Lemma says_something_is_found (run_output : RunOutput.t) :
  says_something run_output = true ->
  match RunOutput.messages run_output with
  | Some messages => last_assistant_text (rev messages)
  | None => None
  end <> None \/
  match RunOutput.content run_output with
  | Some (ContentStr content) =>
      if str_truthy (strip content) then Some content else None
  | Some (ContentList items _) => joined (flat_map output_item_parts items)
  | Some (ContentOther _) | None => None
  end <> None \/
  opt_truthy (RunOutput.text run_output) = true.
Proof.
  unfold says_something. intros H.
  apply orb_true_iff in H. destruct H as [H|H]; [|now right; right].
  apply orb_true_iff in H. destruct H as [H|H].
  - left. destruct (RunOutput.messages run_output) as [l|]; [|discriminate].
    apply existsb_exists in H. destruct H as (msg & Hin & Hmsg).
    apply andb_true_iff in Hmsg. destruct Hmsg as [Hrole Htext].
    apply in_rev in Hin. revert Hin.
    induction (rev l) as [|m r IH]; intros Hin; [now destruct Hin|].
    cbn [last_assistant_text].
    destruct Hin as [->|Hin].
    + unfold is_assistant in Hrole. rewrite Hrole. cbn [negb].
      unfold has_text in Htext.
      destruct (Message.content msg) as [[c|items repr|repr]|];
        try discriminate Htext.
      * rewrite Htext. discriminate.
      * unfold joined.
        destruct (flat_map message_item_parts items);
          [discriminate Htext|discriminate].
    + destruct (negb (is_type (Message.role m) "assistant")); [now apply IH|].
      destruct (Message.content m) as [[c|items repr|repr]|];
        try (now apply IH).
      * destruct (str_truthy (strip c)); [discriminate|now apply IH].
      * destruct (joined (flat_map message_item_parts items));
          [discriminate|now apply IH].
  - right. left.
    destruct (RunOutput.content run_output) as [[c|items repr|repr]|];
      try discriminate H.
    + rewrite H. discriminate.
    + unfold joined.
      destruct (flat_map output_item_parts items);
        [discriminate H|discriminate].
Qed.

(** X26.  Tool-use elements never reach the text that is extracted: when
    the run output says something, taking the tool-use elements out of
    every content list leaves the result of [_extract_agent_response] as
    it is.  (A run output that says nothing is turned into text by
    [str()], tool-use elements included.) *)
Theorem tool_use_is_skipped (run_output run_output' : RunOutput.t) :
  without_tool_use run_output run_output' ->
  says_something run_output = true ->
  _extract_agent_response run_output' = _extract_agent_response run_output.
Proof.
  intros (Hm & Hc & Ht) Hsays.
  apply says_something_is_found in Hsays.
  rewrite !extraction_stages.
  assert (Hm' :
    match RunOutput.messages run_output' with
    | Some messages => last_assistant_text (rev messages)
    | None => None
    end =
    match RunOutput.messages run_output with
    | Some messages => last_assistant_text (rev messages)
    | None => None
    end).
  { unfold both in Hm.
    destruct (RunOutput.messages run_output) as [l|],
             (RunOutput.messages run_output') as [l'|];
      try contradiction; [|reflexivity].
    apply last_assistant_text_without_tool_use. now apply Forall2_rev. }
  assert (Hc' :
    match RunOutput.content run_output' with
    | Some (ContentStr content) =>
        if str_truthy (strip content) then Some content else None
    | Some (ContentList items _) => joined (flat_map output_item_parts items)
    | Some (ContentOther _) | None => None
    end =
    match RunOutput.content run_output with
    | Some (ContentStr content) =>
        if str_truthy (strip content) then Some content else None
    | Some (ContentList items _) => joined (flat_map output_item_parts items)
    | Some (ContentOther _) | None => None
    end).
  { unfold both, content_without_tool_use in Hc.
    destruct (RunOutput.content run_output) as [[c|items repr|repr]|],
             (RunOutput.content run_output') as [[c'|items' repr'|repr']|];
      try contradiction; try discriminate Hc;
      try (inversion Hc; subst; reflexivity); try reflexivity.
    subst items'. now rewrite output_parts_without_tool_use. }
  rewrite Hm', Hc', Ht.
  destruct (match RunOutput.messages run_output with
            | Some messages => last_assistant_text (rev messages)
            | None => None
            end); [reflexivity|].
  destruct (match RunOutput.content run_output with
            | Some (ContentStr content) =>
                if str_truthy (strip content) then Some content else None
            | Some (ContentList items _) =>
                joined (flat_map output_item_parts items)
            | Some (ContentOther _) | None => None
            end); [reflexivity|].
  destruct Hsays as [H|[H|H]]; try (now destruct H).
  now rewrite H.
Qed.

Lemma last_assistant_text_only_assistant (l : list Message.t) :
  last_assistant_text (filter is_assistant l) = last_assistant_text l.
Proof.
  induction l as [|msg l IH]; [reflexivity|].
  cbn [filter last_assistant_text]. unfold is_assistant at 1.
  destruct (is_type (Message.role msg) "assistant") eqn:Hrole;
    cbn [negb last_assistant_text]; [|exact IH].
  rewrite Hrole. cbn [negb]. now rewrite IH.
Qed.

Lemma filter_rev {A} (p : A -> bool) (l : list A) :
  filter p (rev l) = rev (filter p l).
Proof.
  induction l as [|a l IH]; [reflexivity|].
  cbn [rev filter]. rewrite filter_app, IH. cbn [filter].
  destruct (p a); [reflexivity|]. now rewrite app_nil_r.
Qed.

(** X27.  Only the assistant's messages count: when the run output says
    something, taking every other message (user, system, tool, or one
    without a role) out of it leaves the result of
    [_extract_agent_response] as it is. *)
Theorem other_roles_are_ignored (run_output run_output' : RunOutput.t) :
  assistant_only run_output run_output' ->
  says_something run_output = true ->
  _extract_agent_response run_output' = _extract_agent_response run_output.
Proof.
  intros (Hm & Hc & Ht) Hsays.
  apply says_something_is_found in Hsays.
  rewrite !extraction_stages. rewrite Hm, Hc, Ht.
  assert (Hm' :
    match option_map (filter is_assistant) (RunOutput.messages run_output)
    with
    | Some messages => last_assistant_text (rev messages)
    | None => None
    end =
    match RunOutput.messages run_output with
    | Some messages => last_assistant_text (rev messages)
    | None => None
    end).
  { destruct (RunOutput.messages run_output) as [l|]; [|reflexivity].
    cbn [option_map].
    now rewrite <- filter_rev, last_assistant_text_only_assistant. }
  rewrite Hm'.
  destruct (match RunOutput.messages run_output with
            | Some messages => last_assistant_text (rev messages)
            | None => None
            end); [reflexivity|].
  destruct (match RunOutput.content run_output with
            | Some (ContentStr content) =>
                if str_truthy (strip content) then Some content else None
            | Some (ContentList items _) =>
                joined (flat_map output_item_parts items)
            | Some (ContentOther _) | None => None
            end); [reflexivity|].
  destruct Hsays as [H|[H|H]]; try (now destruct H).
  now rewrite H.
Qed.

Lemma last_assistant_text_skips (skipped rest : list Message.t) :
  (forall msg, In msg skipped ->
     is_assistant msg = false \/ has_text msg = false) ->
  last_assistant_text (skipped ++ rest) = last_assistant_text rest.
Proof.
  induction skipped as [|m l IH]; intros H; [reflexivity|].
  cbn [app last_assistant_text].
  rewrite IH by (intros msg Hin; apply H; now right).
  destruct (H m (or_introl eq_refl)) as [Hrole|Htext].
  - unfold is_assistant in Hrole. now rewrite Hrole.
  - destruct (is_type (Message.role m) "assistant"); [|reflexivity].
    cbn [negb]. unfold has_text in Htext.
    destruct (Message.content m) as [[c|items repr|repr]|]; try reflexivity.
    + now rewrite Htext.
    + unfold joined. now destruct (flat_map message_item_parts items).
Qed.

(** X28.  The answer is the last thing the assistant said: when an
    assistant message has a string content that is not blank, and no
    assistant message after it says anything, [_extract_agent_response]
    returns that content unchanged, whatever else the run output holds. *)
Theorem last_assistant_message_wins
    (run_output : RunOutput.t) (before after : list Message.t)
    (msg : Message.t) (content : string) :
  RunOutput.messages run_output = Some (before ++ msg :: after)%list ->
  is_assistant msg = true ->
  Message.content msg = Some (ContentStr content) ->
  str_truthy (strip content) = true ->
  (forall later, In later after ->
     is_assistant later = false \/ has_text later = false) ->
  _extract_agent_response run_output = content.
Proof.
  intros Hm Hrole Hcontent Htext Hafter.
  unfold _extract_agent_response. rewrite Hm.
  assert (Hlast : last_assistant_text (rev (before ++ msg :: after)) =
                  Some content).
  { rewrite rev_app_distr. cbn [rev]. rewrite <- app_assoc.
    rewrite last_assistant_text_skips.
    - cbn [app last_assistant_text]. unfold is_assistant in Hrole.
      now rewrite Hrole, Hcontent, Htext.
    - intros later Hin. apply Hafter. now apply in_rev. }
  destruct (before ++ msg :: after)%list eqn:Hl.
  - now destruct before.
  - now rewrite Hlast.
Qed.

(** ** The further properties at concrete inputs *)

Lemma starts_with_same_length (p q l : bytes) :
  length p = length q -> Toy.starts_with p (q ++ l)%list = true -> p = q.
Proof.
  revert q. induction p as [|a p IH]; intros [|b q] Hlen H;
    try discriminate Hlen; [reflexivity|].
  cbn in H. apply andb_true_iff in H. destruct H as [Hab Hrest].
  apply Byte.byte_dec_bl in Hab. subst b. f_equal.
  apply IH; [now inversion Hlen | exact Hrest].
Qed.

(** The stand-in library refuses tokens made under another key. *)
Lemma toy_rejects_foreign_keys : rejects_foreign_keys Toy.lib.
Proof.
  intros k1 k2 iv m H1 H2 Hne. unfold Toy.lib in *.
  cbv beta iota delta [Fernet_accepts Fernet_encrypt Fernet_decrypt] in *.
  apply Nat.eqb_eq in H1, H2.
  destruct (Toy.starts_with k2 (k1 ++ Toy.pad 16 iv ++ m)%list) eqn:Hs;
    [|reflexivity].
  apply starts_with_same_length in Hs; [|congruence].
  now destruct Hne.
Qed.

(** X1 at two runs with the same passphrase. *)
Lemma encrypted_token_survives_restart_witness :
  exists ct s1',
    encrypt_token Toy.lib (Toy.world 0) "glpat-good" sys0 = (Ok ct, s1') /\
    fst (decrypt_token Toy.lib (Toy.world 3) ct alice_db) = Ok "glpat-good".
Proof.
  apply (encrypted_token_survives_restart Toy.lib toy_laws (Toy.world 0)
           (Toy.world 3) sys0 alice_db "glpat-good"
           "correct horse battery staple");
    [reflexivity | reflexivity | reflexivity | discriminate].
Defined.

(** X2 at a process without [ENCRYPTION_KEY]. *)
Lemma unconfigured_key_breaks_roundtrip_witness :
  exists ct s1,
    encrypt_token Toy.lib unconfigured_world "glpat-good" sys0 = (Ok ct, s1) /\
    fst (decrypt_token Toy.lib unconfigured_world ct s1) = Raise InvalidToken.
Proof.
  apply (unconfigured_key_breaks_roundtrip Toy.lib toy_laws
           unconfigured_world sys0 "glpat-good");
    [reflexivity | exact toy_rejects_foreign_keys | discriminate].
Defined.

(** X8 at merge request 7 with six changed files. *)
Lemma details_show_five_files_at_most_witness :
  fst (get_merge_request_details Toy.lib details_world 7 alice_selected) =
    Ok (details_head (Toy.mr 7) ++ nl ++ "6 file(s) changed:" ++ nl ++ nl ++
        concat_str (map change_block (firstn 5 six_changes)) ++
        "... and 1 more files" ++ nl ++ nl ++ "**URL:** " ++
        web_url (Toy.mr 7)).
Proof.
  refine (proj2 (proj2 (proj2
    (details_show_five_files_at_most Toy.lib details_world 7
       alice_selected alice_selected
       (Toy.config Toy.id1 "alice" "https://gitlab.example.com" true)
       "42" "glpat-good"
       {| status_code := 200; text := "";
          json := Some (JMergeRequest (Toy.mr 7)) |}
       {| status_code := 200; text := "";
          json := Some (JChanges (Some six_changes)) |}
       (Toy.mr 7) six_changes
       eq_refl eq_refl _ _ eq_refl eq_refl _ eq_refl eq_refl _ eq_refl))) _).
  - discriminate.
  - vm_compute. reflexivity.
  - cbn. lia.
  - cbn. lia.
  - cbn. lia.
Defined.

(** X9 at a diff of three lines. *)
Lemma short_diff_is_shown_whole_witness :
  add_change "" {| new_path := "README.md";
                   diff := Some ("@@ -1 +1 @@" ++ nl ++ "-old" ++ nl ++
                                 "+new") |} =
    "" ++ "- **" ++ "README.md" ++ "**" ++ nl ++ "```diff" ++ nl ++
    ("@@ -1 +1 @@" ++ nl ++ "-old" ++ nl ++ "+new") ++ nl ++ "```" ++ nl ++ nl.
Proof.
  apply (short_diff_is_shown_whole ""
           {| new_path := "README.md";
              diff := Some ("@@ -1 +1 @@" ++ nl ++ "-old" ++ nl ++ "+new") |}
           ("@@ -1 +1 @@" ++ nl ++ "-old" ++ nl ++ "+new"));
    [reflexivity | discriminate | vm_compute; lia].
Defined.

(** X10 at timestamps as GitLab sends them. *)
Lemma format_mr_shows_dates_only_witness :
  format_mr (with_times (Toy.mr 1) ("2024-01-02" ++ String "T" "03:04:05Z")
                                   ("2024-01-03" ++ String "T" "10:00:00Z")) =
    format_mr (with_times (Toy.mr 1) "2024-01-02" "2024-01-03").
Proof.
  apply (format_mr_shows_dates_only (Toy.mr 1) "2024-01-02" "03:04:05Z"
           "2024-01-03" "10:00:00Z"); reflexivity.
Defined.

(** X11 at a spelled-out reference. *)
Lemma captured_number_is_a_number_witness :
  chars "456" <> [] /\
  forallb (is_decimal (unicode_decimal (Toy.world 3))) (chars "456") = true /\
  ((exists n,
      int_of_digits (unicode_decimal (Toy.world 3))
        (int_max_str_digits (Toy.world 3)) (chars "456") = Ok n /\
      0 <= n /\
      ~ ((640 < length (chars "456"))%nat /\
         (0 < int_max_str_digits (Toy.world 3) < length (chars "456"))%nat)) \/
   (exists msg,
      int_of_digits (unicode_decimal (Toy.world 3))
        (int_max_str_digits (Toy.world 3)) (chars "456") =
        Raise (ValueError msg) /\
      (640 < length (chars "456"))%nat /\
      (0 < int_max_str_digits (Toy.world 3) < length (chars "456"))%nat)).
Proof.
  apply (captured_number_is_a_number (Toy.world 3)
           "Show me Merge Request !456" (chars "456")).
  reflexivity.
Defined.

(** X13 at an agent with its first configuration selected. *)
Lemma selection_is_sticky_witness :
  handle_query Toy.lib (Toy.world 3) selected_agent "list" (Some Toy.text2) sys0
    = handle_query Toy.lib (Toy.world 3) selected_agent "list" None sys0 /\
  exists outcome s',
    handle_query Toy.lib (Toy.world 3) selected_agent "list" (Some Toy.text2)
      sys0 = (outcome, selected_agent, s') /\
    (~ reference_too_long (Toy.world 3) "list" -> exists out, outcome = Ok out).
Proof.
  apply (selection_is_sticky Toy.lib (Toy.world 3) selected_agent "list"
           (Some Toy.text2) None sys0).
  discriminate.
Defined.

(** X14 at the remembered id of an inactive configuration. *)
Lemma remembered_id_is_selected_first_witness :
  exists c' outcome s',
    handle_query Toy.lib (Toy.world 3) one_active_agent "list"
      (Some Toy.text1) sys0 =
      (outcome, GitLabAgent.set_selected_config (Some c') one_active_agent,
       s') /\
    In c' (GitLabAgent.gitlab_configs one_active_agent) /\
    str_uuid (GitLabConfig.id c') = Toy.text1 /\
    (~ reference_too_long (Toy.world 3) "list" -> exists out, outcome = Ok out).
Proof.
  apply (remembered_id_is_selected_first Toy.lib (Toy.world 3)
           one_active_agent "list" Toy.text1
           (Toy.config Toy.id1 "alice" "https://gitlab.example.com" false)
           sys0);
    [reflexivity | discriminate | now left | reflexivity].
Defined.

(** X16 at a query that also holds a list keyword. *)
Lemma bang_number_goes_to_details_witness :
  exists self' digits,
    re_search_mr_number (unicode_decimal (Toy.world 3))
      (lower ("please list " ++ String "!" "456")) = Some digits /\
    ((exists n text s',
        int_of_digits (unicode_decimal (Toy.world 3))
          (int_max_str_digits (Toy.world 3)) digits = Ok n /\
        get_merge_request_details Toy.lib (Toy.world 3) n
          (pointed_at (GitLabAgent.selected_config self') sys0) =
          (Ok text, s') /\
        handle_query Toy.lib (Toy.world 3) one_active_agent
          ("please list " ++ String "!" "456") None sys0 =
          (Ok (Some text), self', s')) \/
     (exists msg,
        reference_too_long (Toy.world 3)
          ("please list " ++ String "!" "456") /\
        handle_query Toy.lib (Toy.world 3) one_active_agent
          ("please list " ++ String "!" "456") None sys0 =
          (Raise (ValueError msg), self',
           pointed_at (GitLabAgent.selected_config self') sys0))).
Proof.
  apply (bang_number_goes_to_details Toy.lib (Toy.world 3) one_active_agent
           ("please list " ++ String "!" "456") "please list " "456"
           {| code := 52; utf8 := "4" |} (chars "56") None sys0).
  - reflexivity.
  - reflexivity.
  - reflexivity.
  - right. right. reflexivity.
Defined.

(** X20 at one of two rows. *)
Lemma delete_is_hard_witness :
  exists s',
    delete_gitlab_config Toy.text1 "alice" alice_two_rows = (Ok tt, s') /\
    db s' = without_id Toy.id1 (db alice_two_rows) /\
    net_log s' = net_log alice_two_rows /\
    (forall r, In r (db s') <->
               In r (db alice_two_rows) /\ GitLabConfig.id r <> Toy.id1) /\
    get_gitlab_config Toy.text1 "alice" s' = (Raise not_found_error, s') /\
    delete_gitlab_config Toy.text1 "alice" s' = (Raise not_found_error, s').
Proof.
  apply (delete_is_hard Toy.text1 "alice" alice_two_rows
           (Toy.config Toy.id1 "alice" "https://gitlab.example.com" true)).
  reflexivity.
Defined.

(** X21 at a creation for a new URL. *)
Lemma create_keeps_urls_unique_witness :
  urls_unique
    (db (snd (create_gitlab_config Toy.lib (Toy.world 0)
                (GitLabConfigCreate.mk None "https://gitlab.example.org"
                   "glpat-good" None)
                "alice" alice_db))).
Proof.
  apply (create_keeps_urls_unique Toy.lib toy_laws (Toy.world 0)).
  unfold urls_unique. cbn. constructor; [intros []|constructor].
Defined.





(** X26 at a conversation with a tool call. *)
Lemma tool_use_is_skipped_witness :
  _extract_agent_response
    (RunOutput.mk
       (Some
          [Message.mk (Some "user")
             (Some (ContentStr "list my merge requests")) "Message";
           Message.mk (Some "assistant") (Some (ContentList [] "[]"))
             "Message";
           Message.mk (Some "tool") (Some (ContentStr "3 merge requests"))
             "Message";
           Message.mk (Some "assistant")
             (Some (ContentStr "You have 3 open merge requests.")) "Message";
           Message.mk (Some "assistant") (Some (ContentStr "  ")) "Message"])
       None None None "RunOutput(...)") =
  _extract_agent_response (only_messages conversation).
Proof.
  apply (tool_use_is_skipped (only_messages conversation)).
  - split; [|split; [exact I | reflexivity]].
    cbn. repeat (constructor; [split; reflexivity|]). constructor.
  - reflexivity.
Defined.

(** X27 at the same conversation. *)
Lemma other_roles_are_ignored_witness :
  _extract_agent_response
    (RunOutput.mk (Some (filter is_assistant conversation)) None None None
       "RunOutput(...)") =
  _extract_agent_response (only_messages conversation).
Proof.
  apply (other_roles_are_ignored (only_messages conversation)).
  - split; [reflexivity | split; reflexivity].
  - reflexivity.
Defined.

(** X28 at a conversation with a tool call. *)
Lemma last_assistant_message_wins_witness :
  _extract_agent_response (only_messages conversation) =
    "You have 3 open merge requests.".
Proof.
  apply (last_assistant_message_wins (only_messages conversation)
           (firstn 3 conversation)
           [Message.mk (Some "assistant") (Some (ContentStr "  ")) "Message"]
           (Message.mk (Some "assistant")
              (Some (ContentStr "You have 3 open merge requests."))
              "Message")
           "You have 3 open merge requests.");
    [reflexivity | reflexivity | reflexivity | reflexivity |].
  intros later [<-|[]]. right. reflexivity.
Defined.


(** X30 at a server that answers [null]. *)
Lemma empty_answer_is_nothing_found_witness :
  fst (list_merge_requests Toy.lib null_world "opened" alice_selected) =
    Ok "No opened merge requests found in project 42.".
Proof.
  refine (empty_answer_is_nothing_found Toy.lib null_world "opened"
            alice_selected alice_selected
            (Toy.config Toy.id1 "alice" "https://gitlab.example.com" true)
            "42" "glpat-good"
            {| status_code := 200; text := "null"; json := Some JFalse |}
            JFalse eq_refl eq_refl _ _ eq_refl eq_refl _ eq_refl eq_refl).
  - discriminate.
  - vm_compute. reflexivity.
  - cbn. lia.
Defined.
